(** * cmplr: a shallow embedding of [src/bin/cmplr.ts]

    The command line tool is a sequence of file-system reads, calls to
    external tools and one rewrite of [package.json].  The embedding keeps
    that shape: JavaScript values are JSON values (objects are finite maps
    from property names to values), [undefined] is [None], and every
    [async] function of the source is a computation in a small monad that
    threads the file system and the console, and that can return, throw or
    end the process. *)

From Stdlib Require Import ZArith String Ascii List Bool Lia.
From stdpp Require Import base option list gmap strings fin_maps pretty.

#[local] Set Warnings "-register-all,-clear-no-such-hyp".
#[local] Open Scope string_scope.

(** ** JavaScript strings *)

Module JsString.

(** [s.startsWith(p)] *)
Definition startsWith (s p : string) : bool := String.prefix p s.

(** [s.endsWith(p)] *)
Definition endsWith (s p : string) : bool :=
  (String.length p <=? String.length s)%nat
  && String.eqb (substring (String.length s - String.length p) (String.length p) s) p.

(** [s.includes(p)] *)
Definition includes (s p : string) : bool :=
  match String.index 0 p s with Some _ => true | None => false end.

(** [s.slice(i, j)] for [0 <= i] and [0 <= j] *)
Definition slice (s : string) (i j : nat) : string := substring i (j - i) s.

End JsString.

Import JsString.

(** ** JSON values

    [JSON.parse] yields one of these; an object is a finite map.  Numbers
    are kept as integers: the program only ever tests a number for being
    zero. *)

Inductive json :=
| JNull
| JBool (b : bool)
| JNum (n : Z)
| JStr (s : string)
| JArr (elems : list json)
| JObj (props : gmap string json).

(** A JavaScript value that may be [undefined]. *)
Abbreviation value := (option json).

Module Js.

(** Truthiness, as tested by [if (v)], [!v] and [v || w]. *)
Definition truthy (v : value) : bool :=
  match v with
  | None | Some JNull => false
  | Some (JBool b) => b
  | Some (JNum n) => negb (n =? 0)%Z
  | Some (JStr s) => negb (String.eqb s "")
  | Some (JArr _) | Some (JObj _) => true
  end.

(** [v === undefined || v === null], the test behind [?.] and [??]. *)
Definition nullish (v : value) : bool :=
  match v with None | Some JNull => true | _ => false end.

(** [v?.k]: own property [k] of an object.  The names the program reads
    ([jsc], [files], [rootDir], ...) are own properties of no string,
    array, number or boolean, and no prototype has them. *)
Definition get (v : value) (k : string) : value :=
  match v with
  | Some (JObj props) => props !! k
  | _ => None
  end.

(** [a || b] and [a ?? b] *)
Definition or (a b : value) : value := if truthy a then a else b.
Definition coalesce (a b : value) : value := if nullish a then b else a.

(** [{...v}]: the own enumerable properties of [v].  An array spreads
    its elements and a string its characters under their indices. *)
Definition spread (v : value) : gmap string json :=
  match v with
  | Some (JObj props) => props
  | Some (JArr elems) => list_to_map (imap (λ i x, (pretty i, x)) elems)
  | Some (JStr s) =>
      list_to_map (imap (λ i c, (pretty i, JStr (String c ""))) (list_ascii_of_string s))
  | _ => ∅
  end.

(** [String(v)], the conversion a template literal applies.  An object
    is rendered by [Object.prototype.toString]; a property named
    [toString] of the object itself is not looked at. *)
Fixpoint toString (j : json) : string :=
  match j with
  | JNull => "null"
  | JBool true => "true"
  | JBool false => "false"
  | JNum n => pretty n
  | JStr s => s
  | JArr elems =>
      String.concat ","
        (map (λ x, match x with JNull => "" | _ => toString x end) elems)
  | JObj _ => "[object Object]"
  end.

Definition template (v : value) : string :=
  match v with None => "undefined" | Some j => toString j end.

(** A value of declared type [string] that may be [undefined] at run
    time ([args[++i]] past the end of [args]). *)
Definition ofArg (a : option string) : value := JStr <$> a.

(** What [JSON.stringify] writes for an array element: [undefined]
    becomes [null]. *)
Definition element (a : option string) : json := from_option JStr JNull a.

(** [arr.includes(a)] for a string or [undefined] [a] and an array of
    JSON values: only an equal string is the same value. *)
Definition includes (arr : list json) (a : option string) : bool :=
  existsb (λ x, match x, a with
                | JStr s, Some t => String.eqb s t
                | _, _ => false
                end) arr.

End Js.

(** ** [path.parse(p).name]

    Node's POSIX implementation: one scan of the path from its last
    character to its first, then a slice.  [-1] is "not seen yet". *)

Module Path.

Record scan := Scan {
  startDot : Z;
  startPart : Z;
  end_ : Z;
  matchedSlash : bool;
  preDotState : Z
}.

Definition scan0 : scan :=
  {| startDot := -1; startPart := 0; end_ := -1; matchedSlash := true; preDotState := 0 |}.

(** The [for (; i >= start; --i)] loop; [k] is [i + 1]. *)
Fixpoint scanLoop (path : string) (start : nat) (k : nat) (st : scan) : scan :=
  match k with
  | O => st
  | S i =>
      if (i <? start)%nat then st else
      match String.get i path with
      | None => st
      | Some code =>
          if Ascii.eqb code "/" then
            if negb (matchedSlash st)
            then {| startDot := startDot st; startPart := Z.of_nat i + 1; end_ := end_ st;
                    matchedSlash := matchedSlash st; preDotState := preDotState st |}
            else scanLoop path start i st
          else
            let st1 :=
              if (end_ st =? -1)%Z
              then {| startDot := startDot st; startPart := startPart st;
                      end_ := Z.of_nat i + 1; matchedSlash := false;
                      preDotState := preDotState st |}
              else st in
            let st2 :=
              if Ascii.eqb code "." then
                if (startDot st1 =? -1)%Z
                then {| startDot := Z.of_nat i; startPart := startPart st1; end_ := end_ st1;
                        matchedSlash := matchedSlash st1; preDotState := preDotState st1 |}
                else if negb (preDotState st1 =? 1)%Z
                then {| startDot := startDot st1; startPart := startPart st1; end_ := end_ st1;
                        matchedSlash := matchedSlash st1; preDotState := 1 |}
                else st1
              else if negb (startDot st1 =? -1)%Z
              then {| startDot := startDot st1; startPart := startPart st1; end_ := end_ st1;
                      matchedSlash := matchedSlash st1; preDotState := -1 |}
              else st1 in
            scanLoop path start i st2
      end
  end.

(** [path.parse(p).name] for a string [p]. *)
Definition name (path : string) : string :=
  if (String.length path =? 0)%nat then "" else
  let isAbsolute := match String.get 0 path with
                    | Some c => Ascii.eqb c "/" | None => false end in
  let start := if isAbsolute then 1%nat else 0%nat in
  let st := scanLoop path start (String.length path) scan0 in
  if (end_ st =? -1)%Z then "" else
  let start' := if (startPart st =? 0)%Z && isAbsolute then 1%Z else startPart st in
  if (startDot st =? -1)%Z
     || (preDotState st =? 0)%Z
     || ((preDotState st =? 1)%Z
         && (startDot st =? end_ st - 1)%Z
         && (startDot st =? startPart st + 1)%Z)
  then slice path (Z.to_nat start') (Z.to_nat (end_ st))
  else slice path (Z.to_nat start') (Z.to_nat (startDot st)).

End Path.

(** ** The process and its environment *)

(** What a [throw] carries. *)
Inductive error :=
| Error (message : string)
| TypeError (message : string)
| SyntaxError (message : string)
| SystemError (code : string) (path : string)
| ChildProcessError (command : string).

(** An entry of a directory, as [readdir(..., { withFileTypes: true })]
    reports it. *)
Record Dirent := { name : string; isFile : bool }.

(** A file holds text; the text is represented by the JSON value it
    denotes, [None] when it is not JSON.  [JSON.stringify] followed by
    [JSON.parse] is the identity on JSON values. *)
Inductive node :=
| Dir (entries : list Dirent)
| File (text : option json).

(** The file system maps the paths the program uses, relative to the
    working directory, to nodes.  A path is the string the program
    passes: two spellings of one path are two keys. *)
Abbreviation FileSystem := (gmap string node).

(** What the process shows or starts. *)
Inductive event :=
| ConsoleLog (message : string)
| ConsoleWarn (message : string)
| ConsoleError (message : string) (err : option error)
| Exec (command : string)
| Install (package : string) (dev : bool).

Record World := { fs : FileSystem; events : list event }.

(** A computation returns, throws, or ends the process with a status
    ([process.exit]); a [catch] handles only the second. *)
Inductive outcome (A : Type) :=
| Ret (a : A)
| Throw (e : error)
| Exit (status : Z).
Arguments Ret {A} a.
Arguments Throw {A} e.
Arguments Exit {A} status.

Definition M (A : Type) : Type := World → outcome A * World.

Definition ret {A} (a : A) : M A := λ w, (Ret a, w).
Definition throw {A} (e : error) : M A := λ w, (Throw e, w).
Definition processExit {A} (status : Z) : M A := λ w, (Exit status, w).

Definition bind {A B} (k : A → M B) (m : M A) : M B :=
  λ w, match m w with
       | (Ret a, w') => k a w'
       | (Throw e, w') => (Throw e, w')
       | (Exit s, w') => (Exit s, w')
       end.

(** [x ← m; k] awaits [m] and goes on with [k]. *)
#[export] Instance M_ret : MRet M := @ret.
#[export] Instance M_bind : MBind M := @bind.

(** [try { body } catch (e) { handler e }] *)
Definition tryCatch {A} (body : M A) (handler : error → M A) : M A :=
  λ w, match body w with
       | (Throw e, w') => handler e w'
       | r => r
       end.

(** [try { body } finally { final }]: [final] runs when [body] returns or
    throws, not when the process has ended. *)
Definition tryFinally {A} (body : M A) (final : M unit) : M A :=
  λ w, match body w with
       | (Ret a, w') => (final ;; ret a) w'
       | (Throw e, w') => (final ;; throw e) w'
       | (Exit s, w') => (Exit s, w')
       end.

Definition emit (ev : event) : M unit :=
  λ w, (Ret tt, {| fs := fs w; events := events w ++ [ev] |}).

Definition consoleLog (message : string) : M unit := emit (ConsoleLog message).
Definition consoleWarn (message : string) : M unit := emit (ConsoleWarn message).
Definition consoleError (message : string) (err : option error) : M unit :=
  emit (ConsoleError message err).

Module Fs.

(** [fs.access(p)]: resolves when [p] names a node; rejects otherwise,
    and for a [p] that is not a string. *)
Definition access (p : value) : M unit :=
  λ w, match p with
       | Some (JStr path) =>
           match fs w !! path with
           | Some _ => (Ret tt, w)
           | None => (Throw (SystemError "ENOENT" path), w)
           end
       | _ => (Throw (TypeError "ERR_INVALID_ARG_TYPE"), w)
       end.

(** [fs.readdir(p, { withFileTypes: true })] *)
Definition readdir (p : value) : M (list Dirent) :=
  λ w, match p with
       | Some (JStr path) =>
           match fs w !! path with
           | Some (Dir entries) => (Ret entries, w)
           | Some (File _) => (Throw (SystemError "ENOTDIR" path), w)
           | None => (Throw (SystemError "ENOENT" path), w)
           end
       | _ => (Throw (TypeError "ERR_INVALID_ARG_TYPE"), w)
       end.

(** [fs.readFile(path, "utf8")] *)
Definition readFile (path : string) : M (option json) :=
  λ w, match fs w !! path with
       | Some (File text) => (Ret text, w)
       | Some (Dir _) => (Throw (SystemError "EISDIR" path), w)
       | None => (Throw (SystemError "ENOENT" path), w)
       end.

(** [fs.writeFile(path, text)] in a directory that exists: the parent of
    [path] is not looked at, and its listing is left as it is. *)
Definition writeFile (path : string) (text : option json) : M unit :=
  λ w, match fs w !! path with
       | Some (Dir _) => (Throw (SystemError "EISDIR" path), w)
       | _ => (Ret tt, {| fs := <[path := File text]> (fs w); events := events w |})
       end.

(** [fs.mkdir(path, { recursive: true })] in a directory that exists: no
    ancestor of [path] is looked at or created, and the listing of the
    parent is left as it is. *)
Definition mkdir (path : string) : M unit :=
  λ w, match fs w !! path with
       | Some (Dir _) => (Ret tt, w)
       | Some (File _) => (Throw (SystemError "EEXIST" path), w)
       | None => (Ret tt, {| fs := <[path := Dir []]> (fs w); events := events w |})
       end.

(** Is [p] the path [root] or a path below it? *)
Definition within (root p : string) : bool :=
  String.eqb p root || startsWith p (root +:+ "/").

(** [fs.rm(path, { recursive: true, force: true })]: the node and what
    is below it go, and so do their entries in the directories left. *)
Definition unlink (path dir : string) (n : node) : option node :=
  Some (match n with
        | Dir entries =>
            Dir (filter (λ dirent, within path (dir +:+ "/" +:+ name dirent) = false) entries)
        | File text => File text
        end).

Definition rm (path : string) : M unit :=
  λ w, (Ret tt, {| fs := map_imap (unlink path)
                           (filter (λ kv, within path kv.1 = false) (fs w));
                   events := events w |}).

End Fs.

(** [JSON.parse] and [JSON.stringify] on the text of a file. *)
Definition JSON_parse (text : option json) : M json :=
  match text with
  | Some j => ret j
  | None => throw (SyntaxError "Unexpected token in JSON")
  end.

Definition JSON_stringify (j : json) : option json := Some j.

(** [o.k = v] in strict mode: an object gets the property; an array gets
    a property that [JSON.stringify] does not write; [null] and the
    primitive values throw. *)
Definition setProp (o : json) (k : string) (v : json) : M json :=
  match o with
  | JObj props => ret (JObj (<[k := v]> props))
  | JArr elems => ret (JArr elems)
  | _ => throw (TypeError ("Cannot set properties (setting '" +:+ k +:+ "')"))
  end.

(** [path.parse(p).name] for a [p] that may be [undefined]. *)
Definition parseName (p : option string) : M string :=
  match p with
  | Some s => ret (Path.name s)
  | None => throw (TypeError "ERR_INVALID_ARG_TYPE")
  end.

(** ** [fileExists] *)
Definition fileExists (filePath : value) : M bool :=
  tryCatch (Fs.access filePath ;; ret true) (λ _, ret false).

(** The path [path.join(process.cwd(), "package.json")]. *)
Definition packageJsonPath : string := "package.json".

(** ** [updatePackageJsonExports] *)

(** The properties of the object stored under an export key. *)
Definition exportTargetProps (outDir : option string) (noTypes : bool) (baseName : string)
    : gmap string json :=
  let out := Js.template (Js.ofArg outDir) in
  <["import" := JStr ("./" +:+ out +:+ "/esm/" +:+ baseName +:+ ".js")]>
  (<["require" := JStr ("./" +:+ out +:+ "/cjs/" +:+ baseName +:+ ".js")]>
   (if noTypes then ∅
    else {["types" := JStr ("./" +:+ out +:+ "/types/" +:+ baseName +:+ ".d.ts")]})).

Definition exportTarget (outDir : option string) (noTypes : bool) (baseName : string) : json :=
  JObj (exportTargetProps outDir noTypes baseName).

Definition exportKey (baseName : string) : string :=
  if String.eqb baseName "index" then "." else "./" +:+ baseName.

(** The body of [entryPoints.forEach], on the object under
    [packageJson.exports]. *)
Definition addExport (outDir : option string) (noTypes : bool)
    (exports : gmap string json) (entry : string) : gmap string json :=
  let baseName := Path.name entry in
  <[exportKey baseName := exportTarget outDir noTypes baseName]> exports.

(** [main], [module] and, unless [noTypes], [types]. *)
Definition setMainFields (outDir : option string) (noTypes : bool)
    (baseName : string) (packageJson : json) : M json :=
  let out := Js.template (Js.ofArg outDir) in
  packageJson ← setProp packageJson "main" (JStr ("./" +:+ out +:+ "/cjs/" +:+ baseName +:+ ".js"));
  packageJson ← setProp packageJson "module" (JStr ("./" +:+ out +:+ "/esm/" +:+ baseName +:+ ".js"));
  if negb noTypes
  then setProp packageJson "types" (JStr ("./" +:+ out +:+ "/types/" +:+ baseName +:+ ".d.ts"))
  else ret packageJson.

(** The "files" step. *)
Definition updateFiles (outDir : option string) (packageJson : json) : M json :=
  let files := Js.get (Some packageJson) "files" in
  if negb (Js.truthy files) then
    setProp packageJson "files" (JArr [Js.element outDir])
  else
    match files with
    | Some (JArr elems) =>
        if negb (Js.includes elems outDir)
        then setProp packageJson "files" (JArr (elems ++ [Js.element outDir]))
        else ret packageJson
    | _ => ret packageJson
    end.

Definition updatePackageJsonExports
    (entryPoints : list string) (outDir : option string) (noTypes : bool) : M unit :=
  found ← fileExists (Some (JStr packageJsonPath));
  if negb found then
    consoleWarn "Warning: package.json not found, skipping exports update"
  else
    content ← Fs.readFile packageJsonPath;
    packageJson ← JSON_parse content;
    packageJson ←
      (if (length entryPoints =? 1)%nat
          && match head entryPoints with
             | Some e => startsWith e "index."
             | None => false
             end
       then
         baseName ← parseName (head entryPoints);
         packageJson ← setMainFields outDir noTypes baseName packageJson;
         setProp packageJson "exports"
           (JObj {["." := exportTarget outDir noTypes baseName]})
       else
         packageJson ← setProp packageJson "exports"
           (JObj (foldl (addExport outDir noTypes) ∅ entryPoints));
         let mainEntry :=
           match find (λ e, startsWith e "index.") entryPoints with
           | Some e => if String.eqb e "" then head entryPoints else Some e
           | None => head entryPoints
           end in
         mainBaseName ← parseName mainEntry;
         setMainFields outDir noTypes mainBaseName packageJson);
    packageJson ← updateFiles outDir packageJson;
    Fs.writeFile packageJsonPath (JSON_stringify packageJson).

(** ** [parseArgs] *)

Inductive Command := compile | create.

Module CLIArgs.

(** [srcDir] and [projectName] are optional.  [outDir] is declared a
    [string], yet [parsed.outDir = args[++i]] stores [undefined] when
    [--out-dir] is the last argument, so it is optional here too. *)
Record t := {
  command : Command;
  dryRun : bool;
  help : bool;
  version : bool;
  srcDir : option string;
  outDir : option string;
  noTypes : bool;
  typeCheck : bool;
  projectName : option string
}.

Definition setCommand (c : Command) (p : t) : t :=
  {| command := c; dryRun := dryRun p; help := help p; version := version p;
     srcDir := srcDir p; outDir := outDir p; noTypes := noTypes p;
     typeCheck := typeCheck p; projectName := projectName p |}.
Definition setDryRun (b : bool) (p : t) : t :=
  {| command := command p; dryRun := b; help := help p; version := version p;
     srcDir := srcDir p; outDir := outDir p; noTypes := noTypes p;
     typeCheck := typeCheck p; projectName := projectName p |}.
Definition setHelp (b : bool) (p : t) : t :=
  {| command := command p; dryRun := dryRun p; help := b; version := version p;
     srcDir := srcDir p; outDir := outDir p; noTypes := noTypes p;
     typeCheck := typeCheck p; projectName := projectName p |}.
Definition setVersion (b : bool) (p : t) : t :=
  {| command := command p; dryRun := dryRun p; help := help p; version := b;
     srcDir := srcDir p; outDir := outDir p; noTypes := noTypes p;
     typeCheck := typeCheck p; projectName := projectName p |}.
Definition setSrcDir (v : option string) (p : t) : t :=
  {| command := command p; dryRun := dryRun p; help := help p; version := version p;
     srcDir := v; outDir := outDir p; noTypes := noTypes p;
     typeCheck := typeCheck p; projectName := projectName p |}.
Definition setOutDir (v : option string) (p : t) : t :=
  {| command := command p; dryRun := dryRun p; help := help p; version := version p;
     srcDir := srcDir p; outDir := v; noTypes := noTypes p;
     typeCheck := typeCheck p; projectName := projectName p |}.
Definition setNoTypes (b : bool) (p : t) : t :=
  {| command := command p; dryRun := dryRun p; help := help p; version := version p;
     srcDir := srcDir p; outDir := outDir p; noTypes := b;
     typeCheck := typeCheck p; projectName := projectName p |}.
Definition setTypeCheck (b : bool) (p : t) : t :=
  {| command := command p; dryRun := dryRun p; help := help p; version := version p;
     srcDir := srcDir p; outDir := outDir p; noTypes := noTypes p;
     typeCheck := b; projectName := projectName p |}.
Definition setProjectName (v : option string) (p : t) : t :=
  {| command := command p; dryRun := dryRun p; help := help p; version := version p;
     srcDir := srcDir p; outDir := outDir p; noTypes := noTypes p;
     typeCheck := typeCheck p; projectName := v |}.

(** The initial value of [parsed]. *)
Definition defaults : t :=
  {| command := compile; dryRun := false; help := false; version := false;
     srcDir := None; outDir := Some "dist"; noTypes := false;
     typeCheck := false; projectName := None |}.

End CLIArgs.

(** The [for] loop over [args]; a flag that takes a value reads
    [args[++i]], which is [undefined] past the end. *)
Fixpoint parseFlags (args : list string) (parsed : CLIArgs.t) : M CLIArgs.t :=
  match args with
  | [] => ret parsed
  | arg :: rest =>
      if String.eqb arg "--dry-run" then parseFlags rest (CLIArgs.setDryRun true parsed)
      else if String.eqb arg "--help" || String.eqb arg "-h"
      then parseFlags rest (CLIArgs.setHelp true parsed)
      else if String.eqb arg "--version" || String.eqb arg "-v"
      then parseFlags rest (CLIArgs.setVersion true parsed)
      else if String.eqb arg "--src-dir" then
        match rest with
        | v :: rest' => parseFlags rest' (CLIArgs.setSrcDir (Some v) parsed)
        | [] => ret (CLIArgs.setSrcDir None parsed)
        end
      else if String.eqb arg "--out-dir" then
        match rest with
        | v :: rest' => parseFlags rest' (CLIArgs.setOutDir (Some v) parsed)
        | [] => ret (CLIArgs.setOutDir None parsed)
        end
      else if String.eqb arg "--no-types" then parseFlags rest (CLIArgs.setNoTypes true parsed)
      else if String.eqb arg "--type-check"
      then parseFlags rest (CLIArgs.setTypeCheck true parsed)
      else if startsWith arg "--" then
        consoleError ("Unknown option: " +:+ arg) None ;; processExit 1
      else parseFlags rest parsed
  end.

(** [argv] is [process.argv]. *)
Definition parseArgs (argv : list string) : M CLIArgs.t :=
  let args := drop 2 argv in
  let parsed := CLIArgs.defaults in
  match args with
  | subcommand :: more =>
      if negb (startsWith subcommand "-") && String.eqb subcommand "create" then
        let parsed := CLIArgs.setCommand create parsed in
        let parsed :=
          match more with
          | second :: _ =>
              if negb (startsWith second "-")
              then CLIArgs.setProjectName (Some second) parsed
              else parsed
          | [] => parsed
          end in
        let args :=
          drop (if Js.truthy (Js.ofArg (CLIArgs.projectName parsed)) then 2 else 1) args in
        parseFlags args parsed
      else parseFlags args parsed
  | [] => parseFlags args parsed
  end.

(** ** [readTSConfig] *)

Definition tsconfigPath : string := "tsconfig.json".

(** [null] is [JNull]. *)
Definition readTSConfig : M json :=
  found ← fileExists (Some (JStr tsconfigPath));
  if negb found then ret JNull
  else
    tryCatch
      (content ← Fs.readFile tsconfigPath; JSON_parse content)
      (λ _, consoleWarn "Warning: Could not parse tsconfig.json, using defaults" ;; ret JNull).

(** [if (v) return yes(v); no] *)
Definition whenTruthy {A} (v : value) (yes : json → M A) (no : M A) : M A :=
  match v with
  | Some j => if Js.truthy v then yes j else no
  | None => no
  end.

(** ** [detectSourceDir]

    The result is declared a [string]; [rootDir] is returned as the
    parsed [tsconfig.json] has it. *)
Definition detectSourceDir (tsconfig : json) (srcDirArg : option string) : M json :=
  whenTruthy (Js.ofArg srcDirArg) ret (
  whenTruthy (Js.get (Js.get (Some tsconfig) "compilerOptions") "rootDir") ret (
    src ← fileExists (Some (JStr "src"));
    if src : bool then ret (JStr "src") else
    lib ← fileExists (Some (JStr "lib"));
    if lib : bool then ret (JStr "lib") else
    bin ← fileExists (Some (JStr "bin"));
    if bin : bool then ret (JStr "bin") else
    ret (JStr "src"))).

(** ** [detectEntryPoints] *)

(** The test of the second [filter]: [/\.(ts|tsx|js|jsx)$/] matches, and
    neither [".test."] nor [".spec."] occurs. *)
Definition isEntryPoint (file : string) : bool :=
  (endsWith file ".ts" || endsWith file ".tsx" || endsWith file ".js" || endsWith file ".jsx")
  && negb (includes file ".test.")
  && negb (includes file ".spec.").

Definition detectEntryPoints (srcDir : json) : M (list string) :=
  found ← fileExists (Some srcDir);
  if negb found then
    throw (Error ("Source directory '" +:+ Js.toString srcDir +:+ "' does not exist"))
  else
    dirents ← Fs.readdir (Some srcDir);
    let files := filter (λ file, isEntryPoint file = true)
                   (map name (filter (λ dirent, isFile dirent = true) dirents)) in
    let indexFile := find (λ file, startsWith file "index.") files in
    if Js.truthy (Js.ofArg indexFile) then ret files
    else ret files.

(** ** The external collaborators and the functions that call them *)

Inductive ModuleType := commonjs | es6.

Definition moduleTypeName (moduleType : ModuleType) : string :=
  match moduleType with commonjs => "commonjs" | es6 => "es6" end.

(** [String(error)] *)
Definition errorText (e : error) : string :=
  match e with
  | Error message => "Error: " +:+ message
  | TypeError message => "TypeError: " +:+ message
  | SyntaxError message => "SyntaxError: " +:+ message
  | SystemError code path => "Error: " +:+ code +:+ ": " +:+ path
  | ChildProcessError command => "Error: Command failed: " +:+ command
  end.

(** [o.k] where [o] is not optional: reading a property of [null]
    throws. *)
Definition getProp (o : json) (k : string) : M value :=
  match o with
  | JNull => throw (TypeError ("Cannot read properties of null (reading '" +:+ k +:+ "')"))
  | _ => ret (Js.get (Some o) k)
  end.

(** [a || b] and [a ?? b] with a defined [b]. *)
Definition orElse (a : value) (b : json) : json :=
  match a with Some j => if Js.truthy a then j else b | None => b end.
Definition coalesce (a : value) (b : json) : json :=
  match a with Some j => if Js.nullish a then b else j | None => b end.

Section Collaborators.

(** [convert] of [tsconfig-swc]: a pure function that may throw
    ([None]). *)
Variable convert : json → option json.

(** A child process started by [execSync]: whether it exits with
    status 0, and the file system it leaves. *)
Variable childProcess : string → FileSystem → bool * FileSystem.

(** [install] of [@bredele/package-install]: the reason of a
    rejection, if any, and the file system it leaves. *)
Variable packageInstall : string → bool → FileSystem → option error * FileSystem.

(** Does [require.resolve("typescript")] find the module? *)
Variable resolvesTypescript : FileSystem → bool.

(** [path.join(__dirname, "../.temp")] *)
Variable tempDir : string.

(** The parts of [main] that no claim is about. *)
Variable showHelp : Command → M unit.
Variable showVersion : M unit.
Variable createProject : option string → M unit.

Definition execSync (command : string) : M unit :=
  λ w, let '(ok, fs') := childProcess command (fs w) in
       let w' := {| fs := fs'; events := events w ++ [Exec command] |} in
       if ok then (Ret tt, w') else (Throw (ChildProcessError command), w').

Definition install (package : string) (dev : bool) : M unit :=
  λ w, let '(failure, fs') := packageInstall package dev (fs w) in
       let w' := {| fs := fs'; events := events w ++ [Install package dev] |} in
       match failure with
       | None => (Ret tt, w')
       | Some e => (Throw e, w')
       end.

Definition requireResolveTypescript : M unit :=
  λ w, if resolvesTypescript (fs w) then (Ret tt, w)
       else (Throw (Error "Cannot find module 'typescript'"), w).

(** *** [hasTypeScriptInstalled] *)
Definition hasTypeScriptInstalled : M bool :=
  found ← fileExists (Some (JStr packageJsonPath));
  inManifest ←
    (if found : bool then
       tryCatch
         (content ← Fs.readFile packageJsonPath;
          packageJson ← JSON_parse content;
          dependencies ← getProp packageJson "dependencies";
          if Js.truthy (Js.get dependencies "typescript") then ret true
          else
            devDependencies ← getProp packageJson "devDependencies";
            ret (Js.truthy (Js.get devDependencies "typescript")))
         (λ _, ret false)
     else ret false);
  if inManifest : bool then ret true
  else tryCatch (requireResolveTypescript ;; ret true) (λ _, ret false).

(** *** [ensureTypeScriptInstalled] *)
Definition ensureTypeScriptInstalled : M unit :=
  has ← hasTypeScriptInstalled;
  if has : bool then ret tt
  else
    consoleLog "TypeScript not found, installing as dev dependency..." ;;
    tryCatch
      (install "typescript" true ;;
       consoleLog "TypeScript installed successfully.")
      (λ error, throw (Error ("Failed to install TypeScript: " +:+ errorText error))).

(** *** [performTypeCheck] *)
Definition performTypeCheck (srcDir : json) : M unit :=
  consoleLog "Running type check..." ;;
  tryCatch
    (execSync ("npx tsc --noEmit --rootDir " +:+ Js.toString srcDir) ;;
     consoleLog "Type check passed!")
    (λ _, throw (Error "Type check failed")).

(** *** [createSWCConfig] *)

(** The names of the regular files of [srcDir], none when it does not
    exist. *)
Definition listSourceFiles (srcDir : json) : M (list string) :=
  found ← fileExists (Some srcDir);
  if found : bool then
    dirents ← Fs.readdir (Some srcDir);
    ret (map name (filter (λ dirent, isFile dirent = true) dirents))
  else ret [].

(** [baseConfig]: [{}], or what [convert] makes of a truthy
    [tsconfig]. *)
Definition convertTSConfig (tsconfig : json) : M json :=
  if Js.truthy (Some tsconfig) then
    tryCatch
      (match convert tsconfig with
       | Some converted => ret converted
       | None => throw (Error "tsconfig-swc")
       end)
      (λ _, consoleWarn
              "Warning: Could not convert tsconfig with tsconfig-swc, using fallback" ;;
            ret (JObj ∅))
  else ret (JObj ∅).

(** The object literal [config], then [config.exclude]; [jsc] is
    [baseConfig.jsc]. *)
Definition assembleConfig (tsconfig : json) (moduleType : ModuleType)
    (files : list string) (baseConfig : json) (jsc : value) : gmap string json :=
  let hasTypeScript := existsb (λ file, endsWith file ".ts" || endsWith file ".tsx") files in
  let hasTSX := existsb (λ file, endsWith file ".tsx") files in
  let hasJSX := existsb (λ file, endsWith file ".jsx" || endsWith file ".tsx") files in
  let parser : gmap string json :=
    <["decorators" :=
        coalesce (Js.get (Js.get jsc "parser") "decorators")
          (orElse (Js.get (Js.get (Some tsconfig) "compilerOptions") "experimentalDecorators")
             (JBool false))]>
    (<["jsx" := JBool hasJSX]>
     (<["tsx" := JBool hasTSX]>
      (<["syntax" := JStr (if hasTypeScript then "typescript" else "ecmascript")]>
       (Js.spread (Js.get jsc "parser"))))) in
  let jsc' : gmap string json :=
    <["externalHelpers" := coalesce (Js.get jsc "externalHelpers") (JBool false)]>
    (<["loose" := coalesce (Js.get jsc "loose") (JBool false)]>
     (<["target" := orElse (Js.get jsc "target") (JStr "es2020")]>
      (<["parser" := JObj parser]>
       (Js.spread jsc)))) in
  let config : gmap string json :=
    <["sourceMaps" := coalesce (Js.get (Some baseConfig) "sourceMaps") (JBool true)]>
    (<["module" := JObj {["type" := JStr (moduleTypeName moduleType)]}]>
     (<["jsc" := JObj jsc']>
      (Js.spread (Some baseConfig)))) in
  match Js.get (Some tsconfig) "exclude" with
  | Some exclude =>
      if Js.truthy (Some exclude) then <["exclude" := exclude]> config else config
  | None => config
  end.

Definition createSWCConfig (tsconfig : json) (moduleType : ModuleType) (srcDir : json)
    : M json :=
  files ← listSourceFiles srcDir;
  baseConfig ← convertTSConfig tsconfig;
  jsc ← getProp baseConfig "jsc";
  ret (JObj (assembleConfig tsconfig moduleType files baseConfig jsc)).

(** *** [createTempSWCConfig] and [cleanupTempConfigs] *)
Definition createTempSWCConfig (config : json) (configName : string) : M string :=
  found ← fileExists (Some (JStr tempDir));
  (if negb found then Fs.mkdir tempDir else ret tt) ;;
  let configPath := tempDir +:+ "/" +:+ configName +:+ ".swcrc" in
  Fs.writeFile configPath (JSON_stringify config) ;;
  ret configPath.

Definition cleanupTempConfigs : M unit :=
  found ← fileExists (Some (JStr tempDir));
  if found : bool then Fs.rm tempDir else ret tt.

(** *** [main] *)

Definition boolText (b : bool) : string := if b then "true" else "false".

(** The statements of the [try] block before the manifest update. *)
Definition compileSteps (args : CLIArgs.t) (tsconfig srcDir : json) : M unit :=
  let outDir := Js.template (Js.ofArg (CLIArgs.outDir args)) in
  found ← fileExists (Js.ofArg (CLIArgs.outDir args));
  (if found : bool then
     consoleLog ("Cleaning " +:+ outDir +:+ "...") ;;
     Fs.rm outDir
   else ret tt) ;;
  cjsConfig ← createSWCConfig tsconfig commonjs srcDir;
  esmConfig ← createSWCConfig tsconfig es6 srcDir;
  cjsConfigPath ← createTempSWCConfig cjsConfig "cjs";
  esmConfigPath ← createTempSWCConfig esmConfig "esm";
  consoleLog "Compiling CommonJS..." ;;
  execSync ("npx swc " +:+ Js.toString srcDir +:+ " -d " +:+ outDir +:+ "/cjs --config-file "
            +:+ cjsConfigPath +:+ " --strip-leading-paths") ;;
  consoleLog "Compiling ESM..." ;;
  execSync ("npx swc " +:+ Js.toString srcDir +:+ " -d " +:+ outDir +:+ "/esm --config-file "
            +:+ esmConfigPath +:+ " --strip-leading-paths") ;;
  (if negb (CLIArgs.noTypes args) && Js.truthy (Some tsconfig) then
     consoleLog "Generating TypeScript declarations..." ;;
     execSync ("npx tsc --declaration --emitDeclarationOnly --outDir " +:+ outDir +:+ "/types")
   else ret tt) ;;
  (if CLIArgs.typeCheck args then
     ensureTypeScriptInstalled ;;
     performTypeCheck srcDir
   else ret tt).

(** The [try] / [catch] / [finally] statement of [main]. *)
Definition compileAndUpdate (args : CLIArgs.t) (tsconfig srcDir : json)
    (entryPoints : list string) : M unit :=
  tryFinally
    (tryCatch
       (compileSteps args tsconfig srcDir ;;
        updatePackageJsonExports entryPoints (CLIArgs.outDir args) (CLIArgs.noTypes args) ;;
        consoleLog "Compilation complete!")
       (λ error, consoleError "Compilation failed:" (Some error) ;; processExit 1))
    cleanupTempConfigs.

Definition main (argv : list string) : M unit :=
  args ← parseArgs argv;
  if CLIArgs.help args then showHelp (CLIArgs.command args)
  else if CLIArgs.version args then showVersion
  else match CLIArgs.command args with
  | create => createProject (CLIArgs.projectName args)
  | compile =>
      tsconfig ← readTSConfig;
      srcDir ← detectSourceDir tsconfig (CLIArgs.srcDir args);
      entryPoints ← detectEntryPoints srcDir;
      if CLIArgs.dryRun args then
        consoleLog "Dry run - would compile:" ;;
        consoleLog ("  Source: " +:+ Js.toString srcDir) ;;
        consoleLog ("  Output: " +:+ Js.template (Js.ofArg (CLIArgs.outDir args))) ;;
        consoleLog ("  Entry points: " +:+ String.concat ", " entryPoints) ;;
        consoleLog ("  TypeScript config: "
                    +:+ (if Js.truthy (Some tsconfig) then "found" else "not found")) ;;
        consoleLog ("  Generate types: " +:+ boolText (negb (CLIArgs.noTypes args))) ;;
        consoleLog ("  Type check: "
                    +:+ (if CLIArgs.typeCheck args then "enabled" else "disabled"))
      else compileAndUpdate args tsconfig srcDir entryPoints
  end.

(** [main().catch(...)], the entry point of the script. *)
Definition run (argv : list string) : M unit :=
  tryCatch (main argv)
    (λ error, consoleError "Unexpected error:" (Some error) ;; processExit 1).

(** The status the process ends with. *)
Definition exitStatus {A} (o : outcome A) : Z :=
  match o with
  | Ret _ => 0
  | Throw _ => 1
  | Exit status => status
  end.

End Collaborators.

(** * Specification-side definitions *)

(** Closed forms of what the program computes, the filter and the probe
    in the words of the specification, and the worlds of the examples. *)

(** A string none of whose characters is [c]. *)
Definition without (c : ascii) (s : string) : Prop :=
  ∀ i, String.get i s ≠ Some c.

(** The states of the scan of a file name [stem.ext] when the characters
    from index [k] on are done: before the first character, inside the
    extension, and from the dot on.  [n] is the length of the stem and
    [len] that of the name. *)
Definition scanned (n len k : nat) (st : Path.scan) : Prop :=
  (k = len ∧ st = Path.scan0)
  ∨ ((n < k < len)%nat
     ∧ st = Path.Scan (-1) 0 (Z.of_nat len) false 0)
  ∨ ((k ≤ n)%nat
     ∧ ∃ p, (k = n → p = 0%Z) ∧ ((k < n)%nat → p ≠ 0%Z)
            ∧ st = Path.Scan (Z.of_nat n) 0 (Z.of_nat len) false p).

(** What [setMainFields] makes of an object. *)
Definition mainFields (outDir : option string) (noTypes : bool) (baseName : string)
    (manifest : gmap string json) : gmap string json :=
  let out := Js.template (Js.ofArg outDir) in
  let manifest :=
    <["module" := JStr ("./" +:+ out +:+ "/esm/" +:+ baseName +:+ ".js")]>
    (<["main" := JStr ("./" +:+ out +:+ "/cjs/" +:+ baseName +:+ ".js")]> manifest) in
  if noTypes then manifest
  else <["types" := JStr ("./" +:+ out +:+ "/types/" +:+ baseName +:+ ".d.ts")]> manifest.

(** What [updateFiles] makes of an object. *)
Definition filesField (outDir : option string) (manifest : gmap string json)
    : gmap string json :=
  if negb (Js.truthy (manifest !! "files"))
  then <["files" := JArr [Js.element outDir]]> manifest
  else match manifest !! "files" with
       | Some (JArr elems) =>
           if Js.includes elems outDir then manifest
           else <["files" := JArr (elems ++ [Js.element outDir])]> manifest
       | _ => manifest
       end.

(** [mainEntry], the first entry point that starts with ["index."] or
    else the first entry point; [undefined] when there is none. *)
Definition mainEntry (entryPoints : list string) : option string :=
  match find (λ e, startsWith e "index.") entryPoints with
  | Some e => if String.eqb e "" then head entryPoints else Some e
  | None => head entryPoints
  end.

(** The condition of the first branch of the update. *)
Definition singleIndex (entryPoints : list string) : bool :=
  (length entryPoints =? 1)%nat
  && match head entryPoints with
     | Some e => startsWith e "index."
     | None => false
     end.

(** The manifest the update writes for an object [manifest]; [None] when
    it throws instead. *)
Definition updatedManifest (entryPoints : list string) (outDir : option string)
    (noTypes : bool) (manifest : gmap string json) : option (gmap string json) :=
  if singleIndex entryPoints then
    baseName ← Path.name <$> head entryPoints;
    Some (filesField outDir
            (<["exports" := JObj {["." := exportTarget outDir noTypes baseName]}]>
               (mainFields outDir noTypes baseName manifest)))
  else
    baseName ← Path.name <$> mainEntry entryPoints;
    Some (filesField outDir
            (mainFields outDir noTypes baseName
               (<["exports" := JObj (foldl (addExport outDir noTypes) ∅ entryPoints)]>
                  manifest))).

(** The world after [manifest] is written to [package.json]. *)
Definition writeManifest (manifest : gmap string json) (w : World) : World :=
  {| fs := <[packageJsonPath := File (Some (JObj manifest))]> (fs w); events := events w |}.

(** A world whose only file is a [package.json] holding [manifest]. *)
Definition manifestOnly (manifest : gmap string json) : World :=
  {| fs := {[packageJsonPath := File (Some (JObj manifest))]}; events := [] |}.

(** A manifest with a [files] list and a field of its own. *)
Definition exampleManifest : gmap string json :=
  {[ "name" := JStr "pkg";
     "files" := JArr [JStr "lib"];
     "scripts" := JObj {["build" := JStr "cmplr"]} ]}.

(** The filter of the specification: the names of the regular files that
    end in an extension of the whitelist and contain neither [".test."]
    nor [".spec."], in the order of the directory. *)
Definition extensionWhitelist : list string := [".ts"; ".tsx"; ".js"; ".jsx"].

(** Is [file] eligible in the words of the specification? *)
Definition eligible (file : string) : bool :=
  existsb (endsWith file) extensionWhitelist
  && negb (includes file ".test.")
  && negb (includes file ".spec.").

(** The plain filter over the entries of a directory. *)
Definition plainFilter (entries : list Dirent) : list string :=
  filter (λ file, eligible file = true)
    (name <$> filter (λ dirent, isFile dirent = true) entries).

(** A source directory with entry points, tests and a subdirectory. *)
Definition exampleSources : list Dirent :=
  [ {| name := "index.ts"; isFile := true |};
    {| name := "index.test.ts"; isFile := true |};
    {| name := "utils.tsx"; isFile := true |};
    {| name := "helpers.js"; isFile := false |};
    {| name := "README.md"; isFile := true |};
    {| name := "cli.spec.js"; isFile := true |};
    {| name := "cli.jsx"; isFile := true |} ].

(** A project with that source directory and a manifest. *)
Definition exampleProject : World :=
  {| fs := {[ "src" := Dir exampleSources;
              packageJsonPath := File (Some (JObj {["name" := JStr "pkg"]})) ]};
     events := [] |}.

(** The first of [src], [lib] and [bin] that exists, else [src]. *)
Definition probe (files : FileSystem) : string :=
  if bool_decide (is_Some (files !! "src")) then "src"
  else if bool_decide (is_Some (files !! "lib")) then "lib"
  else if bool_decide (is_Some (files !! "bin")) then "bin"
  else "src".

(** A configuration that names its root directory. *)
Definition exampleConfig : json :=
  JObj {["compilerOptions" := JObj {["rootDir" := JStr "source"]}]}.

(** A converter that keeps the target of the configuration. *)
Definition exampleConvert (tsconfig : json) : option json :=
  Some (JObj {["jsc" := JObj {["target" := JStr "es2022"]}; "minify" := JBool false]}).

(** The CommonJS configuration of [exampleProject]. *)
Definition exampleCjsConfig : gmap string json :=
  assembleConfig exampleConfig commonjs
    ["index.ts"; "index.test.ts"; "utils.tsx"; "README.md"; "cli.spec.js"; "cli.jsx"]
    (JObj {["jsc" := JObj {["target" := JStr "es2022"]}; "minify" := JBool false]})
    (Some (JObj {["target" := JStr "es2022"]})).

(** Does [srcDir] name a node of the file system? *)
Definition exists_in (files : FileSystem) (srcDir : json) : Prop :=
  ∃ path, srcDir = JStr path ∧ is_Some (files !! path).

(** The error of a missing source directory. *)
Definition missingSourceDir (srcDir : json) : error :=
  Error ("Source directory '" +:+ Js.toString srcDir +:+ "' does not exist").

(** Tools that succeed and leave the file system as it is. *)
Definition exampleTempDir : string := "/usr/lib/node_modules/cmplr/dist/.temp".

Definition exampleRun : list string → M unit :=
  run exampleConvert (λ _ files, (true, files)) (λ _ _ files, (None, files)) (λ _, true)
    exampleTempDir (λ _, ret tt) (ret tt) (λ _, ret tt).

Definition exampleSteps : CLIArgs.t → json → json → M unit :=
  compileSteps exampleConvert (λ _ files, (true, files)) (λ _ _ files, (None, files))
    (λ _, true) exampleTempDir.

(** A project whose source directory holds no entry point. *)
Definition exampleEmptyProject : World :=
  {| fs := {[ "src" := Dir [ {| name := "README.md"; isFile := true |};
                             {| name := "index.test.ts"; isFile := true |};
                             {| name := "fixtures"; isFile := false |} ];
              packageJsonPath := File (Some (JObj {["name" := JStr "pkg"]})) ]};
     events := [] |}.

(** A project in which [src] is a regular file. *)
Definition exampleSourceFile : World :=
  {| fs := {[ "src" := File None;
              packageJsonPath := File (Some (JObj {["name" := JStr "pkg"]})) ]};
     events := [] |}.

(** The arguments of [cmplr --src-dir missingdir]. *)
Definition exampleMissingArgs : CLIArgs.t :=
  CLIArgs.setSrcDir (Some "missingdir") CLIArgs.defaults.

(** The world in which the update is called for [exampleEmptyProject]. *)
Definition exampleCompiled : World :=
  (exampleSteps CLIArgs.defaults JNull (JStr "src") exampleEmptyProject).2.

(** * Further definitions *)

(** The flags of [parseArgs] that take no value. *)
Definition booleanFlags : list string :=
  ["--dry-run"; "--help"; "-h"; "--version"; "-v"; "--no-types"; "--type-check"].

(** Is one of [flags] among [args]? *)
Definition given (flags args : list string) : bool :=
  existsb (λ arg, existsb (String.eqb arg) flags) args.

(** [parsed] with the flags of [args] switched on. *)
Definition switchedOn (args : list string) (parsed : CLIArgs.t) : CLIArgs.t :=
  {| CLIArgs.command := CLIArgs.command parsed;
     CLIArgs.dryRun := CLIArgs.dryRun parsed || given ["--dry-run"] args;
     CLIArgs.help := CLIArgs.help parsed || given ["--help"; "-h"] args;
     CLIArgs.version := CLIArgs.version parsed || given ["--version"; "-v"] args;
     CLIArgs.srcDir := CLIArgs.srcDir parsed;
     CLIArgs.outDir := CLIArgs.outDir parsed;
     CLIArgs.noTypes := CLIArgs.noTypes parsed || given ["--no-types"] args;
     CLIArgs.typeCheck := CLIArgs.typeCheck parsed || given ["--type-check"] args;
     CLIArgs.projectName := CLIArgs.projectName parsed |}.

(** A project without a manifest. *)
Definition exampleNoManifest : World :=
  {| fs := {["src" := Dir exampleSources]}; events := [] |}.

(** The entry point whose base name the top-level fields are built from:
    the first one that starts with ["index."], else the first one. *)
Definition primaryEntry (entryPoints : list string) : option string :=
  match find (λ e, startsWith e "index.") entryPoints with
  | Some e => Some e
  | None => head entryPoints
  end.

(** The export map the update stores. *)
Definition exportsOf (entryPoints : list string) (outDir : option string) (noTypes : bool)
    : gmap string json :=
  if singleIndex entryPoints
  then match head entryPoints with
       | Some e => {["." := exportTarget outDir noTypes (Path.name e)]}
       | None => ∅
       end
  else foldl (addExport outDir noTypes) ∅ entryPoints.

(** What the "files" step makes of the value of [files]. *)
Definition filesValue (outDir : option string) (files : value) : value :=
  if negb (Js.truthy files) then Some (JArr [Js.element outDir])
  else match files with
       | Some (JArr elems) =>
           if Js.includes elems outDir then files
           else Some (JArr (elems ++ [Js.element outDir]))
       | _ => files
       end.

(** The value of the field [k] in the manifest written for [manifest],
    when the base name of the primary entry is [baseName]. *)
Definition updatedField (entryPoints : list string) (outDir : option string)
    (noTypes : bool) (baseName : string) (manifest : gmap string json) (k : string) : value :=
  let out := Js.template (Js.ofArg outDir) in
  if String.eqb k "files" then filesValue outDir (manifest !! "files")
  else if String.eqb k "exports" then Some (JObj (exportsOf entryPoints outDir noTypes))
  else if String.eqb k "main"
  then Some (JStr ("./" +:+ out +:+ "/cjs/" +:+ baseName +:+ ".js"))
  else if String.eqb k "module"
  then Some (JStr ("./" +:+ out +:+ "/esm/" +:+ baseName +:+ ".js"))
  else if String.eqb k "types" && negb noTypes
  then Some (JStr ("./" +:+ out +:+ "/types/" +:+ baseName +:+ ".d.ts"))
  else manifest !! k.

(** ** Effects of a computation *)

(** Every run of [m] takes a world to one that [R] relates it to. *)
Definition relates (R : World → World → Prop) {A} (m : M A) : Prop :=
  ∀ w, R w (m w).2.

(** [m] never ends the process. *)
Definition neverExits {A} (m : M A) : Prop :=
  ∀ w, match (m w).1 with Exit _ => False | _ => True end.

(** The file system is as it was. *)
Definition sameFiles (w w' : World) : Prop := fs w' = fs w.

(** What was shown or started stays, and each event that is new
    satisfies [P]. *)
Definition shows (P : event → Prop) (w w' : World) : Prop :=
  ∃ shown, events w' = (events w ++ shown)%list ∧ Forall P shown.

(** Output on the console, as opposed to a process or an installation. *)
Definition isConsole (ev : event) : Prop :=
  match ev with
  | ConsoleLog _ | ConsoleWarn _ | ConsoleError _ _ => True
  | Exec _ | Install _ _ => False
  end.

(** Only the console is written to. *)
Definition quiet (w w' : World) : Prop := sameFiles w w' ∧ shows isConsole w w'.

(** Not a command that generates declarations. *)
Definition notDeclarations (ev : event) : Prop :=
  ∀ command, ev = Exec command → startsWith command "npx tsc --declaration" = false.

(** Does the manifest of the project list [typescript] among its
    dependencies? *)
Definition listsTypescript (files : FileSystem) : bool :=
  match files !! packageJsonPath with
  | Some (File (Some packageJson)) =>
      Js.truthy (Js.get (Js.get (Some packageJson) "dependencies") "typescript")
      || Js.truthy (Js.get (Js.get (Some packageJson) "devDependencies") "typescript")
  | _ => false
  end.

(** Not an installation. *)
Definition notInstall (ev : event) : Prop :=
  match ev with Install _ _ => False | _ => True end.

(** [config.jsc.parser.k] *)
Definition parserField (config : json) (k : string) : value :=
  Js.get (Js.get (Js.get (Some config) "jsc") "parser") k.

(** The names of the regular files among [entries]. *)
Definition regularFiles (entries : list Dirent) : list string :=
  name <$> filter (λ dirent, isFile dirent = true) entries.

(** ** [createProject]

    The paths are relative to the working directory, as everywhere:
    [path.join(process.cwd(), projectName)] is [projectName] and
    [path.join(projectDir, "lib")] is [projectName/lib], for a project
    name that [path.join] has nothing to normalise in. *)

(** A line feed. *)
Definition nl : string := String "010"%char "".

(** [process.chdir(path)] *)
Definition chdir (path : string) : M unit :=
  λ w, match fs w !! path with
       | Some (Dir _) => (Ret tt, w)
       | Some (File _) => (Throw (SystemError "ENOTDIR" path), w)
       | None => (Throw (SystemError "ENOENT" path), w)
       end.

(** [path.join(projectDir, p)]; a project name that is falsy stands for
    the working directory itself. *)
Definition inProject (projectName : option string) (p : string) : string :=
  match projectName with
  | Some name => if Js.truthy (Js.ofArg projectName) then name +:+ "/" +:+ p else p
  | None => p
  end.

Definition buildScript : json := JStr "cmplr --type-check".
Definition testScript : json := JStr "node --test dist/cjs/**/*.test.js".

(** The statements that update [packageJson.scripts].  [scripts] is the
    object [packageJson.scripts] refers to, so that what is set on it is
    set in [packageJson]. *)
Definition addScripts (packageJson : json) : M json :=
  scripts ← getProp packageJson "scripts";
  scripts ← whenTruthy scripts ret
              (setProp packageJson "scripts" (JObj ∅) ;; ret (JObj ∅));
  scripts ← setProp scripts "build" buildScript;
  scripts ← setProp scripts "test" testScript;
  setProp packageJson "scripts" scripts.

(** The manifest of a new project. *)
Definition newPackageJson (actualProjectName : string) : json :=
  JObj (<["name" := JStr actualProjectName]>
        (<["version" := JStr "1.0.0"]>
         (<["files" := JArr [JStr "dist"]]>
          {["scripts" := JObj (<["build" := buildScript]> {["test" := testScript]})]}))).

Definition tsconfigJson : json :=
  JObj (<["compilerOptions" :=
            JObj (list_to_map
                    [("target", JStr "ES2021");
                     ("lib", JArr [JStr "ES2021"]);
                     ("types", JArr [JStr "node"]);
                     ("module", JStr "CommonJS");
                     ("moduleResolution", JStr "node");
                     ("esModuleInterop", JBool true);
                     ("allowSyntheticDefaultImports", JBool true);
                     ("strict", JBool true);
                     ("skipLibCheck", JBool true);
                     ("forceConsistentCasingInFileNames", JBool true);
                     ("declaration", JBool true);
                     ("declarationMap", JBool true);
                     ("outDir", JStr "dist");
                     ("rootDir", JStr "lib");
                     ("noEmit", JBool false);
                     ("resolveJsonModule", JBool true)])]>
        (<["include" := JArr [JStr "lib/**/*"]]>
         {["exclude" := JArr [JStr "node_modules"; JStr "dist"]]})).

(** [if (!(await fileExists(path))) { await fs.writeFile(path, text);
    console.log(created) } else { console.log(skipped) }] *)
Definition createIfMissing (path : string) (text : option json)
    (created skipped : string) : M unit :=
  found ← fileExists (Some (JStr path));
  if negb found then
    Fs.writeFile path text ;;
    consoleLog created
  else consoleLog skipped.

(** The statements of [createProject] before the installation. *)
Definition createFiles (cwdName : string) (projectName : option string) : M unit :=
  let named := Js.truthy (Js.ofArg projectName) in
  let projectDir := default "" projectName in
  let actualProjectName := if named then projectDir else cwdName in
  (if named then
     found ← fileExists (Some (JStr projectDir));
     if negb found then
       Fs.mkdir projectDir ;;
       consoleLog ("Created project directory: " +:+ projectDir)
     else ret tt
   else ret tt) ;;
  let libDir := inProject projectName "lib" in
  (found ← fileExists (Some (JStr libDir));
   if negb found then
     Fs.mkdir libDir ;;
     consoleLog "Created lib directory"
   else ret tt) ;;
  let packageJsonPath := inProject projectName "package.json" in
  (found ← fileExists (Some (JStr packageJsonPath));
   if found : bool then
     content ← Fs.readFile packageJsonPath;
     packageJson ← JSON_parse content;
     packageJson ← addScripts packageJson;
     Fs.writeFile packageJsonPath (JSON_stringify packageJson) ;;
     consoleLog "Updated package.json scripts"
   else
     Fs.writeFile packageJsonPath (JSON_stringify (newPackageJson actualProjectName)) ;;
     consoleLog "Created package.json") ;;
  createIfMissing (inProject projectName "tsconfig.json") (JSON_stringify tsconfigJson)
    "Created tsconfig.json" "tsconfig.json already exists, skipping" ;;
  createIfMissing (inProject projectName "lib/index.ts") None
    "Created lib/index.ts" "lib/index.ts already exists, skipping" ;;
  createIfMissing (inProject projectName "lib/index.test.ts") None
    "Created lib/index.test.ts" "lib/index.test.ts already exists, skipping".

Section CreateProject.

(** [install] run in a directory: the reason of a rejection, if any, and
    the file system it leaves. *)
Variable packageInstallIn : string → string → bool → FileSystem → option error * FileSystem.

(** [path.basename(process.cwd())] *)
Variable cwdName : string.

Definition installIn (dir package : string) (dev : bool) : M unit :=
  λ w, let '(failure, fs') := packageInstallIn dir package dev (fs w) in
       let w' := {| fs := fs'; events := (events w ++ [Install package dev])%list |} in
       match failure with
       | None => (Ret tt, w')
       | Some e => (Throw e, w')
       end.

(** The [try] / [catch] statement of [createProject]; [install("cmplr")]
    leaves [dev] undefined. *)
Definition installDependencies (projectName : option string) : M unit :=
  let named := Js.truthy (Js.ofArg projectName) in
  let projectDir := if named then default "" projectName else "." in
  tryCatch
    ((if named then chdir projectDir else ret tt) ;;
     installIn projectDir "cmplr" false ;;
     installIn projectDir "@types/node" true ;;
     consoleLog "Dependencies installed successfully!")
    (λ error,
       consoleWarn ("Warning: Failed to install dependencies: " +:+ errorText error) ;;
       consoleWarn "You can manually install them with: npm install cmplr && npm install --save-dev @types/node").

Definition createProject (projectName : option string) : M unit :=
  let named := Js.truthy (Js.ofArg projectName) in
  let actualProjectName := if named then default "" projectName else cwdName in
  createFiles cwdName projectName ;;
  consoleLog (nl +:+ "Installing dependencies...") ;;
  installDependencies projectName ;;
  consoleLog (nl +:+ "Project '" +:+ actualProjectName +:+ "' initialized successfully!") ;;
  consoleLog (nl +:+ "Next steps:") ;;
  (if named then consoleLog ("  cd " +:+ default "" projectName) else ret tt) ;;
  consoleLog "  npm run build" ;;
  consoleLog "  npm test".

End CreateProject.

(** The paths [createFiles] may create, besides the manifest. *)
Definition createdPaths (projectName : option string) : list string :=
  (if Js.truthy (Js.ofArg projectName) then [default "" projectName] else [])
  ++ [inProject projectName "lib";
      inProject projectName "tsconfig.json";
      inProject projectName "lib/index.ts";
      inProject projectName "lib/index.test.ts"].

(** A project name that [path.join] leaves as it is and that names a
    directory of its own: one segment, and not the working directory or
    its parent. *)
Definition plainName (name : string) : Prop :=
  name ≠ "." ∧ name ≠ ".." ∧ without "/" name.

(** The states in which [createFiles] finds room for the project: the
    name, when there is one, is a plain one, and neither the project
    directory nor [lib] in it is a regular file.  In these states every
    directory that a file is written into exists when it is written. *)
Definition projectFits (projectName : option string) (files : FileSystem) : Prop :=
  (Js.truthy (Js.ofArg projectName) = true →
   plainName (default "" projectName)
   ∧ ∀ text, files !! default "" projectName ≠ Some (File text))
  ∧ ∀ text, files !! inProject projectName "lib" ≠ Some (File text).

(** From [w] to [w'], a path keeps its node unless it is [rewritten] or it
    named nothing and is one of [created]. *)
Definition addsTo (created : list string) (rewritten : string) (w w' : World) : Prop :=
  ∀ path, fs w' !! path = fs w !! path
          ∨ path = rewritten
          ∨ (fs w !! path = None ∧ path ∈ created).

(** A world with nothing in it. *)
Definition exampleNothing : World := {| fs := ∅; events := [] |}.

(** A project with a manifest of its own. *)
Definition exampleOwnScripts : World :=
  {| fs := {["package.json" :=
               File (Some (JObj (<["name" := JStr "demo"]>
                                 {["scripts" := JObj {["lint" := JStr "eslint ."]}]})))]};
     events := [] |}.

(** The world after a project is created in an empty directory [demo]. *)
Definition exampleCreated : World := (createFiles "demo" None exampleNothing).2.

(** * Properties *)

(** ** JavaScript strings

    The three tests on strings are the ones JavaScript defines: a prefix,
    a suffix and an occurrence. *)

Lemma append_empty_l (s : string) : "" +:+ s = s.
Proof. reflexivity. Qed.

Lemma append_cons (c : ascii) (s t : string) : String c s +:+ t = String c (s +:+ t).
Proof. reflexivity. Qed.

Lemma append_empty_r (s : string) : s +:+ "" = s.
Proof. induction s as [|c s IH]; [done | by rewrite append_cons, IH]. Qed.

Lemma length_append (s t : string) :
  String.length (s +:+ t) = (String.length s + String.length t)%nat.
Proof. induction s as [|c s IH]; [done | by rewrite append_cons; simpl; rewrite IH]. Qed.

Lemma substring_here (p back : string) :
  substring 0 (String.length p) (p +:+ back) = p.
Proof.
  induction p as [|c p IH].
  - rewrite append_empty_l. by destruct back.
  - rewrite append_cons. simpl. by rewrite IH.
Qed.

Lemma substring_at (front p back : string) :
  substring (String.length front) (String.length p) (front +:+ p +:+ back) = p.
Proof.
  induction front as [|c front IH].
  - rewrite append_empty_l. apply substring_here.
  - rewrite append_cons. exact IH.
Qed.

Lemma substring_found (s p : string) (m : nat) :
  substring m (String.length p) s = p →
  (m ≤ String.length s)%nat →
  ∃ front back, s = front +:+ p +:+ back ∧ String.length front = m.
Proof.
  revert s. induction m as [|m IH]; intros s Hsub Hm.
  - exists "". revert s Hsub Hm. induction p as [|c p IHp]; intros s Hsub Hm.
    + by exists s.
    + destruct s as [|d s]; [done |]. simpl in Hsub. injection Hsub as -> Hsub.
      destruct (IHp _ Hsub) as (back & -> & _); [lia |]. by exists back.
  - destruct s as [|d s]; simpl in Hm; [lia |]. simpl in Hsub.
    destruct (IH s Hsub) as (front & back & -> & <-); [lia |].
    by exists (String d front), back.
Qed.

Lemma substring_nonempty (s p : string) (m : nat) :
  substring m (String.length p) s = p → p ≠ "" → (m ≤ String.length s)%nat.
Proof.
  revert s. induction m as [|m IH]; intros s Hsub Hp; [lia |].
  destruct s as [|d s]; simpl in Hsub; [by subst |].
  simpl. specialize (IH s Hsub Hp). lia.
Qed.

Lemma startsWith_spec (s p : string) :
  startsWith s p = true ↔ ∃ rest, s = p +:+ rest.
Proof.
  unfold startsWith. rewrite prefix_correct. split.
  - intros Hsub. destruct (substring_found s p 0 Hsub) as (front & back & -> & Hfront); [lia |].
    destruct front; [by exists back | done].
  - intros [rest ->]. apply substring_here.
Qed.

Lemma endsWith_spec (s p : string) :
  endsWith s p = true ↔ ∃ front, s = front +:+ p.
Proof.
  unfold endsWith. rewrite andb_true_iff, Nat.leb_le, String.eqb_eq. split.
  - intros [Hlen Hsub].
    destruct (substring_found s p _ Hsub) as (front & back & -> & Hfront); [lia |].
    rewrite !length_append in Hfront. destruct back; [| simpl in Hfront; lia].
    exists front. by rewrite append_empty_r.
  - intros [front ->]. rewrite length_append. split; [lia |].
    replace (String.length front + String.length p - String.length p)%nat
      with (String.length front) by lia.
    rewrite <- (append_empty_r p) at 2. apply substring_at.
Qed.

Lemma includes_spec (s p : string) :
  includes s p = true ↔ ∃ front back, s = front +:+ p +:+ back.
Proof.
  unfold includes. destruct (String.index 0 p s) as [m|] eqn:Hindex.
  - split; [intros _ | done].
    pose proof (index_correct1 _ _ _ _ Hindex) as Hsub.
    destruct (decide (p = "")) as [-> | Hp]; [by exists "", s |].
    destruct (substring_found s p m Hsub) as (front & back & -> & _);
      [by eapply substring_nonempty | by exists front, back].
  - split; [done |]. intros (front & back & ->).
    destruct (decide (p = "")) as [-> | Hp].
    + apply index_correct4 in Hindex. lia.
    + destruct (index_correct3 0 (String.length front) _ _ Hindex Hp); [lia |].
      apply substring_at.
Qed.

(** ** Base names

    For a file name [stem.ext] with no [/], a stem that is not empty and
    an extension that is not empty and has no dot, [path.parse] gives the
    stem. *)

Lemma get_some (i : nat) (s : string) :
  (i < String.length s)%nat → ∃ c, String.get i s = Some c.
Proof.
  revert i. induction s as [|d s IH]; intros i Hi; simpl in Hi; [lia |].
  destruct i as [|i]; [by exists d |]. apply IH. lia.
Qed.

(** Reduce the fields of a known state of the scan. *)
Ltac scan_fields :=
  cbv zeta;
  cbn [Path.end_ Path.startDot Path.preDotState Path.matchedSlash Path.startPart negb].

Section FileName.

Variable stem ext : string.
Hypothesis stem_nonempty : stem ≠ "".
Hypothesis ext_nonempty : ext ≠ "".
Hypothesis stem_no_slash : without "/" stem.
Hypothesis ext_no_slash : without "/" ext.
Hypothesis ext_no_dot : without "." ext.

Local Abbreviation file := (stem +:+ "." +:+ ext).
Local Abbreviation n := (String.length stem).
Local Abbreviation len := (String.length stem + 1 + String.length ext)%nat.

Lemma file_length : String.length file = len.
Proof. rewrite !length_append. simpl. lia. Qed.

Lemma get_stem (i : nat) : (i < n)%nat → String.get i file = String.get i stem.
Proof. intros Hi. symmetry. by apply append_correct1. Qed.

Lemma get_dot : String.get n file = Some "."%char.
Proof. symmetry. apply (append_correct2 stem ("." +:+ ext) 0). Qed.

Lemma get_ext (i : nat) :
  (n < i)%nat → String.get i file = String.get (i - n - 1) ext.
Proof.
  intros Hi. replace i with (S (i - n - 1) + n)%nat at 1 by lia.
  symmetry. apply (append_correct2 stem ("." +:+ ext) (S (i - n - 1))).
Qed.

Lemma scanLoop_file (k : nat) (st : Path.scan) :
  (k ≤ len)%nat → scanned n len k st → scanned n len 0 (Path.scanLoop file 0 k st).
Proof.
  assert (Hn : (0 < n)%nat) by (destruct stem; [done | simpl; lia]).
  assert (Hm : (0 < String.length ext)%nat) by (destruct ext; [done | simpl; lia]).
  unfold scanned in *. revert st. induction k as [|i IH]; intros st Hk Hst; [done |].
  cbn [Path.scanLoop]. change (i <? 0)%nat with false. cbv iota.
  destruct (get_some i file) as [c Hc]; [rewrite file_length; lia |]. rewrite Hc.
  destruct (decide (n < i)%nat) as [Hext | Hstem].
  - (* inside the extension *)
    rewrite get_ext in Hc by done.
    destruct (Ascii.eqb_spec c "/") as [-> | _]; [by destruct (ext_no_slash _ Hc) |].
    destruct (Ascii.eqb_spec c ".") as [-> | _]; [by destruct (ext_no_dot _ Hc) |].
    apply IH; [lia |]. right; left. split; [lia |].
    destruct Hst as [[Hlen ->] | [[_ ->] | [? _]]]; [| | lia].
    + cbn. do 2 f_equal. lia.
    + scan_fields. by rewrite (proj2 (Z.eqb_neq (Z.of_nat len) (-1))) by lia.
  - destruct (decide (i = n)) as [-> | Hne].
    + (* the dot *)
      rewrite get_dot in Hc. injection Hc as <-.
      apply IH; [lia |].
      right; right. split; [lia |]. exists 0%Z. split; [done |]. split; [lia |].
      destruct Hst as [[Hlen _] | [[_ ->] | [? _]]]; [lia | | lia].
      scan_fields. by rewrite (proj2 (Z.eqb_neq (Z.of_nat len) (-1))) by lia.
    + (* inside the stem *)
      rewrite get_stem in Hc by lia.
      destruct (Ascii.eqb_spec c "/") as [-> | _]; [by destruct (stem_no_slash _ Hc) |].
      apply IH; [lia |].
      right; right. split; [lia |].
      destruct Hst as [[Hlen _] | [[? _] | [_ (p & _ & _ & ->)]]]; [lia | lia |].
      scan_fields. rewrite (proj2 (Z.eqb_neq (Z.of_nat len) (-1))) by lia.
      scan_fields. rewrite (proj2 (Z.eqb_neq (Z.of_nat n) (-1))) by lia.
      destruct (Ascii.eqb c "."); [destruct (Z.eqb_spec p 1) as [-> | _] |]; scan_fields;
        eexists; (split; [lia |]); (split; [| reflexivity]); lia.
Qed.

(** The base name of [stem.ext] is [stem]. *)
Lemma name_of_file : Path.name file = stem.
Proof.
  assert (Hn : (0 < n)%nat) by (destruct stem; [done | simpl; lia]).
  assert (Hm : (0 < String.length ext)%nat) by (destruct ext; [done | simpl; lia]).
  unfold Path.name. rewrite file_length.
  destruct (Nat.eqb_spec len 0) as [? | _]; [lia |].
  assert (Hfirst : ∃ c, String.get 0 file = Some c ∧ Ascii.eqb c "/" = false).
  { destruct (get_some 0 stem Hn) as [c Hc]. exists c. rewrite get_stem by done.
    split; [done |]. destruct (Ascii.eqb_spec c "/") as [-> | _]; [| done].
    by destruct (stem_no_slash _ Hc). }
  destruct Hfirst as (c & -> & ->).
  pose proof (scanLoop_file len Path.scan0 (le_n _) (or_introl (conj eq_refl eq_refl)))
    as [[? _] | [[? _] | [_ (p & _ & Hp & ->)]]]; [lia | lia |].
  scan_fields. rewrite (proj2 (Z.eqb_neq (Z.of_nat len) (-1))) by lia.
  rewrite (proj2 (Z.eqb_neq (Z.of_nat n) (-1))) by lia.
  rewrite (proj2 (Z.eqb_neq p 0)) by lia.
  rewrite (proj2 (Z.eqb_neq (Z.of_nat n) (Z.of_nat len - 1))) by lia.
  rewrite andb_false_r. cbn [orb andb Z.eqb].
  unfold slice. rewrite Nat2Z.id. change (Z.to_nat 0) with 0%nat. rewrite Nat.sub_0_r.
  apply substring_here.
Qed.

End FileName.

Lemma same_stem_same_name (stem ext1 ext2 : string) :
  stem ≠ "" → without "/" stem →
  ext1 ≠ "" → without "/" ext1 → without "." ext1 →
  ext2 ≠ "" → without "/" ext2 → without "." ext2 →
  Path.name (stem +:+ "." +:+ ext1) = Path.name (stem +:+ "." +:+ ext2).
Proof. intros. by rewrite !name_of_file. Qed.

Example name_index_ts : Path.name "index.ts" = "index".
Proof. reflexivity. Qed.

Example name_two_dots : Path.name "a.b.tsx" = "a.b".
Proof. reflexivity. Qed.

Example name_dotfile : Path.name ".ts" = ".ts".
Proof. reflexivity. Qed.

Example name_last_component : Path.name "/lib/utils.js/" = "utils".
Proof. reflexivity. Qed.

(** ** Running a computation *)

Lemma run_bind {A B} (m : M A) (k : A → M B) (w w' : World) (a : A) :
  m w = (Ret a, w') → (m ≫= k) w = k a w'.
Proof. intros H. unfold mbind, M_bind, bind. by rewrite H. Qed.

Lemma run_bind_throw {A B} (m : M A) (k : A → M B) (w w' : World) (e : error) :
  m w = (Throw e, w') → (m ≫= k) w = (Throw e, w').
Proof. intros H. unfold mbind, M_bind, bind. by rewrite H. Qed.

Lemma run_bind_exit {A B} (m : M A) (k : A → M B) (w w' : World) (s : Z) :
  m w = (Exit s, w') → (m ≫= k) w = (Exit s, w').
Proof. intros H. unfold mbind, M_bind, bind. by rewrite H. Qed.

Lemma fileExists_path (path : string) (w : World) :
  fileExists (Some (JStr path)) w = (Ret (bool_decide (is_Some (fs w !! path))), w).
Proof.
  unfold fileExists, tryCatch, Fs.access, mbind, M_bind, bind, ret.
  by destruct (fs w !! path).
Qed.

Lemma fileExists_present (path : string) (n : node) (w : World) :
  fs w !! path = Some n → fileExists (Some (JStr path)) w = (Ret true, w).
Proof.
  intros H. rewrite fileExists_path, bool_decide_eq_true_2; [done | by rewrite H].
Qed.

Lemma fileExists_absent (path : string) (w : World) :
  fs w !! path = None → fileExists (Some (JStr path)) w = (Ret false, w).
Proof.
  intros H. rewrite fileExists_path, bool_decide_eq_false_2; [done |].
  rewrite H. by intros [? ?].
Qed.

Lemma fileExists_not_a_path (v : value) (w : World) :
  (∀ path, v ≠ Some (JStr path)) → fileExists v w = (Ret false, w).
Proof.
  intros H. unfold fileExists, tryCatch, Fs.access, mbind, M_bind, bind, ret.
  destruct v as [[]|]; try done. by destruct (H s).
Qed.

Lemma readFile_file (path : string) (text : option json) (w : World) :
  fs w !! path = Some (File text) → Fs.readFile path w = (Ret text, w).
Proof. intros H. unfold Fs.readFile. by rewrite H. Qed.

Lemma writeFile_file (path : string) (old text : option json) (w : World) :
  fs w !! path = Some (File old) →
  Fs.writeFile path text w
  = (Ret tt, {| fs := <[path := File text]> (fs w); events := events w |}).
Proof. intros H. unfold Fs.writeFile. by rewrite H. Qed.

(** ** The manifest the updater writes, in closed form *)

Lemma setMainFields_object outDir noTypes baseName manifest w :
  setMainFields outDir noTypes baseName (JObj manifest) w
  = (Ret (JObj (mainFields outDir noTypes baseName manifest)), w).
Proof. unfold setMainFields, mainFields. by destruct noTypes. Qed.

Lemma updateFiles_object outDir manifest w :
  updateFiles outDir (JObj manifest) w = (Ret (JObj (filesField outDir manifest)), w).
Proof.
  unfold updateFiles, filesField. simpl.
  destruct (negb (Js.truthy (manifest !! "files"))); [done |].
  destruct (manifest !! "files") as [[]|]; try done.
  by destruct (Js.includes elems outDir).
Qed.

Lemma updatePackageJsonExports_object entryPoints outDir noTypes manifest w :
  fs w !! packageJsonPath = Some (File (Some (JObj manifest))) →
  updatePackageJsonExports entryPoints outDir noTypes w
  = match updatedManifest entryPoints outDir noTypes manifest with
    | Some manifest' => (Ret tt, writeManifest manifest' w)
    | None => (Throw (TypeError "ERR_INVALID_ARG_TYPE"), w)
    end.
Proof.
  intros Hfile. unfold updatePackageJsonExports, updatedManifest.
  rewrite (run_bind _ _ _ _ _ (fileExists_present _ _ _ Hfile)). cbn [negb].
  rewrite (run_bind _ _ _ _ _ (readFile_file _ _ _ Hfile)).
  rewrite (run_bind _ _ w w (JObj manifest)) by done.
  fold (singleIndex entryPoints) (mainEntry entryPoints).
  destruct (singleIndex entryPoints).
  - destruct (head entryPoints) as [e|]; [|done]. cbn [fmap option_fmap option_map mbind option_bind].
    rewrite (run_bind _ _ w w (JObj (<["exports" := JObj {["." := exportTarget outDir noTypes (Path.name e)]}]>
               (mainFields outDir noTypes (Path.name e) manifest)))).
    + rewrite (run_bind _ _ _ _ _ (updateFiles_object _ _ _)).
      apply (writeFile_file _ _ _ _ Hfile).
    + rewrite (run_bind _ _ w w (Path.name e)) by done.
      by rewrite (run_bind _ _ _ _ _ (setMainFields_object _ _ _ _ _)).
  - destruct (mainEntry entryPoints) as [e|];
      cbn [fmap option_fmap option_map mbind option_bind].
    + rewrite (run_bind _ _ w w (JObj (mainFields outDir noTypes (Path.name e)
                 (<["exports" := JObj (foldl (addExport outDir noTypes) ∅ entryPoints)]>
                    manifest)))).
      * rewrite (run_bind _ _ _ _ _ (updateFiles_object _ _ _)).
        apply (writeFile_file _ _ _ _ Hfile).
      * rewrite (run_bind _ _ w w (JObj (<["exports" :=
                   JObj (foldl (addExport outDir noTypes) ∅ entryPoints)]> manifest))) by done.
        rewrite (run_bind _ _ w w (Path.name e)) by done.
        apply setMainFields_object.
    + apply run_bind_throw.
      rewrite (run_bind _ _ w w (JObj (<["exports" :=
                 JObj (foldl (addExport outDir noTypes) ∅ entryPoints)]> manifest))) by done.
      by apply run_bind_throw.
Qed.

Lemma mainEntry_nonempty (entryPoints : list string) :
  entryPoints ≠ [] → is_Some (mainEntry entryPoints).
Proof.
  intros Hne. unfold mainEntry.
  destruct entryPoints as [|e0 rest]; [done |].
  destruct (find _ (e0 :: rest)) as [e|]; [|by eexists].
  destruct (String.eqb e ""); by eexists.
Qed.

Lemma updatedManifest_nonempty entryPoints outDir noTypes manifest :
  entryPoints ≠ [] → is_Some (updatedManifest entryPoints outDir noTypes manifest).
Proof.
  intros Hne. unfold updatedManifest.
  destruct (singleIndex entryPoints).
  - destruct entryPoints; [done | by eexists].
  - destruct (mainEntry_nonempty _ Hne) as [e ->]. by eexists.
Qed.

Lemma singleIndex_single (e : string) : singleIndex [e] = startsWith e "index.".
Proof. done. Qed.

Lemma singleIndex_many (entryPoints : list string) :
  1 < length entryPoints → singleIndex entryPoints = false.
Proof.
  intros Hlen. unfold singleIndex.
  destruct (Nat.eqb_spec (length entryPoints) 1); [lia | done].
Qed.

Lemma filesField_other outDir manifest (k : string) :
  k ≠ "files" → filesField outDir manifest !! k = manifest !! k.
Proof.
  intros Hk. unfold filesField.
  destruct (negb _); [by rewrite lookup_insert_ne |].
  destruct (manifest !! "files") as [[]|]; try done.
  destruct (Js.includes _ _); [done | by rewrite lookup_insert_ne].
Qed.

Lemma mainFields_main outDir noTypes baseName manifest :
  mainFields outDir noTypes baseName manifest !! "main"
  = Some (JStr ("./" +:+ Js.template (Js.ofArg outDir) +:+ "/cjs/" +:+ baseName +:+ ".js")).
Proof. unfold mainFields. by destruct noTypes; simplify_map_eq. Qed.

Lemma mainFields_module outDir noTypes baseName manifest :
  mainFields outDir noTypes baseName manifest !! "module"
  = Some (JStr ("./" +:+ Js.template (Js.ofArg outDir) +:+ "/esm/" +:+ baseName +:+ ".js")).
Proof. unfold mainFields. by destruct noTypes; simplify_map_eq. Qed.

Lemma mainFields_types_kept outDir baseName manifest :
  mainFields outDir true baseName manifest !! "types" = manifest !! "types".
Proof. unfold mainFields. by simplify_map_eq. Qed.

Lemma mainFields_other outDir noTypes baseName manifest (k : string) :
  k ≠ "main" → k ≠ "module" → k ≠ "types" →
  mainFields outDir noTypes baseName manifest !! k = manifest !! k.
Proof. intros. unfold mainFields. by destruct noTypes; simplify_map_eq. Qed.

(** ** Export keys *)

Lemma exportKey_index : exportKey "index" = ".".
Proof. done. Qed.

Lemma exportKey_other (baseName : string) :
  baseName ≠ "index" → exportKey baseName = "./" +:+ baseName.
Proof.
  intros Hne. unfold exportKey.
  destruct (String.eqb_spec baseName "index"); [done | done].
Qed.

#[export] Instance exportKey_inj : Inj (=) (=) exportKey.
Proof.
  intros b1 b2. unfold exportKey.
  destruct (String.eqb_spec b1 "index") as [-> | H1],
           (String.eqb_spec b2 "index") as [-> | H2]; simpl; intros H.
  - done.
  - discriminate.
  - discriminate.
  - by injection H.
Qed.

Section exports.

Variable outDir : option string.
Variable noTypes : bool.

Local Abbreviation add := (addExport outDir noTypes).
Local Abbreviation target := (exportTarget outDir noTypes).

Lemma exports_dom (entryPoints : list string) (exports : gmap string json) :
  dom (foldl add exports entryPoints)
  = dom exports ∪ list_to_set (exportKey ∘ Path.name <$> entryPoints).
Proof.
  revert exports. induction entryPoints as [|e rest IH]; intros exports; simpl.
  - by rewrite union_empty_r_L.
  - rewrite IH. unfold addExport. rewrite dom_insert_L. set_solver.
Qed.

Lemma exports_lookup (entryPoints : list string) (exports : gmap string json)
    (baseName : string) :
  baseName ∈ Path.name <$> entryPoints
  ∨ exports !! exportKey baseName = Some (target baseName) →
  foldl add exports entryPoints !! exportKey baseName = Some (target baseName).
Proof.
  revert exports. induction entryPoints as [|e rest IH]; intros exports H; simpl.
  - destruct H as [H | H]; [by apply elem_of_nil in H | done].
  - apply IH. rewrite fmap_cons, elem_of_cons in H.
    destruct (decide (baseName ∈ Path.name <$> rest)) as [Hin | Hout]; [by left | right].
    unfold addExport.
    destruct (decide (Path.name e = baseName)) as [-> | Hne].
    + by rewrite lookup_insert_eq.
    + rewrite lookup_insert_ne; [| by intros ?%(inj exportKey)].
      destruct H as [[? | ?] | ?]; done.
Qed.

Lemma exports_values (entryPoints : list string) (exports : gmap string json)
    (k : string) (v : json) :
  foldl add exports entryPoints !! k = Some v →
  exports !! k = Some v
  ∨ ∃ e, e ∈ entryPoints ∧ k = exportKey (Path.name e) ∧ v = target (Path.name e).
Proof.
  revert exports. induction entryPoints as [|e rest IH]; intros exports H; simpl in H.
  - by left.
  - destruct (IH _ H) as [Hhere | (e' & Hin & -> & ->)].
    + unfold addExport in Hhere.
      destruct (decide (exportKey (Path.name e) = k)) as [<- | Hne].
      * rewrite lookup_insert_eq in Hhere. injection Hhere as <-.
        right. exists e. split; [apply elem_of_cons; by left | done].
      * rewrite lookup_insert_ne in Hhere by done. by left.
    + right. exists e'. split; [apply elem_of_cons; by right | done].
Qed.

End exports.

Lemma remove_dups_fmap_inj {A B} `{EqDecision A, EqDecision B} (f : A → B)
    `{!Inj (=) (=) f} (l : list A) :
  remove_dups (f <$> l) = f <$> remove_dups l.
Proof.
  induction l as [|x l IH]; [done |].
  change (remove_dups (f <$> x :: l))
    with (if decide_rel elem_of (f x) (f <$> l)
          then remove_dups (f <$> l) else f x :: remove_dups (f <$> l)).
  change (remove_dups (x :: l))
    with (if decide_rel elem_of x l then remove_dups l else x :: remove_dups l).
  destruct (decide_rel elem_of x l) as [Hin | Hout];
    destruct (decide_rel elem_of (f x) (f <$> l)) as [Hin' | Hout'].
  - exact IH.
  - destruct Hout'. by apply list_elem_of_fmap_2.
  - destruct Hout. apply list_elem_of_fmap in Hin' as (y & Hy%(inj f) & Hin). by subst.
  - by rewrite fmap_cons, IH.
Qed.

Lemma size_list_to_set_remove_dups (l : list string) :
  size (list_to_set l : gset string) = length (remove_dups l).
Proof.
  rewrite <- (size_list_to_set (C := gset string) (remove_dups l)) by apply NoDup_remove_dups.
  f_equal. apply set_eq. intros x.
  by rewrite !elem_of_list_to_set, elem_of_remove_dups.
Qed.

Lemma exportTargetProps_import outDir noTypes baseName :
  exportTargetProps outDir noTypes baseName !! "import"
  = Some (JStr ("./" +:+ Js.template (Js.ofArg outDir) +:+ "/esm/" +:+ baseName +:+ ".js")).
Proof. unfold exportTargetProps. by simplify_map_eq. Qed.

Lemma exportTargetProps_require outDir noTypes baseName :
  exportTargetProps outDir noTypes baseName !! "require"
  = Some (JStr ("./" +:+ Js.template (Js.ofArg outDir) +:+ "/cjs/" +:+ baseName +:+ ".js")).
Proof. unfold exportTargetProps. by simplify_map_eq. Qed.

Lemma exportTargetProps_types outDir noTypes baseName :
  exportTargetProps outDir noTypes baseName !! "types"
  = if noTypes then None
    else Some (JStr ("./" +:+ Js.template (Js.ofArg outDir) +:+ "/types/"
                     +:+ baseName +:+ ".d.ts")).
Proof. unfold exportTargetProps. by destruct noTypes; simplify_map_eq. Qed.

Lemma exportTarget_types outDir baseName :
  Js.get (Some (exportTarget outDir true baseName)) "types" = None.
Proof. unfold exportTarget, exportTargetProps, Js.get. by simplify_map_eq. Qed.

Lemma includes_elem_of (elems : list json) (outDir : string) :
  Js.includes elems (Some outDir) = true ↔ JStr outDir ∈ elems.
Proof.
  unfold Js.includes. rewrite existsb_exists. split.
  - intros (x & Hin%list_elem_of_In & Hx). destruct x; try done.
    apply String.eqb_eq in Hx. by subst.
  - intros Hin. exists (JStr outDir). split; [by apply list_elem_of_In |].
    apply String.eqb_refl.
Qed.

(** ** The manifest updater *)

(** C2.  With the single entry point [e], whose name starts with
    ["index."], the updater writes a manifest whose [main] is
    [./<outDir>/cjs/<name>.js], whose [module] is [./<outDir>/esm/<name>.js]
    and whose [exports] has the one key ["."], the [import] and [require]
    of which are the ESM and the CJS path; [<name>] is the base name of
    [e].  The entry has a [types] target exactly when types are wanted. *)
Theorem single_index_entry (e outDir : string) (noTypes : bool)
    (manifest : gmap string json) (w : World) :
  startsWith e "index." = true →
  fs w !! packageJsonPath = Some (File (Some (JObj manifest))) →
  ∃ manifest' target,
    updatePackageJsonExports [e] (Some outDir) noTypes w
    = (Ret tt, writeManifest manifest' w)
    ∧ manifest' !! "main"
      = Some (JStr ("./" +:+ outDir +:+ "/cjs/" +:+ Path.name e +:+ ".js"))
    ∧ manifest' !! "module"
      = Some (JStr ("./" +:+ outDir +:+ "/esm/" +:+ Path.name e +:+ ".js"))
    ∧ manifest' !! "exports" = Some (JObj {["." := JObj target]})
    ∧ target !! "import"
      = Some (JStr ("./" +:+ outDir +:+ "/esm/" +:+ Path.name e +:+ ".js"))
    ∧ target !! "require"
      = Some (JStr ("./" +:+ outDir +:+ "/cjs/" +:+ Path.name e +:+ ".js"))
    ∧ target !! "types"
      = (if noTypes then None
         else Some (JStr ("./" +:+ outDir +:+ "/types/" +:+ Path.name e +:+ ".d.ts"))).
Proof.
  intros Hindex Hfile.
  rewrite (updatePackageJsonExports_object _ _ _ _ _ Hfile).
  unfold updatedManifest. rewrite singleIndex_single, Hindex.
  cbn [head fmap option_fmap option_map mbind option_bind].
  eexists _, (exportTargetProps (Some outDir) noTypes (Path.name e)).
  split; [reflexivity |]. split; [| split; [| split]].
  - rewrite filesField_other, lookup_insert_ne by done. apply mainFields_main.
  - rewrite filesField_other, lookup_insert_ne by done. apply mainFields_module.
  - rewrite filesField_other by done. apply lookup_insert_eq.
  - split; [apply exportTargetProps_import |].
    split; [apply exportTargetProps_require | apply exportTargetProps_types].
Qed.

Lemma single_index_entry_witness :
  startsWith "index.ts" "index." = true
  ∧ fs (manifestOnly ∅) !! packageJsonPath = Some (File (Some (JObj ∅)))
  ∧ ∃ manifest' target,
      updatePackageJsonExports ["index.ts"] (Some "dist") false (manifestOnly ∅)
      = (Ret tt, writeManifest manifest' (manifestOnly ∅))
      ∧ manifest' !! "main" = Some (JStr "./dist/cjs/index.js")
      ∧ manifest' !! "module" = Some (JStr "./dist/esm/index.js")
      ∧ manifest' !! "exports" = Some (JObj {["." := JObj target]})
      ∧ target !! "import" = Some (JStr "./dist/esm/index.js")
      ∧ target !! "require" = Some (JStr "./dist/cjs/index.js")
      ∧ target !! "types" = Some (JStr "./dist/types/index.d.ts").
Proof.
  split; [reflexivity |]. split; [reflexivity |].
  apply (single_index_entry "index.ts" "dist" false ∅ (manifestOnly ∅)); reflexivity.
Defined.

(** C1, as stated, fails: ["utils.ts"] and ["utils.js"] have the same
    base name, so both are written under the key ["./utils"] and the
    export map of these two entry points has one key. *)
Lemma exports_collision_counterexample :
  ∃ manifest' exports,
    updatePackageJsonExports ["utils.ts"; "utils.js"] (Some "dist") false (manifestOnly ∅)
    = (Ret tt, writeManifest manifest' (manifestOnly ∅))
    ∧ manifest' !! "exports" = Some (JObj exports)
    ∧ size exports = 1
    ∧ size exports ≠ length ["utils.ts"; "utils.js"]
    ∧ exportKey (Path.name "utils.ts") = exportKey (Path.name "utils.js").
Proof.
  eexists _, _. split.
  - by rewrite (updatePackageJsonExports_object _ _ _ ∅).
  - split; [by vm_compute |]. by vm_compute.
Qed.

(** C1, amended.  For more than one entry point the export map has
    exactly the keys of the entry points, ["."] for a base name ["index"]
    and ["./<basename>"] for any other, each with the targets of that base
    name.  Two entry points have the same key exactly when they have the
    same base name, so the map has one key per distinct base name. *)
Theorem exports_one_key_per_base_name (entryPoints : list string) (outDir : string)
    (noTypes : bool) (manifest : gmap string json) (w : World) :
  1 < length entryPoints →
  fs w !! packageJsonPath = Some (File (Some (JObj manifest))) →
  ∃ manifest' exports,
    updatePackageJsonExports entryPoints (Some outDir) noTypes w
    = (Ret tt, writeManifest manifest' w)
    ∧ manifest' !! "exports" = Some (JObj exports)
    ∧ (∀ k, k ∈ dom exports ↔ ∃ e, e ∈ entryPoints ∧ k = exportKey (Path.name e))
    ∧ (∀ e, e ∈ entryPoints →
         exports !! (if String.eqb (Path.name e) "index" then "." else "./" +:+ Path.name e)
         = Some (exportTarget (Some outDir) noTypes (Path.name e)))
    ∧ (∀ e1 e2, exportKey (Path.name e1) = exportKey (Path.name e2)
                ↔ Path.name e1 = Path.name e2)
    ∧ size exports = length (remove_dups (Path.name <$> entryPoints)).
Proof.
  intros Hlen Hfile.
  rewrite (updatePackageJsonExports_object _ _ _ _ _ Hfile).
  unfold updatedManifest. rewrite (singleIndex_many _ Hlen).
  destruct (mainEntry_nonempty entryPoints) as [e0 ->].
  { intros ->. simpl in Hlen. lia. }
  cbn [fmap option_fmap option_map mbind option_bind].
  eexists _, _. split; [reflexivity |].
  rewrite filesField_other, mainFields_other, lookup_insert_eq by done.
  split; [reflexivity |].
  assert (Hdom : dom (foldl (addExport (Some outDir) noTypes) ∅ entryPoints)
                 = list_to_set (exportKey ∘ Path.name <$> entryPoints)).
  { by rewrite exports_dom, dom_empty_L, union_empty_l_L. }
  split; [| split; [| split]].
  - intros k. rewrite Hdom, elem_of_list_to_set, list_elem_of_fmap.
    split; intros (e & ? & ?); by exists e.
  - intros e He. fold (exportKey (Path.name e)).
    apply exports_lookup. left. by apply list_elem_of_fmap_2.
  - intros e1 e2. split; [by intros ?%(inj exportKey) | by intros ->].
  - rewrite <- size_dom, Hdom, list_fmap_compose, size_list_to_set_remove_dups.
    by rewrite (remove_dups_fmap_inj exportKey), length_fmap.
Qed.

Lemma exports_one_key_per_base_name_witness :
  1 < length ["index.ts"; "utils.ts"; "utils.js"]
  ∧ fs (manifestOnly ∅) !! packageJsonPath = Some (File (Some (JObj ∅)))
  ∧ ∃ manifest' exports,
      updatePackageJsonExports ["index.ts"; "utils.ts"; "utils.js"] (Some "dist") false
        (manifestOnly ∅)
      = (Ret tt, writeManifest manifest' (manifestOnly ∅))
      ∧ manifest' !! "exports" = Some (JObj exports)
      ∧ (∀ k, k ∈ dom exports
              ↔ ∃ e, e ∈ ["index.ts"; "utils.ts"; "utils.js"] ∧ k = exportKey (Path.name e))
      ∧ (∀ e, e ∈ ["index.ts"; "utils.ts"; "utils.js"] →
           exports !! (if String.eqb (Path.name e) "index" then "."
                       else "./" +:+ Path.name e)
           = Some (exportTarget (Some "dist") false (Path.name e)))
      ∧ (∀ e1 e2, exportKey (Path.name e1) = exportKey (Path.name e2)
                  ↔ Path.name e1 = Path.name e2)
      ∧ size exports = length (remove_dups (Path.name <$> ["index.ts"; "utils.ts"; "utils.js"])).
Proof.
  split; [simpl; lia |]. split; [reflexivity |].
  apply (exports_one_key_per_base_name _ "dist" false ∅ (manifestOnly ∅));
    [simpl; lia | reflexivity].
Defined.

(** The example of the specification: [index.ts] and [utils.ts] compiled
    into [dist]. *)
Example exports_of_index_and_utils :
  ∃ manifest',
    updatePackageJsonExports ["index.ts"; "utils.ts"] (Some "dist") false (manifestOnly ∅)
    = (Ret tt, writeManifest manifest' (manifestOnly ∅))
    ∧ manifest' !! "exports"
      = Some (JObj {[ "." := JObj {[ "import" := JStr "./dist/esm/index.js";
                                     "require" := JStr "./dist/cjs/index.js";
                                     "types" := JStr "./dist/types/index.d.ts" ]};
                      "./utils" := JObj {[ "import" := JStr "./dist/esm/utils.js";
                                           "require" := JStr "./dist/cjs/utils.js";
                                           "types" := JStr "./dist/types/utils.d.ts" ]} ]}).
Proof.
  eexists. split.
  - by rewrite (updatePackageJsonExports_object _ _ _ ∅).
  - by vm_compute.
Qed.

(** C3, as stated, fails: with the no-types flag set, a [types] field
    that the manifest already has stays in the manifest written. *)
Lemma noTypes_keeps_types_counterexample :
  ∃ manifest',
    updatePackageJsonExports ["index.ts"] (Some "dist") true
      (manifestOnly {["types" := JStr "./old/index.d.ts"]})
    = (Ret tt, writeManifest manifest' (manifestOnly {["types" := JStr "./old/index.d.ts"]}))
    ∧ manifest' !! "types" = Some (JStr "./old/index.d.ts").
Proof.
  eexists. split.
  - by rewrite (updatePackageJsonExports_object _ _ _ {["types" := JStr "./old/index.d.ts"]}).
  - by vm_compute.
Qed.

(** C3, amended.  With the no-types flag set the updater does not touch
    the top-level [types] field: the manifest written has it exactly as
    the input manifest has it, so it has none when the input has none; and
    no entry of the export map has a [types] property. *)
Theorem noTypes_adds_no_types (entryPoints : list string) (outDir : option string)
    (manifest : gmap string json) (w : World) :
  entryPoints ≠ [] →
  fs w !! packageJsonPath = Some (File (Some (JObj manifest))) →
  ∃ manifest' exports,
    updatePackageJsonExports entryPoints outDir true w = (Ret tt, writeManifest manifest' w)
    ∧ manifest' !! "types" = manifest !! "types"
    ∧ manifest' !! "exports" = Some (JObj exports)
    ∧ ∀ k entry, exports !! k = Some entry → Js.get (Some entry) "types" = None.
Proof.
  intros Hne Hfile.
  rewrite (updatePackageJsonExports_object _ _ _ _ _ Hfile).
  unfold updatedManifest. destruct (singleIndex entryPoints).
  - destruct entryPoints as [|e rest]; [done |].
    cbn [head fmap option_fmap option_map mbind option_bind].
    eexists _, _. split; [reflexivity |]. split; [| split].
    + rewrite filesField_other, lookup_insert_ne by done. apply mainFields_types_kept.
    + rewrite filesField_other by done. apply lookup_insert_eq.
    + intros k entry [<- <-]%lookup_singleton_Some. apply exportTarget_types.
  - destruct (mainEntry_nonempty _ Hne) as [e ->].
    cbn [fmap option_fmap option_map mbind option_bind].
    eexists _, _. split; [reflexivity |]. split; [| split].
    + rewrite filesField_other, mainFields_types_kept by done. by rewrite lookup_insert_ne.
    + rewrite filesField_other, mainFields_other by done. apply lookup_insert_eq.
    + intros k entry [Hempty | (e' & _ & _ & ->)]%exports_values.
      * by rewrite lookup_empty in Hempty.
      * apply exportTarget_types.
Qed.

Lemma noTypes_adds_no_types_witness :
  ["index.ts"; "utils.ts"] ≠ []
  ∧ fs (manifestOnly ∅) !! packageJsonPath = Some (File (Some (JObj ∅)))
  ∧ ∃ manifest' exports,
      updatePackageJsonExports ["index.ts"; "utils.ts"] (Some "dist") true (manifestOnly ∅)
      = (Ret tt, writeManifest manifest' (manifestOnly ∅))
      ∧ manifest' !! "types" = (∅ : gmap string json) !! "types"
      ∧ manifest' !! "exports" = Some (JObj exports)
      ∧ ∀ k entry, exports !! k = Some entry → Js.get (Some entry) "types" = None.
Proof.
  split; [discriminate |]. split; [reflexivity |].
  apply (noTypes_adds_no_types _ (Some "dist") ∅ (manifestOnly ∅));
    [discriminate | reflexivity].
Defined.

(** C9, as stated, fails for the empty list of entry points: the
    updater throws when it parses the name of the main entry, before
    the "files" step and before it writes, so a manifest without [files]
    gets none and a [files] list without the output directory is not
    appended to. *)
Lemma files_untouched_counterexample :
  ({["name" := JStr "pkg"]} : gmap string json) !! "files" = None
  ∧ updatePackageJsonExports [] (Some "dist") false (manifestOnly {["name" := JStr "pkg"]})
    = (Throw (TypeError "ERR_INVALID_ARG_TYPE"), manifestOnly {["name" := JStr "pkg"]})
  ∧ exampleManifest !! "files" = Some (JArr [JStr "lib"])
  ∧ updatePackageJsonExports [] (Some "dist") false (manifestOnly exampleManifest)
    = (Throw (TypeError "ERR_INVALID_ARG_TYPE"), manifestOnly exampleManifest).
Proof.
  split; [by vm_compute |]. split.
  { by rewrite (updatePackageJsonExports_object _ _ _ {["name" := JStr "pkg"]}). }
  split; [by vm_compute |].
  by rewrite (updatePackageJsonExports_object _ _ _ exampleManifest).
Qed.

(** C9, amended.  For a list of entry points that is not empty, the
    updater writes a manifest in which [files] is the
    one-element list of the output directory when the input has no
    [files]; in which a [files] list has the output directory appended
    when it is not a member and is unchanged when it is one; and in which
    every field other than [main], [module], [types], [exports] and
    [files] is as in the input.  Nothing but [package.json] is written. *)
Theorem files_and_frame (entryPoints : list string) (outDir : string) (noTypes : bool)
    (manifest : gmap string json) (w : World) :
  entryPoints ≠ [] →
  fs w !! packageJsonPath = Some (File (Some (JObj manifest))) →
  ∃ manifest',
    updatePackageJsonExports entryPoints (Some outDir) noTypes w
    = (Ret tt, {| fs := <[packageJsonPath := File (Some (JObj manifest'))]> (fs w);
                  events := events w |})
    ∧ (manifest !! "files" = None → manifest' !! "files" = Some (JArr [JStr outDir]))
    ∧ (∀ elems, manifest !! "files" = Some (JArr elems) →
         (JStr outDir ∈ elems → manifest' !! "files" = Some (JArr elems))
         ∧ (JStr outDir ∉ elems →
            manifest' !! "files" = Some (JArr (elems ++ [JStr outDir]))))
    ∧ (∀ k, k ∉ ["main"; "module"; "types"; "exports"; "files"] →
         manifest' !! k = manifest !! k).
Proof.
  intros Hne Hfile.
  rewrite (updatePackageJsonExports_object _ _ _ _ _ Hfile).
  assert (Hshape : ∃ inner,
    updatedManifest entryPoints (Some outDir) noTypes manifest
    = Some (filesField (Some outDir) inner)
    ∧ inner !! "files" = manifest !! "files"
    ∧ ∀ k, k ∉ ["main"; "module"; "types"; "exports"; "files"] →
        inner !! k = manifest !! k).
  { unfold updatedManifest. destruct (singleIndex entryPoints).
    - destruct entryPoints as [|e rest]; [done |].
      cbn [head fmap option_fmap option_map mbind option_bind].
      eexists. split; [reflexivity |]. split.
      + by rewrite lookup_insert_ne, mainFields_other.
      + intros k Hk. rewrite !not_elem_of_cons in Hk.
        destruct Hk as (? & ? & ? & ? & ? & _).
        by rewrite lookup_insert_ne, mainFields_other.
    - destruct (mainEntry_nonempty _ Hne) as [e ->].
      cbn [fmap option_fmap option_map mbind option_bind].
      eexists. split; [reflexivity |]. split.
      + by rewrite mainFields_other, lookup_insert_ne.
      + intros k Hk. rewrite !not_elem_of_cons in Hk.
        destruct Hk as (? & ? & ? & ? & ? & _).
        by rewrite mainFields_other, lookup_insert_ne. }
  destruct Hshape as (inner & -> & Hfiles & Hframe).
  eexists. split; [reflexivity |]. split; [| split].
  - intros Habsent. unfold filesField. rewrite Hfiles, Habsent.
    cbn [Js.truthy negb Js.element from_option]. apply lookup_insert_eq.
  - intros elems Hlist. unfold filesField. rewrite Hfiles, Hlist.
    cbn [Js.truthy negb]. split.
    + intros Hin. apply includes_elem_of in Hin. rewrite Hin. by rewrite Hfiles.
    + intros Hout. destruct (Js.includes elems (Some outDir)) eqn:Hincl.
      * by apply includes_elem_of in Hincl.
      * apply lookup_insert_eq.
  - intros k Hk. rewrite filesField_other; [by apply Hframe |].
    rewrite !not_elem_of_cons in Hk. by destruct Hk as (? & ? & ? & ? & ? & _).
Qed.

Lemma files_and_frame_witness :
  ["index.ts"; "cli.ts"] ≠ []
  ∧ fs (manifestOnly exampleManifest) !! packageJsonPath
    = Some (File (Some (JObj exampleManifest)))
  ∧ ∃ manifest',
      updatePackageJsonExports ["index.ts"; "cli.ts"] (Some "dist") false
        (manifestOnly exampleManifest)
      = (Ret tt, {| fs := <[packageJsonPath := File (Some (JObj manifest'))]>
                            (fs (manifestOnly exampleManifest));
                    events := events (manifestOnly exampleManifest) |})
      ∧ (exampleManifest !! "files" = None →
         manifest' !! "files" = Some (JArr [JStr "dist"]))
      ∧ (∀ elems, exampleManifest !! "files" = Some (JArr elems) →
           (JStr "dist" ∈ elems → manifest' !! "files" = Some (JArr elems))
           ∧ (JStr "dist" ∉ elems →
              manifest' !! "files" = Some (JArr (elems ++ [JStr "dist"]))))
      ∧ (∀ k, k ∉ ["main"; "module"; "types"; "exports"; "files"] →
           manifest' !! k = exampleManifest !! k).
Proof.
  split; [discriminate |]. split; [reflexivity |].
  apply (files_and_frame _ "dist" false exampleManifest (manifestOnly exampleManifest));
    [discriminate | reflexivity].
Defined.

(** The three cases of [files], and a field the update does not know. *)
Example files_appended :
  ∃ manifest',
    updatePackageJsonExports ["index.ts"] (Some "dist") false (manifestOnly exampleManifest)
    = (Ret tt, writeManifest manifest' (manifestOnly exampleManifest))
    ∧ manifest' !! "files" = Some (JArr [JStr "lib"; JStr "dist"])
    ∧ manifest' !! "scripts" = exampleManifest !! "scripts".
Proof.
  eexists. split.
  - by rewrite (updatePackageJsonExports_object _ _ _ exampleManifest).
  - by vm_compute.
Qed.

Example files_created :
  ∃ manifest',
    updatePackageJsonExports ["index.ts"] (Some "dist") false (manifestOnly ∅)
    = (Ret tt, writeManifest manifest' (manifestOnly ∅))
    ∧ manifest' !! "files" = Some (JArr [JStr "dist"]).
Proof.
  eexists. split.
  - by rewrite (updatePackageJsonExports_object _ _ _ ∅).
  - by vm_compute.
Qed.

Example files_kept :
  ∃ manifest',
    updatePackageJsonExports ["index.ts"] (Some "lib") false (manifestOnly exampleManifest)
    = (Ret tt, writeManifest manifest' (manifestOnly exampleManifest))
    ∧ manifest' !! "files" = Some (JArr [JStr "lib"]).
Proof.
  eexists. split.
  - by rewrite (updatePackageJsonExports_object _ _ _ exampleManifest).
  - by vm_compute.
Qed.

(** ** Entry points *)

Lemma isEntryPoint_eligible (file : string) : isEntryPoint file = eligible file.
Proof.
  unfold isEntryPoint, eligible, extensionWhitelist. cbn [existsb].
  by rewrite orb_false_r, !orb_assoc.
Qed.

Lemma readdir_dir (path : string) (entries : list Dirent) (w : World) :
  fs w !! path = Some (Dir entries) → Fs.readdir (Some (JStr path)) w = (Ret entries, w).
Proof. intros H. unfold Fs.readdir. by rewrite H. Qed.

(** C5.  When the source directory exists, [detectEntryPoints] returns
    the plain filter of its entries and leaves the world as it is: a name
    is returned exactly when it is the name of a regular file, ends in
    [.ts], [.tsx], [.js] or [.jsx] and contains neither [".test."] nor
    [".spec."].  The test for an index file changes nothing. *)
Theorem detectEntryPoints_is_plain_filter (srcDir : string) (entries : list Dirent)
    (w : World) :
  fs w !! srcDir = Some (Dir entries) →
  detectEntryPoints (JStr srcDir) w = (Ret (plainFilter entries), w)
  ∧ ∀ file, file ∈ plainFilter entries
            ↔ (∃ dirent, dirent ∈ entries ∧ isFile dirent = true ∧ name dirent = file)
              ∧ (endsWith file ".ts" = true ∨ endsWith file ".tsx" = true
                 ∨ endsWith file ".js" = true ∨ endsWith file ".jsx" = true)
              ∧ includes file ".test." = false
              ∧ includes file ".spec." = false.
Proof.
  intros Hdir. split.
  - unfold detectEntryPoints.
    rewrite (run_bind _ _ _ _ _ (fileExists_present _ _ _ Hdir)). cbn [negb].
    rewrite (run_bind _ _ _ _ _ (readdir_dir _ _ _ Hdir)).
    assert (Hfilter :
      filter (λ file, isEntryPoint file = true)
        (map name (filter (λ dirent, isFile dirent = true) entries))
      = plainFilter entries).
    { unfold plainFilter. apply list_filter_iff. intros file.
      by rewrite isEntryPoint_eligible. }
    rewrite Hfilter. by destruct (Js.truthy _).
  - intros file. unfold plainFilter.
    rewrite list_elem_of_filter, list_elem_of_fmap.
    setoid_rewrite list_elem_of_filter.
    unfold eligible, extensionWhitelist. cbn [existsb].
    rewrite !andb_true_iff, !orb_true_iff, !negb_true_iff. split.
    + intros (((Hext & Htest) & Hspec) & dirent & -> & Hfile & Hin).
      split; [by exists dirent |]. split; [| done].
      destruct Hext as [? | [? | [? | [? | ?]]]]; auto. done.
    + intros ((dirent & Hin & Hfile & <-) & Hext & Htest & Hspec).
      split; [| by exists dirent]. split; [split |]; [| done | done].
      destruct Hext as [? | [? | [? | ?]]]; auto.
Qed.

Lemma detectEntryPoints_is_plain_filter_witness :
  fs exampleProject !! "src" = Some (Dir exampleSources)
  ∧ detectEntryPoints (JStr "src") exampleProject
    = (Ret ["index.ts"; "utils.tsx"; "cli.jsx"], exampleProject).
Proof.
  split; [reflexivity |].
  apply (proj1 (detectEntryPoints_is_plain_filter "src" exampleSources exampleProject
                  eq_refl)).
Defined.

(** ** The source directory *)

(** C6, as stated, fails twice.  An empty [--src-dir] value is present
    and yet the [rootDir] of the configuration is returned; and a regular
    file named [src] is returned although [lib] is the first existing
    directory. *)
Lemma detectSourceDir_counterexample :
  detectSourceDir (JObj {["compilerOptions" := JObj {["rootDir" := JStr "lib"]}]})
    (Some "") exampleProject
  = (Ret (JStr "lib"), exampleProject)
  ∧ detectSourceDir JNull None
      {| fs := {["src" := File None; "lib" := Dir []]}; events := [] |}
    = (Ret (JStr "src"),
       {| fs := {["src" := File None; "lib" := Dir []]}; events := [] |}).
Proof. split; by vm_compute. Qed.

Lemma detectSourceDir_probe (w : World) :
  (src ← fileExists (Some (JStr "src"));
   if src : bool then ret (JStr "src") else
   lib ← fileExists (Some (JStr "lib"));
   if lib : bool then ret (JStr "lib") else
   bin ← fileExists (Some (JStr "bin"));
   if bin : bool then ret (JStr "bin") else
   ret (JStr "src")) w
  = (Ret (JStr (probe (fs w))), w).
Proof.
  unfold probe.
  rewrite (run_bind _ _ _ _ _ (fileExists_path _ _)).
  destruct (bool_decide (is_Some (fs w !! "src"))); [done |].
  rewrite (run_bind _ _ _ _ _ (fileExists_path _ _)).
  destruct (bool_decide (is_Some (fs w !! "lib"))); [done |].
  rewrite (run_bind _ _ _ _ _ (fileExists_path _ _)).
  by destruct (bool_decide (is_Some (fs w !! "bin"))).
Qed.

(** C6, amended.  [detectSourceDir] returns the [--src-dir] value when
    it is present and not empty; otherwise the [compilerOptions.rootDir]
    of the configuration when that is present and truthy; otherwise the
    first of [src], [lib], [bin] that exists, whether as a directory or
    as a file; otherwise [src].  A signal of higher priority wins
    whatever the signals below it are, and the world is left as it is. *)
Theorem detectSourceDir_precedence (tsconfig : json) (w : World) :
  (∀ dir, dir ≠ "" → detectSourceDir tsconfig (Some dir) w = (Ret (JStr dir), w))
  ∧ (∀ srcDirArg rootDir,
       srcDirArg = None ∨ srcDirArg = Some "" →
       Js.get (Js.get (Some tsconfig) "compilerOptions") "rootDir" = Some rootDir →
       Js.truthy (Some rootDir) = true →
       detectSourceDir tsconfig srcDirArg w = (Ret rootDir, w))
  ∧ (∀ srcDirArg,
       srcDirArg = None ∨ srcDirArg = Some "" →
       Js.truthy (Js.get (Js.get (Some tsconfig) "compilerOptions") "rootDir") = false →
       detectSourceDir tsconfig srcDirArg w = (Ret (JStr (probe (fs w))), w)).
Proof.
  split; [| split].
  - intros dir Hdir. unfold detectSourceDir, whenTruthy. cbn [Js.ofArg fmap option_fmap option_map Js.truthy].
    by destruct (String.eqb_spec dir "").
  - intros srcDirArg rootDir Harg Hroot Htruthy. unfold detectSourceDir.
    assert (Hskip : ∀ A (yes : json → M A) no,
              whenTruthy (Js.ofArg srcDirArg) yes no = no)
      by (by destruct Harg as [-> | ->]).
    rewrite Hskip. unfold whenTruthy. by rewrite Hroot, Htruthy.
  - intros srcDirArg Harg Hroot. unfold detectSourceDir.
    assert (Hskip : ∀ A (yes : json → M A) no,
              whenTruthy (Js.ofArg srcDirArg) yes no = no)
      by (by destruct Harg as [-> | ->]).
    rewrite Hskip. unfold whenTruthy at 1.
    destruct (Js.get _ "rootDir") as [rootDir|]; [rewrite Hroot |];
      apply detectSourceDir_probe.
Qed.

Lemma detectSourceDir_precedence_witness :
  ("lib" ≠ ""
   ∧ detectSourceDir exampleConfig (Some "lib") exampleProject
     = (Ret (JStr "lib"), exampleProject))
  ∧ (Js.get (Js.get (Some exampleConfig) "compilerOptions") "rootDir" = Some (JStr "source")
     ∧ Js.truthy (Some (JStr "source")) = true
     ∧ detectSourceDir exampleConfig None exampleProject
       = (Ret (JStr "source"), exampleProject))
  ∧ (Js.truthy (Js.get (Js.get (Some JNull) "compilerOptions") "rootDir") = false
     ∧ detectSourceDir JNull (Some "") exampleProject
       = (Ret (JStr "src"), exampleProject)).
Proof.
  split; [| split].
  - split; [discriminate |].
    apply (proj1 (detectSourceDir_precedence exampleConfig exampleProject)). discriminate.
  - split; [reflexivity |]. split; [reflexivity |].
    apply (proj1 (proj2 (detectSourceDir_precedence exampleConfig exampleProject)));
      [by left | reflexivity | reflexivity].
  - split; [reflexivity |].
    apply (proj2 (proj2 (detectSourceDir_precedence JNull exampleProject)));
      [by right | reflexivity].
Defined.

(** ** The two compiler configurations *)

Section Configurations.

Variable convert : json → option json.

Lemma fileExists_reads (v : value) (w : World) :
  ∃ found, ∀ w', fs w' = fs w → fileExists v w' = (Ret found, w').
Proof.
  destruct v as [[| | | path | |]|];
    try (exists false; intros w' _; by apply fileExists_not_a_path).
  exists (bool_decide (is_Some (fs w !! path))). intros w' <-. apply fileExists_path.
Qed.

Lemma listSourceFiles_reads (srcDir : json) (w : World) :
  ∃ r, ∀ w', fs w' = fs w → listSourceFiles srcDir w' = (r, w').
Proof.
  unfold listSourceFiles.
  destruct (fileExists_reads (Some srcDir) w) as [[|] Hfound].
  - destruct srcDir as [| | | path | |];
      try (exists (Throw (TypeError "ERR_INVALID_ARG_TYPE")); intros w' Hw;
           by rewrite (run_bind _ _ _ _ _ (Hfound w' Hw))).
    destruct (fs w !! path) as [[entries | text]|] eqn:Hnode.
    + eexists. intros w' Hw. rewrite (run_bind _ _ _ _ _ (Hfound w' Hw)).
      rewrite <- Hw in Hnode. by rewrite (run_bind _ _ _ _ _ (readdir_dir _ _ _ Hnode)).
    + eexists. intros w' Hw. rewrite (run_bind _ _ _ _ _ (Hfound w' Hw)).
      apply run_bind_throw. unfold Fs.readdir. by rewrite Hw, Hnode.
    + eexists. intros w' Hw. rewrite (run_bind _ _ _ _ _ (Hfound w' Hw)).
      apply run_bind_throw. unfold Fs.readdir. by rewrite Hw, Hnode.
  - exists (Ret []). intros w' Hw. by rewrite (run_bind _ _ _ _ _ (Hfound w' Hw)).
Qed.

Lemma convertTSConfig_returns (tsconfig : json) :
  ∃ baseConfig warnings, ∀ w,
    convertTSConfig convert tsconfig w
    = (Ret baseConfig, {| fs := fs w; events := events w ++ warnings |}).
Proof.
  unfold convertTSConfig. destruct (Js.truthy (Some tsconfig)).
  - destruct (convert tsconfig) as [converted|].
    + exists converted, []. intros [files evs]. by rewrite app_nil_r.
    + by eexists (JObj ∅), [_].
  - exists (JObj ∅), []. intros [files evs]. by rewrite app_nil_r.
Qed.

Lemma assembleConfig_module tsconfig moduleType files baseConfig jsc :
  assembleConfig tsconfig moduleType files baseConfig jsc !! "module"
  = Some (JObj {["type" := JStr (moduleTypeName moduleType)]}).
Proof.
  unfold assembleConfig.
  destruct (Js.get (Some tsconfig) "exclude") as [exclude|];
    [destruct (Js.truthy (Some exclude)) |]; by simplify_map_eq.
Qed.

Lemma assembleConfig_other tsconfig files baseConfig jsc (k : string) :
  k ≠ "module" →
  assembleConfig tsconfig commonjs files baseConfig jsc !! k
  = assembleConfig tsconfig es6 files baseConfig jsc !! k.
Proof.
  intros Hk. unfold assembleConfig.
  destruct (Js.get (Some tsconfig) "exclude") as [exclude|];
    [destruct (Js.truthy (Some exclude)) |].
  - destruct (decide (k = "exclude")) as [-> | ?]; [by rewrite !lookup_insert_eq |].
    rewrite !(lookup_insert_ne _ "exclude") by done.
    destruct (decide (k = "sourceMaps")) as [-> | ?]; [by rewrite !lookup_insert_eq |].
    rewrite !(lookup_insert_ne _ "sourceMaps") by done.
    by rewrite !(lookup_insert_ne _ "module").
  - destruct (decide (k = "sourceMaps")) as [-> | ?]; [by rewrite !lookup_insert_eq |].
    rewrite !(lookup_insert_ne _ "sourceMaps") by done.
    by rewrite !(lookup_insert_ne _ "module").
  - destruct (decide (k = "sourceMaps")) as [-> | ?]; [by rewrite !lookup_insert_eq |].
    rewrite !(lookup_insert_ne _ "sourceMaps") by done.
    by rewrite !(lookup_insert_ne _ "module").
Qed.

(** What a call of [createSWCConfig] does, for both module types at
    once: it reads the file system only, and its outcome is the same
    throw for both or a configuration assembled from the same parts. *)
Lemma createSWCConfig_reads (tsconfig srcDir : json) (w : World) :
  ∃ warnings,
    (∃ e, ∀ moduleType w', fs w' = fs w →
       ∃ shown, createSWCConfig convert tsconfig moduleType srcDir w'
                = (Throw e, {| fs := fs w'; events := events w' ++ shown |}))
    ∨ (∃ files baseConfig jsc, ∀ moduleType w', fs w' = fs w →
         createSWCConfig convert tsconfig moduleType srcDir w'
         = (Ret (JObj (assembleConfig tsconfig moduleType files baseConfig jsc)),
            {| fs := fs w'; events := events w' ++ warnings |})).
Proof.
  destruct (listSourceFiles_reads srcDir w) as [r Hfiles].
  destruct (convertTSConfig_returns tsconfig) as (baseConfig & warnings & Hbase).
  exists warnings. unfold createSWCConfig.
  destruct r as [files | e | s].
  - destruct baseConfig eqn:Hkind;
      try (right; eexists files, _, _; intros moduleType w' Hw;
           rewrite (run_bind _ _ _ _ _ (Hfiles w' Hw));
           by rewrite (run_bind _ _ _ _ _ (Hbase w'))).
    left. eexists. intros moduleType w' Hw. exists warnings.
    rewrite (run_bind _ _ _ _ _ (Hfiles w' Hw)).
    by rewrite (run_bind _ _ _ _ _ (Hbase w')).
  - left. exists e. intros moduleType w' Hw. exists [].
    rewrite (run_bind_throw _ _ _ _ _ (Hfiles w' Hw)).
    destruct w'. by rewrite app_nil_r.
  - exfalso. specialize (Hfiles w eq_refl). unfold listSourceFiles in Hfiles.
    destruct (fileExists_reads (Some srcDir) w) as [found Hfound].
    rewrite (run_bind _ _ _ _ _ (Hfound w eq_refl)) in Hfiles.
    destruct found; [| done].
    unfold mbind, M_bind, bind, Fs.readdir in Hfiles.
    destruct srcDir; try done. by destruct (fs w !! s0) as [[]|].
Qed.

(** C4.  When [main] calls [createSWCConfig] for ["commonjs"] and then,
    in the world that call leaves, for ["es6"], the second call returns
    whenever the first does, both results are objects whose [module] is
    [{ type: "commonjs" }] and [{ type: "es6" }], and every other field
    is the same in both. *)
Theorem configs_differ_in_module_type_only (tsconfig srcDir cjsConfig : json)
    (w w1 : World) :
  createSWCConfig convert tsconfig commonjs srcDir w = (Ret cjsConfig, w1) →
  ∃ cjs esm w2,
    createSWCConfig convert tsconfig es6 srcDir w1 = (Ret (JObj esm), w2)
    ∧ cjsConfig = JObj cjs
    ∧ cjs !! "module" = Some (JObj {["type" := JStr "commonjs"]})
    ∧ esm !! "module" = Some (JObj {["type" := JStr "es6"]})
    ∧ ∀ k, k ≠ "module" → cjs !! k = esm !! k.
Proof.
  intros Hcjs.
  destruct (createSWCConfig_reads tsconfig srcDir w)
    as [warnings [[e Hthrow] | (files & baseConfig & jsc & Hret)]].
  - destruct (Hthrow commonjs w eq_refl) as [shown Hshown]. congruence.
  - rewrite (Hret commonjs w eq_refl) in Hcjs. injection Hcjs as <- <-.
    eexists _, _, _. split; [by apply Hret |]. split; [done |].
    split; [apply assembleConfig_module |]. split; [apply assembleConfig_module |].
    intros k Hk. by apply assembleConfig_other.
Qed.

End Configurations.

Lemma configs_differ_in_module_type_only_witness :
  createSWCConfig exampleConvert exampleConfig commonjs (JStr "src") exampleProject
  = (Ret (JObj exampleCjsConfig), exampleProject)
  ∧ ∃ cjs esm w2,
      createSWCConfig exampleConvert exampleConfig es6 (JStr "src") exampleProject
      = (Ret (JObj esm), w2)
      ∧ JObj exampleCjsConfig = JObj cjs
      ∧ cjs !! "module" = Some (JObj {["type" := JStr "commonjs"]})
      ∧ esm !! "module" = Some (JObj {["type" := JStr "es6"]})
      ∧ ∀ k, k ≠ "module" → cjs !! k = esm !! k.
Proof.
  split; [by vm_compute |].
  apply (configs_differ_in_module_type_only exampleConvert exampleConfig (JStr "src")
           (JObj exampleCjsConfig) exampleProject exampleProject).
  by vm_compute.
Defined.

(** ** The compile path *)

Lemma parseFlags_returns (args : list string) (parsed result : CLIArgs.t) (w w' : World) :
  parseFlags args parsed w = (Ret result, w') → w' = w.
Proof.
  remember (length args) as n eqn:Hn. assert (Hlen : (length args ≤ n)%nat) by lia. clear Hn.
  revert args parsed Hlen. induction n as [|n IH]; intros [|arg rest] parsed Hlen;
    cbn [parseFlags]; try (by intros [= _ <-]); simpl in Hlen; [lia |].
  repeat match goal with
         | |- context [if ?b then _ else _] => destruct b
         end;
    try (apply IH; lia);
    try (destruct rest as [|v rest'];
         [by intros [= _ <-] | apply IH; simpl in Hlen; lia]).
  unfold mbind, M_bind, bind, consoleError, emit, processExit. by intros [=].
Qed.

Lemma parseFlags_never_throws (args : list string) (parsed : CLIArgs.t) (w w' : World)
    (e : error) :
  parseFlags args parsed w ≠ (Throw e, w').
Proof.
  remember (length args) as n eqn:Hn. assert (Hlen : (length args ≤ n)%nat) by lia. clear Hn.
  revert args parsed Hlen. induction n as [|n IH]; intros [|arg rest] parsed Hlen;
    cbn [parseFlags]; try done; simpl in Hlen; [lia |].
  repeat match goal with
         | |- context [if ?b then _ else _] => destruct b
         end;
    try (apply IH; lia);
    try (destruct rest as [|v rest']; [done | apply IH; simpl in Hlen; lia]).
  unfold mbind, M_bind, bind, consoleError, emit, processExit. done.
Qed.

Lemma parseArgs_returns (argv : list string) (args : CLIArgs.t) (w w' : World) :
  parseArgs argv w = (Ret args, w') → w' = w.
Proof.
  unfold parseArgs. destruct (drop 2 argv) as [|subcommand more].
  - apply parseFlags_returns.
  - destruct (_ && _); apply parseFlags_returns.
Qed.

Lemma readTSConfig_keeps_files (tsconfig : json) (w w' : World) :
  readTSConfig w = (Ret tsconfig, w') → fs w' = fs w.
Proof.
  unfold readTSConfig. rewrite (run_bind _ _ _ _ _ (fileExists_path _ _)).
  destruct (bool_decide _); cbn [negb]; [| by intros [= _ <-]].
  unfold tryCatch, mbind, M_bind, bind, Fs.readFile, JSON_parse, consoleWarn, emit, ret, throw.
  destruct (fs w !! tsconfigPath) as [[entries | [j|]]|]; by intros [= _ <-].
Qed.

Lemma detectSourceDir_returns (tsconfig : json) (srcDirArg : option string) (w : World) :
  ∃ srcDir, detectSourceDir tsconfig srcDirArg w = (Ret srcDir, w).
Proof.
  unfold detectSourceDir, whenTruthy.
  destruct (Js.ofArg srcDirArg) as [dir|]; [destruct (Js.truthy (Some dir)); [by eexists |] |];
    (destruct (Js.get _ "rootDir") as [rootDir|];
     [destruct (Js.truthy (Some rootDir)); [by eexists |] |]);
    eexists; apply detectSourceDir_probe.
Qed.

Lemma detectEntryPoints_missing (srcDir : json) (w : World) :
  ¬ exists_in (fs w) srcDir →
  detectEntryPoints srcDir w = (Throw (missingSourceDir srcDir), w).
Proof.
  intros Hmissing. unfold detectEntryPoints.
  assert (Hfound : fileExists (Some srcDir) w = (Ret false, w)).
  { destruct srcDir as [| | | path | |]; try (by apply fileExists_not_a_path).
    apply fileExists_absent. destruct (fs w !! path) eqn:Hnode; [| done].
    destruct Hmissing. exists path. by rewrite Hnode. }
  by rewrite (run_bind _ _ _ _ _ Hfound).
Qed.

Lemma detectEntryPoints_file (path : string) (text : option json) (w : World) :
  fs w !! path = Some (File text) →
  detectEntryPoints (JStr path) w = (Throw (SystemError "ENOTDIR" path), w).
Proof.
  intros Hfile. unfold detectEntryPoints.
  rewrite (run_bind _ _ _ _ _ (fileExists_present _ _ _ Hfile)). cbn [negb].
  apply run_bind_throw. unfold Fs.readdir. by rewrite Hfile.
Qed.

(** C7, as stated, fails: where the source path names a regular file no
    source directory exists, and yet [detectEntryPoints] does not throw
    the "does not exist" error: [fs.access] accepts the file, and
    [readdir] throws [ENOTDIR].  [detectSourceDir] itself leads there,
    since its probe accepts a regular file named [src]. *)
Lemma source_is_a_file_counterexample :
  (∀ entries, fs exampleSourceFile !! "src" ≠ Some (Dir entries))
  ∧ detectSourceDir JNull None exampleSourceFile = (Ret (JStr "src"), exampleSourceFile)
  ∧ detectEntryPoints (JStr "src") exampleSourceFile
    = (Throw (SystemError "ENOTDIR" "src"), exampleSourceFile)
  ∧ SystemError "ENOTDIR" "src" ≠ missingSourceDir (JStr "src").
Proof.
  split; [intros entries; by vm_compute |].
  split; [by vm_compute |]. split; [by vm_compute | discriminate].
Qed.

Section CompilePath.

Variable convert : json → option json.
Variable childProcess : string → FileSystem → bool * FileSystem.
Variable packageInstall : string → bool → FileSystem → option error * FileSystem.
Variable resolvesTypescript : FileSystem → bool.
Variable tempDir : string.
Variable showHelp : Command → M unit.
Variable showVersion : M unit.
Variable createProject : option string → M unit.

Local Abbreviation cmplr :=
  (run convert childProcess packageInstall resolvesTypescript tempDir
     showHelp showVersion createProject).
Local Abbreviation steps :=
  (compileSteps convert childProcess packageInstall resolvesTypescript tempDir).

(** C7, amended.  When no directory is at the source path,
    [detectEntryPoints] throws and returns no list: the error "Source
    directory '...' does not exist" when the path names nothing, and the
    [ENOTDIR] error of [readdir] when it names a regular file.  In a
    compile run the error reaches the handler of the entry point, which
    prints it as an error and ends the process with status 1.  The run
    has started no child process and has written no file. *)
Theorem source_directory_absent_aborts (argv : list string) (args : CLIArgs.t)
    (tsconfig srcDir : json) (w w1 w2 : World) :
  parseArgs argv w = (Ret args, w1) →
  CLIArgs.help args = false →
  CLIArgs.version args = false →
  CLIArgs.command args = compile →
  readTSConfig w1 = (Ret tsconfig, w2) →
  detectSourceDir tsconfig (CLIArgs.srcDir args) w2 = (Ret srcDir, w2) →
  (∀ path entries, srcDir = JStr path → fs w2 !! path ≠ Some (Dir entries)) →
  ∃ e,
    detectEntryPoints srcDir w2 = (Throw e, w2)
    ∧ (¬ exists_in (fs w2) srcDir → e = missingSourceDir srcDir)
    ∧ (∀ path text, srcDir = JStr path → fs w2 !! path = Some (File text) →
         e = SystemError "ENOTDIR" path)
    ∧ cmplr argv w
      = (Exit 1, {| fs := fs w;
                    events := events w2 ++ [ConsoleError "Unexpected error:" (Some e)] |})
    ∧ ∀ command, Exec command ∈ events w2 → Exec command ∈ events w.
Proof.
  intros Hargs Hhelp Hversion Hcommand Hconfig Hdir Hnone.
  assert (Hthrow : ∃ e,
    detectEntryPoints srcDir w2 = (Throw e, w2)
    ∧ (¬ exists_in (fs w2) srcDir → e = missingSourceDir srcDir)
    ∧ (∀ path text, srcDir = JStr path → fs w2 !! path = Some (File text) →
         e = SystemError "ENOTDIR" path)).
  { assert (Hcases : (∃ path text, srcDir = JStr path ∧ fs w2 !! path = Some (File text))
                     ∨ ¬ exists_in (fs w2) srcDir).
    { destruct srcDir as [| | | path | |]; try (right; by intros (path & ? & ?)).
      destruct (fs w2 !! path) as [[entries | text] |] eqn:Hnode.
      - by destruct (Hnone path entries).
      - left. by exists path, text.
      - right. intros (path' & [= <-] & Hsome). rewrite Hnode in Hsome. by destruct Hsome. }
    destruct Hcases as [(path & text & -> & Hfile) | Hmissing].
    - exists (SystemError "ENOTDIR" path).
      split; [by eapply detectEntryPoints_file |]. split.
      + intros Hmissing. destruct Hmissing. exists path. by rewrite Hfile.
      + by intros path' text' [= <-] _.
    - exists (missingSourceDir srcDir).
      split; [by apply detectEntryPoints_missing |]. split; [done |].
      intros path text -> Hfile. destruct Hmissing. exists path. by rewrite Hfile. }
  destruct Hthrow as (e & Hthrow & Hnothing & Hfile).
  exists e. split; [done |]. split; [done |]. split; [done |].
  pose proof (parseArgs_returns _ _ _ _ Hargs) as ->.
  pose proof (readTSConfig_keeps_files _ _ _ Hconfig) as Hfiles.
  split.
  - unfold run, tryCatch, main.
    rewrite (run_bind _ _ _ _ _ Hargs), Hhelp, Hversion, Hcommand.
    rewrite (run_bind _ _ _ _ _ Hconfig), (run_bind _ _ _ _ _ Hdir).
    rewrite (run_bind_throw _ _ _ _ _ Hthrow).
    unfold mbind, M_bind, bind, consoleError, emit, processExit. cbn [fs events].
    by rewrite Hfiles.
  - intros command. revert Hconfig. unfold readTSConfig.
    rewrite (run_bind _ _ _ _ _ (fileExists_path _ _)).
    destruct (bool_decide _); cbn [negb]; [| by intros [= _ <-]].
    unfold tryCatch, mbind, M_bind, bind, Fs.readFile, JSON_parse, consoleWarn, emit,
      ret, throw.
    destruct (fs w !! tsconfigPath) as [[entries | [j|]]|]; intros [= _ <-]; try done;
      cbn [events]; rewrite elem_of_app, list_elem_of_singleton;
      by intros [? | ?].
Qed.

(** C10.  With no entry point and a manifest on disk,
    [updatePackageJsonExports] throws when it parses the name of the
    main entry, which is [undefined], and leaves the world as it is.  In
    a compile run that reaches the update, the handler of [main] prints
    the error and ends the process with status 1; the file system at
    the end is the one the update was called in, so [package.json] is
    as the compile steps left it. *)
Theorem no_entry_point_fails_before_writing (argv : list string) (args : CLIArgs.t)
    (tsconfig srcDir : json) (manifest : gmap string json) (w w1 w2 w3 w4 : World) :
  parseArgs argv w = (Ret args, w1) →
  CLIArgs.help args = false →
  CLIArgs.version args = false →
  CLIArgs.command args = compile →
  CLIArgs.dryRun args = false →
  readTSConfig w1 = (Ret tsconfig, w2) →
  detectSourceDir tsconfig (CLIArgs.srcDir args) w2 = (Ret srcDir, w2) →
  detectEntryPoints srcDir w2 = (Ret [], w3) →
  steps args tsconfig srcDir w3 = (Ret tt, w4) →
  fs w4 !! packageJsonPath = Some (File (Some (JObj manifest))) →
  updatePackageJsonExports [] (CLIArgs.outDir args) (CLIArgs.noTypes args) w4
  = (Throw (TypeError "ERR_INVALID_ARG_TYPE"), w4)
  ∧ cmplr argv w
    = (Exit 1, {| fs := fs w4;
                  events := events w4
                            ++ [ConsoleError "Compilation failed:"
                                  (Some (TypeError "ERR_INVALID_ARG_TYPE"))] |}).
Proof.
  intros Hargs Hhelp Hversion Hcommand Hdry Hconfig Hdir Hentries Hsteps Hfile.
  assert (Hupdate :
    updatePackageJsonExports [] (CLIArgs.outDir args) (CLIArgs.noTypes args) w4
    = (Throw (TypeError "ERR_INVALID_ARG_TYPE"), w4)).
  { by rewrite (updatePackageJsonExports_object _ _ _ _ _ Hfile). }
  split; [done |].
  unfold run, main.
  unfold tryCatch at 1.
  rewrite (run_bind _ _ _ _ _ Hargs), Hhelp, Hversion, Hcommand.
  rewrite (run_bind _ _ _ _ _ Hconfig), (run_bind _ _ _ _ _ Hdir).
  rewrite (run_bind _ _ _ _ _ Hentries), Hdry.
  unfold compileAndUpdate, tryFinally, tryCatch.
  rewrite (run_bind _ _ _ _ _ Hsteps).
  rewrite (run_bind_throw _ _ _ _ _ Hupdate).
  by unfold mbind, M_bind, bind, consoleError, emit, processExit.
Qed.

End CompilePath.

(** ** A run with tools that succeed *)

Lemma source_directory_absent_aborts_witness :
  parseArgs ["node"; "cmplr"; "--src-dir"; "missingdir"] exampleProject
  = (Ret exampleMissingArgs, exampleProject)
  ∧ CLIArgs.help exampleMissingArgs = false
  ∧ CLIArgs.version exampleMissingArgs = false
  ∧ CLIArgs.command exampleMissingArgs = compile
  ∧ readTSConfig exampleProject = (Ret JNull, exampleProject)
  ∧ detectSourceDir JNull (CLIArgs.srcDir exampleMissingArgs) exampleProject
    = (Ret (JStr "missingdir"), exampleProject)
  ∧ (∀ path entries, JStr "missingdir" = JStr path →
                     fs exampleProject !! path ≠ Some (Dir entries))
  ∧ ∃ e,
      detectEntryPoints (JStr "missingdir") exampleProject = (Throw e, exampleProject)
      ∧ (¬ exists_in (fs exampleProject) (JStr "missingdir") →
         e = missingSourceDir (JStr "missingdir"))
      ∧ (∀ path text, JStr "missingdir" = JStr path →
                      fs exampleProject !! path = Some (File text) →
                      e = SystemError "ENOTDIR" path)
      ∧ exampleRun ["node"; "cmplr"; "--src-dir"; "missingdir"] exampleProject
        = (Exit 1,
           {| fs := fs exampleProject;
              events := events exampleProject
                        ++ [ConsoleError "Unexpected error:" (Some e)] |})
      ∧ ∀ command, Exec command ∈ events exampleProject →
                   Exec command ∈ events exampleProject.
Proof.
  assert (Hnone : ∀ path entries, JStr "missingdir" = JStr path →
                                  fs exampleProject !! path ≠ Some (Dir entries)).
  { intros path entries [= <-]. by vm_compute. }
  repeat (split; [(by vm_compute) || exact Hnone |]).
  apply (source_directory_absent_aborts exampleConvert (λ _ files, (true, files))
           (λ _ _ files, (None, files)) (λ _, true) exampleTempDir (λ _, ret tt) (ret tt)
           (λ _, ret tt)
           ["node"; "cmplr"; "--src-dir"; "missingdir"] exampleMissingArgs
           JNull (JStr "missingdir") exampleProject exampleProject exampleProject);
    (by vm_compute) || exact Hnone.
Defined.

Lemma no_entry_point_fails_before_writing_witness :
  parseArgs ["node"; "cmplr"] exampleEmptyProject = (Ret CLIArgs.defaults, exampleEmptyProject)
  ∧ CLIArgs.help CLIArgs.defaults = false
  ∧ CLIArgs.version CLIArgs.defaults = false
  ∧ CLIArgs.command CLIArgs.defaults = compile
  ∧ CLIArgs.dryRun CLIArgs.defaults = false
  ∧ readTSConfig exampleEmptyProject = (Ret JNull, exampleEmptyProject)
  ∧ detectSourceDir JNull (CLIArgs.srcDir CLIArgs.defaults) exampleEmptyProject
    = (Ret (JStr "src"), exampleEmptyProject)
  ∧ detectEntryPoints (JStr "src") exampleEmptyProject = (Ret [], exampleEmptyProject)
  ∧ exampleSteps CLIArgs.defaults JNull (JStr "src") exampleEmptyProject
    = (Ret tt, exampleCompiled)
  ∧ fs exampleCompiled !! packageJsonPath = Some (File (Some (JObj {["name" := JStr "pkg"]})))
  ∧ updatePackageJsonExports [] (CLIArgs.outDir CLIArgs.defaults)
      (CLIArgs.noTypes CLIArgs.defaults) exampleCompiled
    = (Throw (TypeError "ERR_INVALID_ARG_TYPE"), exampleCompiled)
  ∧ exampleRun ["node"; "cmplr"] exampleEmptyProject
    = (Exit 1,
       {| fs := fs exampleCompiled;
          events := events exampleCompiled
                    ++ [ConsoleError "Compilation failed:"
                          (Some (TypeError "ERR_INVALID_ARG_TYPE"))] |}).
Proof.
  repeat (split; [by vm_compute |]).
  apply (no_entry_point_fails_before_writing exampleConvert (λ _ files, (true, files))
           (λ _ _ files, (None, files)) (λ _, true) exampleTempDir (λ _, ret tt) (ret tt)
           (λ _, ret tt)
           ["node"; "cmplr"] CLIArgs.defaults JNull (JStr "src") {["name" := JStr "pkg"]}
           exampleEmptyProject exampleEmptyProject exampleEmptyProject exampleEmptyProject
           exampleCompiled);
    by vm_compute.
Defined.

(** ** A value-taking flag at the end of the arguments *)

Lemma parseArgs_never_throws (argv : list string) (w w' : World) (e : error) :
  parseArgs argv w ≠ (Throw e, w').
Proof.
  unfold parseArgs. destruct (drop 2 argv) as [|subcommand more].
  - apply parseFlags_never_throws.
  - destruct (_ && _); apply parseFlags_never_throws.
Qed.

(** C8 at [cmplr --out-dir].  [parseArgs] returns and, as it does for a
    last [--src-dir], stores [undefined]; for [--out-dir] that replaces
    the default ["dist"].  The run then compiles into [undefined/cjs] and
    [undefined/esm], and writes a manifest whose [main] is
    [./undefined/cjs/index.js] and whose [files] is [[null]]. *)
Theorem trailing_out_dir_is_undefined :
  (∀ w, parseArgs ["node"; "cmplr"; "--src-dir"] w
        = (Ret (CLIArgs.setSrcDir None CLIArgs.defaults), w))
  ∧ (∀ w, parseArgs ["node"; "cmplr"; "--out-dir"] w
          = (Ret (CLIArgs.setOutDir None CLIArgs.defaults), w))
  ∧ CLIArgs.outDir (CLIArgs.setOutDir None CLIArgs.defaults) ≠ Some "dist"
  ∧ ∃ final manifest',
      exampleRun ["node"; "cmplr"; "--out-dir"] exampleProject = (Ret tt, final)
      ∧ Exec ("npx swc src -d undefined/cjs --config-file " +:+ exampleTempDir
              +:+ "/cjs.swcrc --strip-leading-paths") ∈ events final
      ∧ Exec ("npx swc src -d undefined/esm --config-file " +:+ exampleTempDir
              +:+ "/esm.swcrc --strip-leading-paths") ∈ events final
      ∧ fs final !! packageJsonPath = Some (File (Some (JObj manifest')))
      ∧ manifest' !! "main" = Some (JStr "./undefined/cjs/index.js")
      ∧ manifest' !! "module" = Some (JStr "./undefined/esm/index.js")
      ∧ manifest' !! "files" = Some (JArr [JNull]).
Proof.
  split; [done |]. split; [done |]. split; [done |].
  eexists _, _. split; [by vm_compute |].
  split; [apply list_elem_of_In; vm_compute; repeat (first [by left | right]) |].
  split; [apply list_elem_of_In; vm_compute; repeat (first [by left | right]) |].
  split; [by vm_compute |]. by vm_compute.
Qed.

(** * Further properties *)

(** ** The argument parser *)

Lemma parseFlags_outcomes (args : list string) (parsed : CLIArgs.t) (w : World) :
  (∃ result, parseFlags args parsed w = (Ret result, w))
  ∨ (∃ arg, arg ∈ args ∧ startsWith arg "--" = true
            ∧ parseFlags args parsed w
              = (Exit 1, {| fs := fs w;
                            events := events w
                                      ++ [ConsoleError ("Unknown option: " +:+ arg) None] |})).
Proof.
  remember (length args) as n eqn:Hn. assert (Hlen : (length args ≤ n)%nat) by lia. clear Hn.
  revert args parsed Hlen. induction n as [|n IH]; intros [|arg rest] parsed Hlen;
    cbn [parseFlags]; try (left; by eexists); simpl in Hlen; [lia |].
  assert (Hrest : ∀ parsed',
    (∃ result, parseFlags rest parsed' w = (Ret result, w))
    ∨ (∃ arg', arg' ∈ arg :: rest ∧ startsWith arg' "--" = true
               ∧ parseFlags rest parsed' w
                 = (Exit 1, {| fs := fs w;
                               events := events w
                                         ++ [ConsoleError ("Unknown option: " +:+ arg') None] |}))).
  { intros parsed'. destruct (IH rest parsed') as [? | (arg' & ? & ? & ?)]; [lia | by left |].
    right. exists arg'. split; [by apply elem_of_cons; right | done]. }
  assert (Hvalue : ∀ parsed' (k : string → CLIArgs.t → CLIArgs.t) parsed'',
    (∃ result, match rest with
               | v :: rest' => parseFlags rest' (k v parsed')
               | [] => ret parsed''
               end w = (Ret result, w))
    ∨ (∃ arg', arg' ∈ arg :: rest ∧ startsWith arg' "--" = true
               ∧ match rest with
                 | v :: rest' => parseFlags rest' (k v parsed')
                 | [] => ret parsed''
                 end w
                 = (Exit 1, {| fs := fs w;
                               events := events w
                                         ++ [ConsoleError ("Unknown option: " +:+ arg') None] |}))).
  { intros parsed' k parsed''. destruct rest as [|v rest']; [left; by eexists |].
    destruct (IH rest' (k v parsed')) as [? | (arg' & ? & ? & ?)];
      [simpl in Hlen; lia | by left |].
    right. exists arg'. split; [by do 2 (apply elem_of_cons; right) | done]. }
  repeat match goal with
         | |- context [if ?b then _ else _] => destruct b eqn:?
         end;
    try apply Hrest;
    try apply (Hvalue parsed (λ v, CLIArgs.setSrcDir (Some v)));
    try apply (Hvalue parsed (λ v, CLIArgs.setOutDir (Some v))).
  right. exists arg. split; [apply elem_of_cons; by left |]. split; [done |].
  by unfold mbind, M_bind, bind, consoleError, emit, processExit.
Qed.

(** X1.  [parseArgs] never throws.  Either it returns and leaves the
    world as it is, or it prints "Unknown option: <arg>" for an argument
    that starts with [--] and ends the process with status 1, having
    printed nothing else and touched no file. *)
Theorem parseArgs_outcomes (argv : list string) (w : World) :
  (∃ args, parseArgs argv w = (Ret args, w))
  ∨ (∃ arg, arg ∈ argv ∧ startsWith arg "--" = true
            ∧ parseArgs argv w
              = (Exit 1, {| fs := fs w;
                            events := events w
                                      ++ [ConsoleError ("Unknown option: " +:+ arg) None] |})).
Proof.
  assert (Hsub : ∀ k (args : list string) parsed,
    args = drop k argv →
    (∃ result, parseFlags args parsed w = (Ret result, w))
    ∨ (∃ arg, arg ∈ argv ∧ startsWith arg "--" = true
              ∧ parseFlags args parsed w
                = (Exit 1, {| fs := fs w;
                              events := events w
                                        ++ [ConsoleError ("Unknown option: " +:+ arg) None] |}))).
  { intros k args parsed ->.
    destruct (parseFlags_outcomes (drop k argv) parsed w) as [? | (arg & Hin & ? & ?)];
      [by left |].
    right. exists arg. split; [| done].
    apply list_elem_of_lookup in Hin as [i Hi]. rewrite lookup_drop in Hi.
    by eapply list_elem_of_lookup_2. }
  unfold parseArgs. destruct (drop 2 argv) as [|subcommand more] eqn:Hargs.
  - by apply (Hsub 2).
  - destruct (_ && _); [| by apply (Hsub 2)].
    destruct (Js.truthy _).
    + apply (Hsub 4). by rewrite <- Hargs, drop_drop.
    + apply (Hsub 3). by rewrite <- Hargs, drop_drop.
Qed.

Lemma parseFlags_keeps_command (args : list string) (parsed result : CLIArgs.t)
    (w w' : World) :
  parseFlags args parsed w = (Ret result, w') →
  CLIArgs.command result = CLIArgs.command parsed
  ∧ CLIArgs.projectName result = CLIArgs.projectName parsed.
Proof.
  remember (length args) as n eqn:Hn. assert (Hlen : (length args ≤ n)%nat) by lia. clear Hn.
  revert args parsed Hlen. induction n as [|n IH]; intros [|arg rest] parsed Hlen;
    cbn [parseFlags]; try (by intros [= <- _]); simpl in Hlen; [lia |].
  repeat match goal with
         | |- context [if ?b then _ else _] => destruct b
         end;
    try (intros H; by apply IH in H; [| lia]);
    try (destruct rest as [|v rest'];
         [by intros [= <- _] | intros H; by apply IH in H; [| simpl in Hlen; lia]]).
  unfold mbind, M_bind, bind, consoleError, emit, processExit. by intros [=].
Qed.

(** X2.  The subcommand is read from the first argument only: what
    [parseArgs] returns has the command [create] exactly when the first
    argument is the text [create], and it has a project name exactly when
    the argument after that [create] does not start with a dash, which is
    then the name. *)
Theorem parseArgs_subcommand (argv : list string) (args : CLIArgs.t) (w w' : World) :
  parseArgs argv w = (Ret args, w') →
  (CLIArgs.command args = create ↔ argv !! 2%nat = Some "create")
  ∧ ∀ name, CLIArgs.projectName args = Some name
            ↔ argv !! 2%nat = Some "create" ∧ argv !! 3%nat = Some name
              ∧ startsWith name "-" = false.
Proof.
  unfold parseArgs.
  assert (H2 : argv !! 2%nat = head (drop 2 argv))
    by (by rewrite <- (Nat.add_0_r 2), <- lookup_drop, head_lookup).
  assert (H3 : argv !! 3%nat = drop 2 argv !! 1%nat) by (by rewrite lookup_drop).
  rewrite H2, H3. destruct (drop 2 argv) as [|subcommand more].
  - intros [Hc Hp]%parseFlags_keeps_command. rewrite Hc, Hp.
    simpl. split; [by split |]. intros name. split; [done | by intros [? _]].
  - cbn [head lookup list_lookup].
    destruct (String.eqb_spec subcommand "create") as [-> | Hne].
    + cbn [startsWith String.prefix negb andb].
      change (startsWith "create" "-") with false. cbn [negb andb].
      intros [Hc Hp]%parseFlags_keeps_command. rewrite Hc, Hp. split.
      { by destruct more as [|second rest]; [| destruct (negb _)]. }
      intros name. destruct more as [|second rest]; cbn [CLIArgs.setCommand CLIArgs.projectName];
        [by split; [| intros (_ & ? & _)] |].
      destruct (startsWith second "-") eqn:Hdash; cbn [negb].
      * split; [done |]. intros (_ & [= ->] & ?). congruence.
      * cbn [CLIArgs.setProjectName CLIArgs.projectName]. split.
        -- by intros [= ->].
        -- by intros (_ & [= ->] & _).
    + rewrite andb_false_r.
      intros [Hc Hp]%parseFlags_keeps_command. rewrite Hc, Hp.
      split; [split; [done | by intros [= ->]] |].
      intros name. split; [done | by intros ([= ->] & _)].
Qed.

Lemma parseArgs_subcommand_witness :
  parseArgs ["node"; "cmplr"; "create"; "my-project"; "--help"] exampleProject
  = (Ret (CLIArgs.setHelp true
            (CLIArgs.setProjectName (Some "my-project")
               (CLIArgs.setCommand create CLIArgs.defaults))), exampleProject)
  ∧ (create = create
     ↔ ["node"; "cmplr"; "create"; "my-project"; "--help"] !! 2%nat = Some "create")
  ∧ ∀ name, Some "my-project" = Some name
            ↔ ["node"; "cmplr"; "create"; "my-project"; "--help"] !! 2%nat = Some "create"
              ∧ ["node"; "cmplr"; "create"; "my-project"; "--help"] !! 3%nat = Some name
              ∧ startsWith name "-" = false.
Proof.
  split; [by vm_compute |].
  apply (parseArgs_subcommand ["node"; "cmplr"; "create"; "my-project"; "--help"]
           (CLIArgs.setHelp true
              (CLIArgs.setProjectName (Some "my-project")
                 (CLIArgs.setCommand create CLIArgs.defaults)))
           exampleProject exampleProject).
  by vm_compute.
Defined.

Lemma given_cons (flags : list string) (arg : string) (args : list string) :
  given flags (arg :: args) = existsb (String.eqb arg) flags || given flags args.
Proof. done. Qed.

Lemma parseFlags_switches (args : list string) (parsed : CLIArgs.t) (w : World) :
  Forall (λ arg, arg ∈ booleanFlags) args →
  parseFlags args parsed w = (Ret (switchedOn args parsed), w).
Proof.
  intros Hflags. revert parsed. induction Hflags as [|arg rest Harg _ IH]; intros parsed.
  - cbn [parseFlags]. unfold switchedOn, given. cbn [existsb].
    rewrite !orb_false_r. by destruct parsed.
  - unfold booleanFlags in Harg. rewrite !elem_of_cons in Harg.
    destruct Harg as [-> | [-> | [-> | [-> | [-> | [-> | [-> | Hnil]]]]]]];
      [.. | by apply elem_of_nil in Hnil];
      cbn [parseFlags String.eqb Ascii.eqb Bool.eqb orb andb]; rewrite IH;
      unfold switchedOn; rewrite !given_cons; destruct parsed;
      cbn [existsb String.eqb Ascii.eqb Bool.eqb orb andb
           CLIArgs.setDryRun CLIArgs.setHelp CLIArgs.setVersion CLIArgs.setNoTypes
           CLIArgs.setTypeCheck CLIArgs.command CLIArgs.dryRun CLIArgs.help CLIArgs.version
           CLIArgs.srcDir CLIArgs.outDir CLIArgs.noTypes CLIArgs.typeCheck
           CLIArgs.projectName];
      rewrite ?orb_true_r, ?orb_false_l; reflexivity.
Qed.

Lemma given_elem_of (flags args : list string) :
  given flags args = true ↔ ∃ arg, arg ∈ args ∧ arg ∈ flags.
Proof.
  unfold given. rewrite existsb_exists. split.
  - intros (arg & Hin%list_elem_of_In & (flag & Hflag%list_elem_of_In & ->%String.eqb_eq)%existsb_exists).
    by exists flag.
  - intros (arg & Hin & Hflag). exists arg. split; [by apply list_elem_of_In |].
    apply existsb_exists. exists arg. split; [by apply list_elem_of_In | apply String.eqb_refl].
Qed.

(** X3.  Flags without a value are a set: two argument lists that consist
    of such flags and hold the same ones, in any order and any number of
    times, are parsed to the same result, and parsing them prints nothing
    and always returns. *)
Theorem parseFlags_boolean_flags_are_a_set (args args' : list string)
    (parsed : CLIArgs.t) (w : World) :
  Forall (λ arg, arg ∈ booleanFlags) args →
  Forall (λ arg, arg ∈ booleanFlags) args' →
  (∀ arg, arg ∈ args ↔ arg ∈ args') →
  ∃ result, parseFlags args parsed w = (Ret result, w)
            ∧ parseFlags args' parsed w = (Ret result, w).
Proof.
  intros Hargs Hargs' Hsame. exists (switchedOn args parsed).
  split; [by apply parseFlags_switches |].
  rewrite (parseFlags_switches _ _ _ Hargs'). do 2 f_equal.
  assert (Hgiven : ∀ flags, given flags args' = given flags args).
  { intros flags. apply eq_true_iff_eq. rewrite !given_elem_of.
    split; intros (arg & ? & ?); exists arg; by rewrite ?Hsame in *. }
  unfold switchedOn. by rewrite !Hgiven.
Qed.

Lemma parseFlags_boolean_flags_are_a_set_witness :
  Forall (λ arg, arg ∈ booleanFlags) ["--dry-run"; "-h"; "--dry-run"]
  ∧ Forall (λ arg, arg ∈ booleanFlags) ["-h"; "--dry-run"]
  ∧ (∀ arg, arg ∈ ["--dry-run"; "-h"; "--dry-run"] ↔ arg ∈ ["-h"; "--dry-run"])
  ∧ ∃ result,
      parseFlags ["--dry-run"; "-h"; "--dry-run"] CLIArgs.defaults exampleProject
      = (Ret result, exampleProject)
      ∧ parseFlags ["-h"; "--dry-run"] CLIArgs.defaults exampleProject
        = (Ret result, exampleProject).
Proof.
  assert (H1 : Forall (λ arg, arg ∈ booleanFlags) ["--dry-run"; "-h"; "--dry-run"]).
  { repeat constructor; unfold booleanFlags; rewrite !elem_of_cons; tauto. }
  assert (H2 : Forall (λ arg, arg ∈ booleanFlags) ["-h"; "--dry-run"]).
  { repeat constructor; unfold booleanFlags; rewrite !elem_of_cons; tauto. }
  assert (H3 : ∀ arg, arg ∈ ["--dry-run"; "-h"; "--dry-run"] ↔ arg ∈ ["-h"; "--dry-run"]).
  { intros arg. rewrite !elem_of_cons. tauto. }
  split; [exact H1 |]. split; [exact H2 |]. split; [exact H3 |].
  exact (parseFlags_boolean_flags_are_a_set _ _ CLIArgs.defaults exampleProject H1 H2 H3).
Defined.

(** ** The configuration reader *)

(** X4.  [readTSConfig] always returns and writes no file.  Without a
    [tsconfig.json] it returns [null] and prints nothing; for a
    [tsconfig.json] that holds JSON it returns the value and prints
    nothing; for one that does not parse, or that is a directory, it
    returns [null] after one warning. *)
Theorem readTSConfig_never_fails (w : World) :
  readTSConfig w
  = match fs w !! tsconfigPath with
    | None => (Ret JNull, w)
    | Some (File (Some tsconfig)) => (Ret tsconfig, w)
    | Some _ =>
        (Ret JNull,
         {| fs := fs w;
            events := events w
                      ++ [ConsoleWarn "Warning: Could not parse tsconfig.json, using defaults"] |})
    end.
Proof.
  unfold readTSConfig. rewrite (run_bind _ _ _ _ _ (fileExists_path _ _)).
  unfold tryCatch, mbind, M_bind, bind, Fs.readFile, JSON_parse, consoleWarn, emit, ret, throw.
  destruct (fs w !! tsconfigPath) as [[entries | [tsconfig|]]|] eqn:Hnode;
    simpl; rewrite ?Hnode; by destruct w.
Qed.

(** ** The manifest updater, beyond the claims *)

(** X5.  Without a [package.json] the update is skipped: it returns,
    prints one warning and writes nothing. *)
Theorem update_skipped_without_manifest (entryPoints : list string)
    (outDir : option string) (noTypes : bool) (w : World) :
  fs w !! packageJsonPath = None →
  updatePackageJsonExports entryPoints outDir noTypes w
  = (Ret tt,
     {| fs := fs w;
        events := events w
                  ++ [ConsoleWarn "Warning: package.json not found, skipping exports update"] |}).
Proof.
  intros Habsent. unfold updatePackageJsonExports.
  by rewrite (run_bind _ _ _ _ _ (fileExists_absent _ _ Habsent)).
Qed.

Lemma update_skipped_without_manifest_witness :
  fs exampleNoManifest !! packageJsonPath = None
  ∧ updatePackageJsonExports ["index.ts"] (Some "dist") false exampleNoManifest
    = (Ret tt,
       {| fs := fs exampleNoManifest;
          events := events exampleNoManifest
                    ++ [ConsoleWarn
                          "Warning: package.json not found, skipping exports update"] |}).
Proof.
  split; [reflexivity |].
  apply (update_skipped_without_manifest ["index.ts"] (Some "dist") false exampleNoManifest).
  reflexivity.
Defined.

Lemma setProp_pure (o : json) (k : string) (v : json) (w : World) :
  (∃ o', setProp o k v w = (Ret o', w)) ∨ (∃ e, setProp o k v w = (Throw e, w)).
Proof. destruct o; (by left; eexists) || (by right; eexists). Qed.

Lemma setMainFields_pure outDir noTypes baseName (packageJson : json) (w : World) :
  (∃ o', setMainFields outDir noTypes baseName packageJson w = (Ret o', w))
  ∨ (∃ e, setMainFields outDir noTypes baseName packageJson w = (Throw e, w)).
Proof.
  unfold setMainFields.
  destruct packageJson; try (by right; eexists); destruct noTypes; by left; eexists.
Qed.

Lemma updateFiles_pure outDir (packageJson : json) (w : World) :
  (∃ o', updateFiles outDir packageJson w = (Ret o', w))
  ∨ (∃ e, updateFiles outDir packageJson w = (Throw e, w)).
Proof.
  unfold updateFiles. destruct (negb _); [apply setProp_pure |].
  destruct (Js.get _ _) as [[]|]; try (by left; eexists).
  destruct (negb _); [apply setProp_pure | by left; eexists].
Qed.

(** X6.  The update writes at most once, as its last step: when it
    throws, whatever the manifest holds, the world is as it was; when it
    returns, only [package.json] can differ; and it never ends the
    process. *)
Theorem update_writes_last (entryPoints : list string) (outDir : option string)
    (noTypes : bool) (w : World) :
  match updatePackageJsonExports entryPoints outDir noTypes w with
  | (Ret _, w') => ∀ path, path ≠ packageJsonPath → fs w' !! path = fs w !! path
  | (Throw _, w') => w' = w
  | (Exit _, _) => False
  end.
Proof.
  unfold updatePackageJsonExports. rewrite (run_bind _ _ _ _ _ (fileExists_path _ _)).
  destruct (bool_decide _); cbn [negb]; [| done].
  destruct (fs w !! packageJsonPath) as [[entries | text]|] eqn:Hnode;
    try (erewrite run_bind_throw; [done | unfold Fs.readFile; by rewrite Hnode]).
  rewrite (run_bind _ _ _ _ _ (readFile_file _ _ _ Hnode)).
  destruct text as [packageJson|]; [| by erewrite run_bind_throw].
  rewrite (run_bind _ _ w w packageJson) by done.
  assert (Hbranch : ∀ m : M json,
    ((∃ o', m w = (Ret o', w)) ∨ (∃ e, m w = (Throw e, w))) →
    match (m ≫= λ packageJson, packageJson ← updateFiles outDir packageJson;
                                Fs.writeFile packageJsonPath (JSON_stringify packageJson)) w with
    | (Ret _, w') => ∀ path, path ≠ packageJsonPath → fs w' !! path = fs w !! path
    | (Throw _, w') => w' = w
    | (Exit _, _) => False
    end).
  { intros m [[o' Hm] | [e Hm]]; [| by rewrite (run_bind_throw _ _ _ _ _ Hm)].
    rewrite (run_bind _ _ _ _ _ Hm).
    destruct (updateFiles_pure outDir o' w) as [[o'' Hfiles] | [e Hfiles]];
      [| by rewrite (run_bind_throw _ _ _ _ _ Hfiles)].
    rewrite (run_bind _ _ _ _ _ Hfiles), (writeFile_file _ _ _ _ Hnode). cbn [fs].
    intros path Hpath. by rewrite lookup_insert_ne. }
  apply Hbranch. destruct (_ && _).
  - destruct (head entryPoints) as [e|]; [| by right; eexists].
    rewrite (run_bind _ _ w w (Path.name e)) by done.
    destruct (setMainFields_pure outDir noTypes (Path.name e) packageJson w)
      as [[o' Hmain] | [err Hmain]].
    + rewrite (run_bind _ _ _ _ _ Hmain). apply setProp_pure.
    + right. exists err. by apply run_bind_throw.
  - destruct (setProp_pure packageJson "exports"
                (JObj (foldl (addExport outDir noTypes) ∅ entryPoints)) w)
      as [[o' Hexports] | [err Hexports]].
    + rewrite (run_bind _ _ _ _ _ Hexports).
      match goal with |- context [parseName ?entry] => destruct entry as [e|] end.
      * rewrite (run_bind _ _ w w (Path.name e)) by done. apply setMainFields_pure.
      * right. eexists. by apply run_bind_throw.
    + right. exists err. by apply run_bind_throw.
Qed.

Lemma filesField_files outDir (manifest : gmap string json) :
  filesField outDir manifest !! "files" = filesValue outDir (manifest !! "files").
Proof.
  unfold filesField, filesValue. destruct (negb _); [apply lookup_insert_eq |].
  destruct (manifest !! "files") as [[]|] eqn:Hfiles; try done.
  destruct (Js.includes _ _); [done | apply lookup_insert_eq].
Qed.

Lemma mainFields_types outDir baseName (manifest : gmap string json) :
  mainFields outDir false baseName manifest !! "types"
  = Some (JStr ("./" +:+ Js.template (Js.ofArg outDir) +:+ "/types/" +:+ baseName +:+ ".d.ts")).
Proof. unfold mainFields. apply lookup_insert_eq. Qed.

Lemma index_prefix_nonempty (e : string) : startsWith e "index." = true → e ≠ "".
Proof. by intros H ->. Qed.

Lemma mainEntry_primary (entryPoints : list string) :
  mainEntry entryPoints = primaryEntry entryPoints.
Proof.
  unfold mainEntry, primaryEntry.
  destruct (find _ entryPoints) as [e|] eqn:Hfind; [| done].
  apply find_some in Hfind as [_ Hindex].
  destruct (String.eqb_spec e ""); [by subst | done].
Qed.

Lemma singleIndex_primary (entryPoints : list string) :
  singleIndex entryPoints = true → head entryPoints = primaryEntry entryPoints.
Proof.
  unfold singleIndex, primaryEntry. destruct entryPoints as [|e [|e' rest]]; try done.
  cbn [length Nat.eqb head andb find]. by intros ->.
Qed.

(** The manifest written, field by field. *)
Lemma updatedManifest_fields entryPoints outDir noTypes (manifest manifest' : gmap string json) :
  updatedManifest entryPoints outDir noTypes manifest = Some manifest' →
  ∃ e, primaryEntry entryPoints = Some e
       ∧ ∀ k, manifest' !! k
              = updatedField entryPoints outDir noTypes (Path.name e) manifest k.
Proof.
  unfold updatedManifest, updatedField, exportsOf.
  destruct (singleIndex entryPoints) eqn:Hsingle.
  - rewrite (singleIndex_primary _ Hsingle).
    destruct (primaryEntry entryPoints) as [e|] eqn:Hprimary; [| done].
    cbn [fmap option_fmap option_map mbind option_bind]. intros [= <-].
    exists e. split; [done |]. intros k.
    destruct (String.eqb_spec k "files") as [-> | ?].
    { rewrite filesField_files, lookup_insert_ne by done. by rewrite mainFields_other. }
    rewrite filesField_other by done.
    destruct (String.eqb_spec k "exports") as [-> | ?]; [apply lookup_insert_eq |].
    rewrite lookup_insert_ne by done.
    destruct (String.eqb_spec k "main") as [-> | ?]; [apply mainFields_main |].
    destruct (String.eqb_spec k "module") as [-> | ?]; [apply mainFields_module |].
    destruct (String.eqb_spec k "types") as [-> | ?]; cbn [andb].
    + destruct noTypes; [apply mainFields_types_kept | apply mainFields_types].
    + by apply mainFields_other.
  - rewrite mainEntry_primary.
    destruct (primaryEntry entryPoints) as [e|]; [| done].
    cbn [fmap option_fmap option_map mbind option_bind]. intros [= <-].
    exists e. split; [done |]. intros k.
    destruct (String.eqb_spec k "files") as [-> | ?].
    { rewrite filesField_files, mainFields_other by done. by rewrite lookup_insert_ne. }
    rewrite filesField_other by done.
    destruct (String.eqb_spec k "exports") as [-> | ?].
    { rewrite mainFields_other by done. apply lookup_insert_eq. }
    destruct (String.eqb_spec k "main") as [-> | ?]; [apply mainFields_main |].
    destruct (String.eqb_spec k "module") as [-> | ?]; [apply mainFields_module |].
    destruct (String.eqb_spec k "types") as [-> | ?]; cbn [andb].
    + destruct noTypes; cbn [negb].
      * rewrite mainFields_types_kept. by rewrite lookup_insert_ne.
      * apply mainFields_types.
    + rewrite mainFields_other by done. by rewrite lookup_insert_ne.
Qed.

Lemma includes_app_element (elems : list json) (outDir : string) :
  Js.includes (elems ++ [Js.element (Some outDir)]) (Some outDir) = true.
Proof.
  unfold Js.includes, Js.element. rewrite existsb_app.
  cbn [existsb from_option]. by rewrite String.eqb_refl, orb_true_r.
Qed.

Lemma filesValue_idempotent (outDir : string) (files : value) :
  filesValue (Some outDir) (filesValue (Some outDir) files)
  = filesValue (Some outDir) files.
Proof.
  unfold filesValue at 2. destruct (negb (Js.truthy files)) eqn:Hfalsy.
  - unfold filesValue, Js.includes, Js.element.
    cbn [Js.truthy negb existsb from_option]. by rewrite Hfalsy, String.eqb_refl.
  - destruct files as [[| | | | elems |]|]; try done.
    destruct (Js.includes elems (Some outDir)) eqn:Hin; [done |].
    unfold filesValue. cbn [Js.truthy negb]. by rewrite includes_app_element, Hin.
Qed.

(** X7.  Building twice is building once: for an output directory that
    is a string, a second update with the same entry points and flags
    writes the manifest the first one wrote, so [files] does not grow and
    the world stays as the first update left it. *)
Theorem update_idempotent (entryPoints : list string) (outDir : string) (noTypes : bool)
    (manifest : gmap string json) (w : World) :
  entryPoints ≠ [] →
  fs w !! packageJsonPath = Some (File (Some (JObj manifest))) →
  ∃ w1,
    updatePackageJsonExports entryPoints (Some outDir) noTypes w = (Ret tt, w1)
    ∧ updatePackageJsonExports entryPoints (Some outDir) noTypes w1 = (Ret tt, w1).
Proof.
  intros Hne Hfile.
  rewrite (updatePackageJsonExports_object _ _ _ _ _ Hfile).
  destruct (updatedManifest_nonempty entryPoints (Some outDir) noTypes manifest Hne)
    as [manifest' Hfirst].
  rewrite Hfirst. eexists. split; [reflexivity |].
  assert (Hfile' : fs (writeManifest manifest' w) !! packageJsonPath
                   = Some (File (Some (JObj manifest')))) by apply lookup_insert_eq.
  rewrite (updatePackageJsonExports_object _ _ _ _ _ Hfile').
  destruct (updatedManifest_nonempty entryPoints (Some outDir) noTypes manifest' Hne)
    as [manifest'' Hsecond].
  rewrite Hsecond.
  destruct (updatedManifest_fields _ _ _ _ _ Hfirst) as (e & He & Hfields).
  destruct (updatedManifest_fields _ _ _ _ _ Hsecond) as (e' & He' & Hfields').
  assert (e' = e) as -> by congruence.
  assert (manifest'' = manifest') as ->.
  { apply map_eq. intros k. rewrite Hfields', Hfields. unfold updatedField.
    rewrite !Hfields. unfold updatedField at 1 2. cbn [String.eqb Ascii.eqb Bool.eqb].
    rewrite filesValue_idempotent.
    repeat match goal with |- context [if ?b then _ else _] => destruct b eqn:? end;
      try done. }
  unfold writeManifest. cbn [fs events]. by rewrite insert_insert_eq.
Qed.

(** X8.  With any number of entry points, [main], [module] and [types]
    are built from the base name of the first entry point that starts
    with ["index."], wherever it stands in the list, and from the first
    entry point when there is none. *)
Theorem top_level_fields_follow_primary_entry (entryPoints : list string)
    (outDir : option string) (noTypes : bool) (manifest : gmap string json)
    (w : World) (e : string) :
  fs w !! packageJsonPath = Some (File (Some (JObj manifest))) →
  primaryEntry entryPoints = Some e →
  let out := Js.template (Js.ofArg outDir) in
  ∃ manifest',
    updatePackageJsonExports entryPoints outDir noTypes w
    = (Ret tt, writeManifest manifest' w)
    ∧ manifest' !! "main" = Some (JStr ("./" +:+ out +:+ "/cjs/" +:+ Path.name e +:+ ".js"))
    ∧ manifest' !! "module" = Some (JStr ("./" +:+ out +:+ "/esm/" +:+ Path.name e +:+ ".js"))
    ∧ manifest' !! "types"
      = if noTypes then manifest !! "types"
        else Some (JStr ("./" +:+ out +:+ "/types/" +:+ Path.name e +:+ ".d.ts")).
Proof.
  intros Hfile Hprimary out.
  rewrite (updatePackageJsonExports_object _ _ _ _ _ Hfile).
  assert (Hne : entryPoints ≠ []) by (by intros ->).
  destruct (updatedManifest_nonempty entryPoints outDir noTypes manifest Hne)
    as [manifest' Hupdated].
  rewrite Hupdated. exists manifest'. split; [done |].
  destruct (updatedManifest_fields _ _ _ _ _ Hupdated) as (e' & He' & Hfields).
  assert (e' = e) as -> by congruence.
  rewrite !Hfields. unfold updatedField. cbn [String.eqb Ascii.eqb Bool.eqb andb].
  by destruct noTypes.
Qed.

Lemma detectEntryPoints_directory (path : string) (entries : list Dirent) (w : World) :
  fs w !! path = Some (Dir entries) →
  detectEntryPoints (JStr path) w = (Ret (plainFilter entries), w).
Proof.
  intros Hdir. unfold detectEntryPoints.
  rewrite (run_bind _ _ _ _ _ (fileExists_present _ _ _ Hdir)). cbn [negb].
  rewrite (run_bind _ _ _ _ _ (readdir_dir _ _ _ Hdir)).
  assert (Hfilter :
    filter (λ file, isEntryPoint file = true)
      (map name (filter (λ dirent, isFile dirent = true) entries))
    = plainFilter entries).
  { unfold plainFilter. apply list_filter_iff. intros file.
    by rewrite isEntryPoint_eligible. }
  rewrite Hfilter. by destruct (Js.truthy _).
Qed.

(** X9.  What [detectEntryPoints] can do: it returns the filtered names
    of a directory; it throws the "does not exist" error for a path that
    names nothing; for a path that names a regular file it throws the
    [ENOTDIR] error of [readdir] instead.  It never ends the process and
    never changes the world. *)
Theorem detectEntryPoints_outcomes (srcDir : json) (w : World) :
  match detectEntryPoints srcDir w with
  | (Ret files, w') =>
      w' = w ∧ ∃ path entries,
        srcDir = JStr path ∧ fs w !! path = Some (Dir entries)
        ∧ files = plainFilter entries
  | (Throw e, w') =>
      w' = w
      ∧ ((e = missingSourceDir srcDir ∧ ¬ exists_in (fs w) srcDir)
         ∨ ∃ path text, srcDir = JStr path ∧ fs w !! path = Some (File text)
                        ∧ e = SystemError "ENOTDIR" path)
  | (Exit _, _) => False
  end.
Proof.
  assert (Hcases : (∃ path n, srcDir = JStr path ∧ fs w !! path = Some n)
                   ∨ ¬ exists_in (fs w) srcDir).
  { destruct srcDir as [| | | path | |];
      try (right; by intros (path & ? & ?)).
    destruct (fs w !! path) as [n|] eqn:Hnode; [left; by exists path, n |].
    right. intros (path' & [= <-] & Hsome). rewrite Hnode in Hsome. by destruct Hsome. }
  destruct Hcases as [(path & n & -> & Hnode) | Hmissing].
  - destruct n as [entries | text].
    + rewrite (detectEntryPoints_directory _ _ _ Hnode). split; [done |].
      by exists path, entries.
    + unfold detectEntryPoints.
      rewrite (run_bind _ _ _ _ _ (fileExists_present _ _ _ Hnode)). cbn [negb].
      assert (Hread : Fs.readdir (Some (JStr path)) w = (Throw (SystemError "ENOTDIR" path), w)).
      { unfold Fs.readdir. by rewrite Hnode. }
      rewrite (run_bind_throw _ _ _ _ _ Hread). split; [done |]. right. by exists path, text.
  - rewrite (detectEntryPoints_missing srcDir w Hmissing). split; [done |]. by left.
Qed.

(** X10.  [detectSourceDir] never fails and never changes the world, and
    what it returns is never a falsy value: an empty [--src-dir] or
    [rootDir] is passed over, not returned. *)
Theorem detectSourceDir_returns_truthy (tsconfig : json) (srcDirArg : option string)
    (w : World) :
  ∃ srcDir,
    detectSourceDir tsconfig srcDirArg w = (Ret srcDir, w)
    ∧ Js.truthy (Some srcDir) = true.
Proof.
  unfold detectSourceDir, whenTruthy.
  destruct (Js.ofArg srcDirArg) as [flag|] eqn:Hflag.
  - destruct (Js.truthy (Some flag)) eqn:Htruthy; [by exists flag |].
    destruct (Js.get _ "rootDir") as [rootDir|].
    + destruct (Js.truthy (Some rootDir)) eqn:Hroot; [by exists rootDir |].
      rewrite detectSourceDir_probe. eexists. split; [done |].
      unfold probe. by repeat case_bool_decide.
    + rewrite detectSourceDir_probe. eexists. split; [done |].
      unfold probe. by repeat case_bool_decide.
  - destruct (Js.get _ "rootDir") as [rootDir|].
    + destruct (Js.truthy (Some rootDir)) eqn:Hroot; [by exists rootDir |].
      rewrite detectSourceDir_probe. eexists. split; [done |].
      unfold probe. by repeat case_bool_decide.
    + rewrite detectSourceDir_probe. eexists. split; [done |].
      unfold probe. by repeat case_bool_decide.
Qed.

(** ** Effects, compositionally *)

Section Steps.

Context (R : World → World → Prop).
Hypothesis R_refl : ∀ w, R w w.
Hypothesis R_trans : ∀ w1 w2 w3, R w1 w2 → R w2 w3 → R w1 w3.

Lemma relates_ret {A} (a : A) : relates R (ret a).
Proof. intros w. apply R_refl. Qed.

Lemma relates_mret {A} (a : A) : relates R (mret a : M A).
Proof. intros w. apply R_refl. Qed.

Lemma relates_throw {A} (e : error) : relates R (throw e : M A).
Proof. intros w. apply R_refl. Qed.

Lemma relates_processExit {A} (s : Z) : relates R (processExit s : M A).
Proof. intros w. apply R_refl. Qed.

Lemma relates_bind {A B} (m : M A) (k : A → M B) :
  relates R m → (∀ a, relates R (k a)) → relates R (m ≫= k).
Proof.
  intros Hm Hk w. specialize (Hm w). unfold mbind, M_bind, bind.
  destruct (m w) as [[a | e | s] w1]; cbn [snd] in *; [| done | done].
  eapply R_trans; [done | apply Hk].
Qed.

Lemma relates_tryCatch {A} (body : M A) (handler : error → M A) :
  relates R body → (∀ e, relates R (handler e)) → relates R (tryCatch body handler).
Proof.
  intros Hbody Hhandler w. specialize (Hbody w). unfold tryCatch.
  destruct (body w) as [[a | e | s] w1]; cbn [snd] in *; [done | | done].
  eapply R_trans; [done | apply Hhandler].
Qed.

Lemma relates_tryFinally {A} (body : M A) (final : M unit) :
  relates R body → relates R final → relates R (tryFinally body final).
Proof.
  intros Hbody Hfinal w. specialize (Hbody w). unfold tryFinally.
  destruct (body w) as [[a | e | s] w1]; cbn [snd] in *; [| | done].
  - eapply R_trans; [done |].
    apply (relates_bind final (λ _, ret a)); [done | intros; apply relates_ret].
  - eapply R_trans; [done |].
    apply (relates_bind final (λ _, throw e)); [done | intros; apply relates_throw].
Qed.

Lemma relates_if {A} (b : bool) (m1 m2 : M A) :
  relates R m1 → relates R m2 → relates R (if b then m1 else m2).
Proof. by destruct b. Qed.

Lemma relates_access (p : value) : relates R (Fs.access p).
Proof.
  intros w. unfold Fs.access. destruct p as [[]|]; try apply R_refl.
  destruct (fs w !! _); apply R_refl.
Qed.

Lemma relates_fileExists (p : value) : relates R (fileExists p).
Proof.
  apply relates_tryCatch; [| intros; apply relates_ret].
  apply relates_bind; [apply relates_access | intros; apply relates_ret].
Qed.

Lemma relates_readdir (p : value) : relates R (Fs.readdir p).
Proof.
  intros w. unfold Fs.readdir. destruct p as [[]|]; try apply R_refl.
  destruct (fs w !! _) as [[]|]; apply R_refl.
Qed.

Lemma relates_readFile (path : string) : relates R (Fs.readFile path).
Proof. intros w. unfold Fs.readFile. destruct (fs w !! _) as [[]|]; apply R_refl. Qed.

Lemma relates_JSON_parse (text : option json) : relates R (JSON_parse text).
Proof. destruct text; [apply relates_ret | apply relates_throw]. Qed.

Lemma relates_setProp (o : json) (k : string) (v : json) : relates R (setProp o k v).
Proof. destruct o; first [apply relates_ret | apply relates_throw]. Qed.

Lemma relates_getProp (o : json) (k : string) : relates R (getProp o k).
Proof. destruct o; first [apply relates_ret | apply relates_throw]. Qed.

Lemma relates_parseName (p : option string) : relates R (parseName p).
Proof. destruct p; [apply relates_ret | apply relates_throw]. Qed.

End Steps.

Lemma sameFiles_refl (w : World) : sameFiles w w.
Proof. done. Qed.

Lemma sameFiles_trans (w1 w2 w3 : World) :
  sameFiles w1 w2 → sameFiles w2 w3 → sameFiles w1 w3.
Proof. unfold sameFiles. congruence. Qed.

Lemma shows_refl (P : event → Prop) (w : World) : shows P w w.
Proof. exists []. by rewrite app_nil_r. Qed.

Lemma shows_trans (P : event → Prop) (w1 w2 w3 : World) :
  shows P w1 w2 → shows P w2 w3 → shows P w1 w3.
Proof.
  intros (shown & H12 & HP) (shown' & H23 & HP'). exists (shown ++ shown')%list.
  split; [by rewrite H23, H12, app_assoc | by apply Forall_app].
Qed.

Lemma quiet_refl (w : World) : quiet w w.
Proof. split; [apply sameFiles_refl | apply shows_refl]. Qed.

Lemma quiet_trans (w1 w2 w3 : World) : quiet w1 w2 → quiet w2 w3 → quiet w1 w3.
Proof.
  intros [] []. split; [by eapply sameFiles_trans | by eapply shows_trans].
Qed.

Lemma shows_emit (P : event → Prop) (ev : event) : P ev → relates (shows P) (emit ev).
Proof. intros HP w. exists [ev]. split; [done | by apply Forall_singleton]. Qed.

Lemma quiet_emit (ev : event) : isConsole ev → relates quiet (emit ev).
Proof. intros Hev w. split; [done | by apply shows_emit]. Qed.

(** ** Never ending the process *)

Lemma neverExits_ret {A} (a : A) : neverExits (ret a).
Proof. by intros w. Qed.

Lemma neverExits_throw {A} (e : error) : neverExits (throw e : M A).
Proof. by intros w. Qed.

Lemma neverExits_bind {A B} (m : M A) (k : A → M B) :
  neverExits m → (∀ a, neverExits (k a)) → neverExits (m ≫= k).
Proof.
  intros Hm Hk w. specialize (Hm w). unfold mbind, M_bind, bind.
  destruct (m w) as [[a | e | s] w1]; cbn [fst] in *; [apply Hk | done | done].
Qed.

Lemma neverExits_tryCatch {A} (body : M A) (handler : error → M A) :
  neverExits body → (∀ e, neverExits (handler e)) → neverExits (tryCatch body handler).
Proof.
  intros Hbody Hhandler w. specialize (Hbody w). unfold tryCatch.
  destruct (body w) as [[a | e | s] w1]; cbn [fst] in *; [done | apply Hhandler | done].
Qed.

Lemma neverExits_if {A} (b : bool) (m1 m2 : M A) :
  neverExits m1 → neverExits m2 → neverExits (if b then m1 else m2).
Proof. by destruct b. Qed.

Lemma neverExits_emit (ev : event) : neverExits (emit ev).
Proof. by intros w. Qed.

Lemma neverExits_access (p : value) : neverExits (Fs.access p).
Proof.
  intros w. unfold Fs.access. destruct p as [[]|]; try done. by destruct (fs w !! _).
Qed.

Lemma neverExits_fileExists (p : value) : neverExits (fileExists p).
Proof.
  apply neverExits_tryCatch; [| intros; apply neverExits_ret].
  apply neverExits_bind; [apply neverExits_access | intros; apply neverExits_ret].
Qed.

Lemma neverExits_readdir (p : value) : neverExits (Fs.readdir p).
Proof.
  intros w. unfold Fs.readdir. destruct p as [[]|]; try done.
  by destruct (fs w !! _) as [[]|].
Qed.

Lemma neverExits_readFile (path : string) : neverExits (Fs.readFile path).
Proof. intros w. unfold Fs.readFile. by destruct (fs w !! _) as [[]|]. Qed.

Lemma neverExits_writeFile (path : string) (text : option json) :
  neverExits (Fs.writeFile path text).
Proof. intros w. unfold Fs.writeFile. by destruct (fs w !! _) as [[]|]. Qed.

Lemma neverExits_mkdir (path : string) : neverExits (Fs.mkdir path).
Proof. intros w. unfold Fs.mkdir. by destruct (fs w !! _) as [[]|]. Qed.

Lemma neverExits_rm (path : string) : neverExits (Fs.rm path).
Proof. by intros w. Qed.

Lemma neverExits_JSON_parse (text : option json) : neverExits (JSON_parse text).
Proof. by destruct text. Qed.

Lemma neverExits_setProp (o : json) (k : string) (v : json) : neverExits (setProp o k v).
Proof. by destruct o. Qed.

Lemma neverExits_getProp (o : json) (k : string) : neverExits (getProp o k).
Proof. by destruct o. Qed.

Lemma neverExits_parseName (p : option string) : neverExits (parseName p).
Proof. by destruct p. Qed.

(** One step of a proof that a computation is made of steps of [R],
    given that [R] is reflexive and transitive. *)
Ltac relates_with refl trans :=
  repeat first
    [ apply (relates_ret _ refl)
    | apply (relates_mret _ refl)
    | apply (relates_throw _ refl)
    | apply (relates_processExit _ refl)
    | apply (relates_fileExists _ refl trans)
    | apply (relates_access _ refl)
    | apply (relates_readdir _ refl)
    | apply (relates_readFile _ refl)
    | apply (relates_JSON_parse _ refl)
    | apply (relates_setProp _ refl)
    | apply (relates_getProp _ refl)
    | apply (relates_parseName _ refl)
    | apply (relates_bind _ trans); [| intros ?]
    | apply (relates_tryCatch _ trans); [| intros ?]
    | apply relates_if
    | match goal with
      | |- relates _ (match ?x with _ => _ end) => destruct x
      end ].

Ltac quiet_steps :=
  repeat first
    [ progress relates_with quiet_refl quiet_trans
    | apply quiet_emit; exact I ].

Lemma quiet_readTSConfig : relates quiet readTSConfig.
Proof. unfold readTSConfig, consoleWarn. quiet_steps. Qed.

Lemma quiet_detectSourceDir (tsconfig : json) (srcDirArg : option string) :
  relates quiet (detectSourceDir tsconfig srcDirArg).
Proof.
  unfold detectSourceDir, whenTruthy.
  destruct (Js.ofArg srcDirArg); [apply relates_if |];
    try (match goal with
         | |- context [Js.get ?o "rootDir"] => destruct (Js.get o "rootDir")
         end; [apply relates_if |]);
    quiet_steps.
Qed.

Lemma quiet_detectEntryPoints (srcDir : json) : relates quiet (detectEntryPoints srcDir).
Proof. unfold detectEntryPoints. quiet_steps. Qed.

Section DryRun.

Variable convert : json → option json.
Variable childProcess : string → FileSystem → bool * FileSystem.
Variable packageInstall : string → bool → FileSystem → option error * FileSystem.
Variable resolvesTypescript : FileSystem → bool.
Variable tempDir : string.
Variable showHelp : Command → M unit.
Variable showVersion : M unit.
Variable createProject : option string → M unit.

Local Abbreviation cmplr :=
  (run convert childProcess packageInstall resolvesTypescript tempDir
     showHelp showVersion createProject).

(** X11.  A dry run only prints: whatever the arguments and the project,
    a compile run with [--dry-run] leaves the file system as it is,
    starts no process and installs nothing. *)
Theorem dry_run_only_prints (argv : list string) (args : CLIArgs.t) (w w0 : World) :
  parseArgs argv w = (Ret args, w0) →
  CLIArgs.dryRun args = true →
  CLIArgs.help args = false →
  CLIArgs.version args = false →
  CLIArgs.command args = compile →
  fs (cmplr argv w).2 = fs w
  ∧ ∃ shown, events (cmplr argv w).2 = (events w ++ shown)%list
             ∧ ∀ ev, ev ∈ shown → isConsole ev.
Proof.
  intros Hparse HdryRun Hhelp Hversion Hcommand.
  assert (w0 = w) as -> by (by eapply parseArgs_returns).
  assert (Hquiet : quiet w (cmplr argv w).2).
  { revert w Hparse. 
    change (∀ w, parseArgs argv w = (Ret args, w) → quiet w (cmplr argv w).2).
    intros w Hparse. unfold run, tryCatch, main.
    rewrite (run_bind _ _ _ _ _ Hparse), Hhelp, Hversion, Hcommand, HdryRun.
    match goal with
    | |- quiet w (match ?m w with _ => _ end).2 =>
        assert (Hbody : relates quiet m)
    end.
    { unfold consoleLog.
      apply (relates_bind _ quiet_trans); [apply quiet_readTSConfig | intros tsconfig].
      apply (relates_bind _ quiet_trans); [apply quiet_detectSourceDir | intros srcDir].
      apply (relates_bind _ quiet_trans); [apply quiet_detectEntryPoints | intros entryPoints].
      quiet_steps. }
    specialize (Hbody w).
    match goal with
    | |- quiet w (match ?m w with _ => _ end).2 => destruct (m w) as [[[] | e | s] w1]
    end; cbn [snd] in *; try done.
    eapply quiet_trans; [done |].
    apply (relates_bind _ quiet_trans); [unfold consoleError; quiet_steps | intros; quiet_steps]. }
  destruct Hquiet as [Hfiles (shown & Hevents & Hshown)].
  split; [done |]. exists shown. split; [done |]. by apply Forall_forall.
Qed.

End DryRun.

Section Shows.

Variable convert : json → option json.
Variable childProcess : string → FileSystem → bool * FileSystem.
Variable packageInstall : string → bool → FileSystem → option error * FileSystem.
Variable resolvesTypescript : FileSystem → bool.
Variable tempDir : string.

Context (P : event → Prop).

Lemma shows_same_events (w w' : World) : events w' = events w → shows P w w'.
Proof. intros Hevents. exists []. by rewrite app_nil_r. Qed.

Lemma shows_writeFile (path : string) (text : option json) :
  relates (shows P) (Fs.writeFile path text).
Proof.
  intros w. apply shows_same_events. unfold Fs.writeFile.
  by destruct (fs w !! path) as [[]|].
Qed.

Lemma shows_mkdir (path : string) : relates (shows P) (Fs.mkdir path).
Proof.
  intros w. apply shows_same_events. unfold Fs.mkdir.
  by destruct (fs w !! path) as [[]|].
Qed.

Lemma shows_rm (path : string) : relates (shows P) (Fs.rm path).
Proof. intros w. by apply shows_same_events. Qed.

Lemma shows_requireResolveTypescript :
  relates (shows P) (requireResolveTypescript resolvesTypescript).
Proof.
  intros w. apply shows_same_events. unfold requireResolveTypescript.
  by destruct (resolvesTypescript _).
Qed.

Lemma shows_execSync (command : string) :
  P (Exec command) → relates (shows P) (execSync childProcess command).
Proof.
  intros HP w. exists [Exec command]. split; [| by apply Forall_singleton].
  unfold execSync. by destruct (childProcess _ _) as [[] files].
Qed.

Lemma shows_install (package : string) (dev : bool) :
  P (Install package dev) → relates (shows P) (install packageInstall package dev).
Proof.
  intros HP w. exists [Install package dev]. split; [| by apply Forall_singleton].
  unfold install. by destruct (packageInstall _ _ _) as [[] files].
Qed.

End Shows.

(** One step of a proof that every event of a computation satisfies
    [P]; what is left are the events themselves. *)
Ltac declarations_steps :=
  repeat first
    [ progress relates_with (shows_refl notDeclarations) (shows_trans notDeclarations)
    | apply shows_writeFile
    | apply shows_mkdir
    | apply shows_rm
    | apply shows_requireResolveTypescript
    | apply shows_emit
    | apply shows_execSync
    | apply shows_install ].

Lemma notDeclarations_console (ev : event) : isConsole ev → notDeclarations ev.
Proof. intros Hconsole c Hc. by destruct ev. Qed.

Lemma notDeclarations_install (package : string) (dev : bool) :
  notDeclarations (Install package dev).
Proof. by intros command [=]. Qed.

Lemma notDeclarations_swc (rest : string) : notDeclarations (Exec ("npx swc " +:+ rest)).
Proof. by intros command [= <-]. Qed.

Lemma notDeclarations_noEmit (rest : string) :
  notDeclarations (Exec ("npx tsc --noEmit --rootDir " +:+ rest)).
Proof. by intros command [= <-]. Qed.

Section Declarations.

Variable convert : json → option json.
Variable childProcess : string → FileSystem → bool * FileSystem.
Variable packageInstall : string → bool → FileSystem → option error * FileSystem.
Variable resolvesTypescript : FileSystem → bool.
Variable tempDir : string.

Local Abbreviation steps' :=
  (compileSteps convert childProcess packageInstall resolvesTypescript tempDir).

(** X12.  Declarations are generated only for a project with a
    [tsconfig.json]: when [--no-types] is given or no configuration was
    read, none of the commands the compile steps run is a
    [tsc --declaration]. *)
Theorem declarations_need_tsconfig (args : CLIArgs.t) (tsconfig srcDir : json) (w : World) :
  CLIArgs.noTypes args = true ∨ Js.truthy (Some tsconfig) = false →
  ∃ shown,
    events (steps' args tsconfig srcDir w).2 = (events w ++ shown)%list
    ∧ ∀ command, Exec command ∈ shown →
                 startsWith command "npx tsc --declaration" = false.
Proof.
  intros Hoff.
  assert (Hshows : relates (shows notDeclarations) (steps' args tsconfig srcDir)).
  { assert (Hskip : negb (CLIArgs.noTypes args) && Js.truthy (Some tsconfig) = false).
    { destruct Hoff as [-> | ->]; [done | apply andb_false_r]. }
    unfold compileSteps. rewrite Hskip.
    unfold createSWCConfig, listSourceFiles, convertTSConfig, createTempSWCConfig,
      ensureTypeScriptInstalled, hasTypeScriptInstalled, performTypeCheck,
      consoleLog, consoleWarn.
    declarations_steps;
      first [ by apply notDeclarations_console
            | apply notDeclarations_install
            | apply notDeclarations_swc
            | apply notDeclarations_noEmit
            | idtac ]. }
  destruct (Hshows w) as (shown & Hevents & Hshown).
  exists shown. split; [done |]. intros command Hin.
  by apply (proj1 (Forall_forall _ _) Hshown (Exec command)).
Qed.

End Declarations.

Lemma neverExits_execSync childProcess (command : string) :
  neverExits (execSync childProcess command).
Proof. intros w. unfold execSync. by destruct (childProcess _ _) as [[] files]. Qed.

Lemma neverExits_install packageInstall (package : string) (dev : bool) :
  neverExits (install packageInstall package dev).
Proof. intros w. unfold install. by destruct (packageInstall _ _ _) as [[] files]. Qed.

Lemma neverExits_requireResolveTypescript resolvesTypescript :
  neverExits (requireResolveTypescript resolvesTypescript).
Proof. intros w. unfold requireResolveTypescript. by destruct (resolvesTypescript _). Qed.

(** One step of a proof that a computation never ends the process. *)
Ltac neverExits_steps :=
  repeat first
    [ apply neverExits_ret
    | apply (neverExits_ret : ∀ A (a : A), neverExits (mret a))
    | apply neverExits_throw
    | apply neverExits_emit
    | apply neverExits_fileExists
    | apply neverExits_access
    | apply neverExits_readdir
    | apply neverExits_readFile
    | apply neverExits_writeFile
    | apply neverExits_mkdir
    | apply neverExits_rm
    | apply neverExits_JSON_parse
    | apply neverExits_setProp
    | apply neverExits_getProp
    | apply neverExits_parseName
    | apply neverExits_execSync
    | apply neverExits_install
    | apply neverExits_requireResolveTypescript
    | apply neverExits_bind; [| intros ?]
    | apply neverExits_tryCatch; [| intros ?]
    | apply neverExits_if
    | match goal with
      | |- neverExits (match ?x with _ => _ end) => destruct x
      end ].

Lemma neverExits_updatePackageJsonExports entryPoints outDir noTypes :
  neverExits (updatePackageJsonExports entryPoints outDir noTypes).
Proof.
  unfold updatePackageJsonExports, setMainFields, updateFiles, consoleWarn.
  neverExits_steps.
Qed.

Section CompileAndUpdate.

Variable convert : json → option json.
Variable childProcess : string → FileSystem → bool * FileSystem.
Variable packageInstall : string → bool → FileSystem → option error * FileSystem.
Variable resolvesTypescript : FileSystem → bool.
Variable tempDir : string.

Lemma neverExits_compileSteps (args : CLIArgs.t) (tsconfig srcDir : json) :
  neverExits (compileSteps convert childProcess packageInstall resolvesTypescript tempDir
                args tsconfig srcDir).
Proof.
  unfold compileSteps, createSWCConfig, listSourceFiles, convertTSConfig,
    createTempSWCConfig, ensureTypeScriptInstalled, hasTypeScriptInstalled,
    performTypeCheck, consoleLog, consoleWarn.
  neverExits_steps.
Qed.

Lemma within_refl (path : string) : Fs.within path path = true.
Proof. unfold Fs.within. by rewrite String.eqb_refl. Qed.

Lemma rm_removes (root path : string) (w : World) :
  Fs.within root path = true → fs (Fs.rm root w).2 !! path = None.
Proof.
  intros Hwithin. unfold Fs.rm. cbn [snd fs].
  rewrite map_lookup_imap, map_lookup_filter_None_2; [done |].
  right. intros n _. cbn [fst]. by rewrite Hwithin.
Qed.

Lemma rm_keeps_file (root path : string) (text : option json) (w : World) :
  Fs.within root path = false →
  fs w !! path = Some (File text) →
  fs (Fs.rm root w).2 !! path = Some (File text).
Proof.
  intros Hwithin Hfile. unfold Fs.rm. cbn [snd fs].
  rewrite map_lookup_imap.
  by rewrite (map_lookup_filter_Some_2 _ _ _ _ Hfile Hwithin).
Qed.

Lemma rm_events (root : string) (w : World) : events (Fs.rm root w).2 = events w.
Proof. done. Qed.

Lemma append_longer (s t : string) : t ≠ "" → s +:+ t ≠ s.
Proof.
  intros Ht Heq. apply (f_equal String.length) in Heq.
  rewrite length_append in Heq. destruct t; [done |]. simpl in Heq. lia.
Qed.

Lemma configPath_not_tempDir (configName : string) :
  tempDir +:+ "/" +:+ configName +:+ ".swcrc" ≠ tempDir.
Proof. by apply append_longer. Qed.


Lemma cleanupTempConfigs_gone (w : World) :
  ∃ w', cleanupTempConfigs tempDir w = (Ret tt, w') ∧ fs w' !! tempDir = None.
Proof.
  unfold cleanupTempConfigs.
  rewrite (run_bind _ _ _ _ _ (fileExists_path tempDir w)).
  destruct (fs w !! tempDir) as [n|] eqn:Hdir.
  - rewrite bool_decide_eq_true_2 by done.
    exists (Fs.rm tempDir w).2. split; [done | apply rm_removes, within_refl].
  - rewrite bool_decide_eq_false_2 by (by intros []). by exists w.
Qed.

(** X14.  [cleanupTempConfigs] never fails and prints nothing.  After it
    the temporary directory is gone, with everything below it when it
    was there; a file outside it is kept as it is. *)
Theorem cleanup_removes_temp_configs (w : World) :
  ∃ w',
    cleanupTempConfigs tempDir w = (Ret tt, w')
    ∧ events w' = events w
    ∧ fs w' !! tempDir = None
    ∧ (is_Some (fs w !! tempDir) →
       ∀ path, Fs.within tempDir path = true → fs w' !! path = None)
    ∧ (∀ path text, Fs.within tempDir path = false →
                    fs w !! path = Some (File text) → fs w' !! path = Some (File text)).
Proof.
  unfold cleanupTempConfigs.
  rewrite (run_bind _ _ _ _ _ (fileExists_path tempDir w)).
  destruct (fs w !! tempDir) as [n|] eqn:Hdir.
  - rewrite bool_decide_eq_true_2 by done.
    exists (Fs.rm tempDir w).2. split; [done |]. split; [done |].
    split; [apply rm_removes, within_refl |].
    split; [intros _ path; apply rm_removes | intros path text; apply rm_keeps_file].
  - rewrite bool_decide_eq_false_2 by (by intros []).
    exists w. split; [done |]. split; [done |]. split; [done |].
    split; [by intros [] | done].
Qed.


End CompileAndUpdate.

Lemma run_tryCatch_ret {A} (body : M A) (handler : error → M A) (w w' : World) (a : A) :
  body w = (Ret a, w') → tryCatch body handler w = (Ret a, w').
Proof. unfold tryCatch. by intros ->. Qed.

Lemma run_tryCatch_throw {A} (body : M A) (handler : error → M A) (w w' : World)
    (e : error) (r : outcome A * World) :
  body w = (Throw e, w') → handler e w' = r → tryCatch body handler w = r.
Proof. unfold tryCatch. by intros -> <-. Qed.

Section TypeScript.

Variable convert : json → option json.
Variable childProcess : string → FileSystem → bool * FileSystem.
Variable packageInstall : string → bool → FileSystem → option error * FileSystem.
Variable resolvesTypescript : FileSystem → bool.
Variable tempDir : string.

Lemma manifest_lists_typescript (n : node) (w : World) :
  fs w !! packageJsonPath = Some n →
  tryCatch
    (content ← Fs.readFile packageJsonPath;
     packageJson ← JSON_parse content;
     dependencies ← getProp packageJson "dependencies";
     if Js.truthy (Js.get dependencies "typescript") then ret true
     else
       devDependencies ← getProp packageJson "devDependencies";
       ret (Js.truthy (Js.get devDependencies "typescript")))
    (λ _, ret false) w
  = (Ret (listsTypescript (fs w)), w).
Proof.
  intros Hnode. unfold listsTypescript. rewrite Hnode.
  destruct n as [entries | [packageJson |]].
  - eapply run_tryCatch_throw; [| done].
    apply run_bind_throw. unfold Fs.readFile. by rewrite Hnode.
  - destruct packageJson as [| b | n | s | elems | props].
    + eapply run_tryCatch_throw; [| done].
      rewrite (run_bind _ _ _ _ _ (readFile_file _ _ _ Hnode)).
      unfold JSON_parse. by rewrite (run_bind _ _ w w JNull).
    + apply run_tryCatch_ret.
      rewrite (run_bind _ _ _ _ _ (readFile_file _ _ _ Hnode)).
      unfold JSON_parse. by rewrite (run_bind _ _ w w (JBool b)).
    + apply run_tryCatch_ret.
      rewrite (run_bind _ _ _ _ _ (readFile_file _ _ _ Hnode)).
      unfold JSON_parse. by rewrite (run_bind _ _ w w (JNum n)).
    + apply run_tryCatch_ret.
      rewrite (run_bind _ _ _ _ _ (readFile_file _ _ _ Hnode)).
      unfold JSON_parse. by rewrite (run_bind _ _ w w (JStr s)).
    + apply run_tryCatch_ret.
      rewrite (run_bind _ _ _ _ _ (readFile_file _ _ _ Hnode)).
      unfold JSON_parse. by rewrite (run_bind _ _ w w (JArr elems)).
    + apply run_tryCatch_ret.
      rewrite (run_bind _ _ _ _ _ (readFile_file _ _ _ Hnode)).
      unfold JSON_parse. rewrite (run_bind _ _ w w (JObj props)) by done.
      rewrite (run_bind _ _ w w (props !! "dependencies")) by done.
      cbn [Js.get].
      destruct (Js.truthy (Js.get (props !! "dependencies") "typescript")); [done |].
      by rewrite (run_bind _ _ w w (props !! "devDependencies")).
  - eapply run_tryCatch_throw; [| done].
    rewrite (run_bind _ _ _ _ _ (readFile_file _ _ _ Hnode)).
    by apply run_bind_throw.
Qed.

Lemma hasTypeScriptInstalled_run (w : World) :
  hasTypeScriptInstalled resolvesTypescript w
  = (Ret (listsTypescript (fs w) || resolvesTypescript (fs w)), w).
Proof.
  assert (Hresolve : ∀ w,
    tryCatch (requireResolveTypescript resolvesTypescript ;; ret true) (λ _, ret false) w
    = (Ret (resolvesTypescript (fs w)), w)).
  { intros w0. unfold tryCatch, mbind, M_bind, bind, requireResolveTypescript.
    by destruct (resolvesTypescript (fs w0)). }
  unfold hasTypeScriptInstalled.
  rewrite (run_bind _ _ _ _ _ (fileExists_path packageJsonPath w)).
  destruct (fs w !! packageJsonPath) as [n |] eqn:Hnode.
  - rewrite bool_decide_eq_true_2 by done.
    rewrite (run_bind _ _ _ _ _ (manifest_lists_typescript n w Hnode)).
    destruct (listsTypescript (fs w)); [done | apply Hresolve].
  - rewrite bool_decide_eq_false_2 by (by intros []).
    rewrite (run_bind _ _ w w false) by done.
    unfold listsTypescript. rewrite Hnode. apply Hresolve.
Qed.

(** X16.  [hasTypeScriptInstalled] never fails and changes nothing.  Its
    answer is yes exactly when the manifest lists [typescript] under
    [dependencies] or [devDependencies] or the module resolves; a
    manifest that is missing, is a directory or does not parse counts as
    one that lists nothing. *)
Theorem hasTypeScriptInstalled_answer (w : World) :
  hasTypeScriptInstalled resolvesTypescript w
  = (Ret (listsTypescript (fs w) || resolvesTypescript (fs w)), w).
Proof. apply hasTypeScriptInstalled_run. Qed.

(** X17.  TypeScript is installed only when it is missing, as a
    development dependency; when the installation fails, its reason is
    thrown again behind "Failed to install TypeScript: ". *)
Theorem ensureTypeScriptInstalled_outcomes (w : World) :
  ensureTypeScriptInstalled packageInstall resolvesTypescript w
  = if listsTypescript (fs w) || resolvesTypescript (fs w) then (Ret tt, w)
    else
      let started :=
        (events w ++ [ConsoleLog "TypeScript not found, installing as dev dependency...";
                      Install "typescript" true])%list in
      match packageInstall "typescript" true (fs w) with
      | (None, files) =>
          (Ret tt, {| fs := files;
                      events := (started ++ [ConsoleLog "TypeScript installed successfully."])%list |})
      | (Some reason, files) =>
          (Throw (Error ("Failed to install TypeScript: " +:+ errorText reason)),
           {| fs := files; events := started |})
      end.
Proof.
  unfold ensureTypeScriptInstalled.
  rewrite (run_bind _ _ _ _ _ (hasTypeScriptInstalled_run w)).
  destruct (listsTypescript (fs w) || resolvesTypescript (fs w)); [done |].
  unfold mbind, M_bind, bind, consoleLog, emit, tryCatch, install, throw. cbn [fs events].
  destruct (packageInstall "typescript" true (fs w)) as [[reason |] files];
    cbn [fs events]; do 2 f_equal; rewrite <- ?(assoc_L (++)); reflexivity.
Qed.

(** X18.  Without [--type-check] the compile steps install nothing. *)
Theorem compile_installs_only_for_type_check (args : CLIArgs.t) (tsconfig srcDir : json)
    (w : World) :
  CLIArgs.typeCheck args = false →
  ∃ shown,
    events (compileSteps convert childProcess packageInstall resolvesTypescript tempDir
              args tsconfig srcDir w).2 = (events w ++ shown)%list
    ∧ ∀ package dev, Install package dev ∉ shown.
Proof.
  intros Hoff.
  assert (Hshows : relates (shows notInstall)
                     (compileSteps convert childProcess packageInstall resolvesTypescript
                        tempDir args tsconfig srcDir)).
  { unfold compileSteps. rewrite Hoff.
    unfold createSWCConfig, listSourceFiles, convertTSConfig, createTempSWCConfig,
      consoleLog, consoleWarn.
    repeat first
      [ progress relates_with (shows_refl notInstall) (shows_trans notInstall)
      | apply shows_writeFile
      | apply shows_mkdir
      | apply shows_rm
      | apply shows_emit
      | apply shows_execSync ]; exact I. }
  destruct (Hshows w) as (shown & Hevents & Hshown).
  exists shown. split; [done |]. intros package dev Hin.
  apply (proj1 (Forall_forall _ _) Hshown (Install package dev) Hin).
Qed.

End TypeScript.

(** ** What [createSWCConfig] takes from the sources and the converter *)

Lemma assembleConfig_lookup tsconfig moduleType files baseConfig jsc (k : string) :
  k ∉ ["jsc"; "module"; "sourceMaps"; "exclude"] →
  assembleConfig tsconfig moduleType files baseConfig jsc !! k
  = Js.spread (Some baseConfig) !! k.
Proof.
  intros Hk. rewrite !not_elem_of_cons in Hk. destruct Hk as (? & ? & ? & ? & _).
  unfold assembleConfig.
  destruct (Js.get (Some tsconfig) "exclude") as [exclude|];
    [destruct (Js.truthy (Some exclude)) |];
    rewrite ?(lookup_insert_ne _ "exclude") by done;
    rewrite (lookup_insert_ne _ "sourceMaps") by done;
    rewrite (lookup_insert_ne _ "module") by done;
    by rewrite (lookup_insert_ne _ "jsc").
Qed.

Lemma assembleConfig_sourceMaps tsconfig moduleType files baseConfig jsc :
  assembleConfig tsconfig moduleType files baseConfig jsc !! "sourceMaps"
  = Some (coalesce (Js.get (Some baseConfig) "sourceMaps") (JBool true)).
Proof.
  unfold assembleConfig.
  destruct (Js.get (Some tsconfig) "exclude") as [exclude|];
    [destruct (Js.truthy (Some exclude)) |];
    rewrite ?(lookup_insert_ne _ "exclude") by done;
    by rewrite lookup_insert_eq.
Qed.

Lemma assembleConfig_jsc tsconfig moduleType files baseConfig jsc (k : string) :
  k ≠ "parser" →
  Js.get (assembleConfig tsconfig moduleType files baseConfig jsc !! "jsc") k
  = if String.eqb k "externalHelpers"
    then Some (coalesce (Js.get jsc "externalHelpers") (JBool false))
    else if String.eqb k "loose" then Some (coalesce (Js.get jsc "loose") (JBool false))
    else if String.eqb k "target" then Some (orElse (Js.get jsc "target") (JStr "es2020"))
    else Js.spread jsc !! k.
Proof.
  intros Hparser.
  destruct (String.eqb_spec k "externalHelpers") as [-> | ?];
    [| destruct (String.eqb_spec k "loose") as [-> | ?];
       [| destruct (String.eqb_spec k "target") as [-> | ?]]];
    unfold assembleConfig;
    (destruct (Js.get (Some tsconfig) "exclude") as [exclude|];
     [destruct (Js.truthy (Some exclude)) |]);
    rewrite ?(lookup_insert_ne _ "exclude") by done;
    rewrite (lookup_insert_ne _ "sourceMaps") by done;
    rewrite (lookup_insert_ne _ "module") by done;
    rewrite lookup_insert_eq; cbn [Js.get];
    rewrite ?(lookup_insert_ne _ "externalHelpers") by done;
    rewrite ?(lookup_insert_ne _ "loose") by done;
    rewrite ?(lookup_insert_ne _ "target") by done;
    rewrite ?(lookup_insert_ne _ "parser") by done;
    by rewrite ?lookup_insert_eq.
Qed.

Lemma assembleConfig_parser tsconfig moduleType files baseConfig jsc (k : string) :
  parserField (JObj (assembleConfig tsconfig moduleType files baseConfig jsc)) k
  = if String.eqb k "decorators"
    then Some (coalesce (Js.get (Js.get jsc "parser") "decorators")
                 (orElse (Js.get (Js.get (Some tsconfig) "compilerOptions")
                            "experimentalDecorators") (JBool false)))
    else if String.eqb k "jsx"
    then Some (JBool (existsb (λ file, endsWith file ".jsx" || endsWith file ".tsx") files))
    else if String.eqb k "tsx"
    then Some (JBool (existsb (λ file, endsWith file ".tsx") files))
    else if String.eqb k "syntax"
    then Some (JStr (if existsb (λ file, endsWith file ".ts" || endsWith file ".tsx") files
                     then "typescript" else "ecmascript"))
    else Js.spread (Js.get jsc "parser") !! k.
Proof.
  unfold parserField. cbn [Js.get].
  destruct (String.eqb_spec k "decorators") as [-> | ?];
    [| destruct (String.eqb_spec k "jsx") as [-> | ?];
       [| destruct (String.eqb_spec k "tsx") as [-> | ?];
          [| destruct (String.eqb_spec k "syntax") as [-> | ?]]]];
    unfold assembleConfig;
    (destruct (Js.get (Some tsconfig) "exclude") as [exclude|];
     [destruct (Js.truthy (Some exclude)) |]);
    rewrite ?(lookup_insert_ne _ "exclude") by done;
    rewrite (lookup_insert_ne _ "sourceMaps") by done;
    rewrite (lookup_insert_ne _ "module") by done;
    rewrite lookup_insert_eq; cbn [Js.get];
    rewrite (lookup_insert_ne _ "externalHelpers") by done;
    rewrite (lookup_insert_ne _ "loose") by done;
    rewrite (lookup_insert_ne _ "target") by done;
    rewrite lookup_insert_eq; cbn [Js.get];
    rewrite ?(lookup_insert_ne _ "decorators") by done;
    rewrite ?(lookup_insert_ne _ "jsx") by done;
    rewrite ?(lookup_insert_ne _ "tsx") by done;
    rewrite ?(lookup_insert_ne _ "syntax") by done;
    by rewrite ?lookup_insert_eq.
Qed.

Section Converter.

Variable convert : json → option json.

Lemma listSourceFiles_directory (path : string) (entries : list Dirent) (w : World) :
  fs w !! path = Some (Dir entries) →
  listSourceFiles (JStr path) w = (Ret (regularFiles entries), w).
Proof.
  intros Hdir. unfold listSourceFiles.
  rewrite (run_bind _ _ _ _ _ (fileExists_present _ _ _ Hdir)).
  by rewrite (run_bind _ _ _ _ _ (readdir_dir _ _ _ Hdir)).
Qed.

(** What a call that returns has returned. *)
Lemma createSWCConfig_returned tsconfig moduleType srcDir (config : json) (w w' : World) :
  createSWCConfig convert tsconfig moduleType srcDir w = (Ret config, w') →
  ∃ files w1 baseConfig,
    listSourceFiles srcDir w = (Ret files, w1)
    ∧ baseConfig = (if Js.truthy (Some tsconfig)
                    then default (JObj ∅) (convert tsconfig) else JObj ∅)
    ∧ config = JObj (assembleConfig tsconfig moduleType files baseConfig
                       (Js.get (Some baseConfig) "jsc")).
Proof.
  unfold createSWCConfig.
  destruct (listSourceFiles srcDir w) as [[files | e | s] w1] eqn:Hfiles;
    [| by rewrite (run_bind_throw _ _ _ _ _ Hfiles)
     | by rewrite (run_bind_exit _ _ _ _ _ Hfiles)].
  rewrite (run_bind _ _ _ _ _ Hfiles). unfold convertTSConfig.
  destruct (Js.truthy (Some tsconfig)); [destruct (convert tsconfig) as [converted |] |].
  - unfold tryCatch. rewrite (run_bind _ _ w1 w1 converted) by done.
    destruct converted; unfold getProp; intros [= <- <-]; by eexists _, _, _.
  - unfold tryCatch at 1, throw at 1, mbind at 1, M_bind, bind at 1, consoleWarn, emit.
    unfold mbind at 1, M_bind, bind at 1. cbn [getProp].
    intros [= <- <-]. by eexists _, _, _.
  - rewrite (run_bind _ _ w1 w1 (JObj ∅)) by done. intros [= <- <-]. by eexists _, _, _.
Qed.

(** X19.  The parser settings follow the source files, not the
    converter: in every configuration returned for a source directory,
    [syntax], [tsx] and [jsx] under [jsc.parser] are computed from the
    names of the regular files of the directory, tests included.  So
    [tsx] is never on without [jsx] and the [typescript] syntax. *)
Theorem parser_follows_source_files (tsconfig : json) (moduleType : ModuleType)
    (path : string) (entries : list Dirent) (config : json) (w w' : World) :
  fs w !! path = Some (Dir entries) →
  createSWCConfig convert tsconfig moduleType (JStr path) w = (Ret config, w') →
  let files := regularFiles entries in
  parserField config "syntax"
  = Some (JStr (if existsb (λ file, endsWith file ".ts" || endsWith file ".tsx") files
                then "typescript" else "ecmascript"))
  ∧ parserField config "tsx" = Some (JBool (existsb (λ file, endsWith file ".tsx") files))
  ∧ parserField config "jsx"
    = Some (JBool (existsb (λ file, endsWith file ".jsx" || endsWith file ".tsx") files))
  ∧ (parserField config "tsx" = Some (JBool true) →
     parserField config "jsx" = Some (JBool true)
     ∧ parserField config "syntax" = Some (JStr "typescript")).
Proof.
  intros Hdir Hrun files.
  destruct (createSWCConfig_returned _ _ _ _ _ _ Hrun)
    as (files' & w1 & baseConfig & Hfiles & _ & ->).
  rewrite (listSourceFiles_directory _ _ _ Hdir) in Hfiles.
  injection Hfiles as <- <-.
  rewrite !assembleConfig_parser. cbn [String.eqb Ascii.eqb Bool.eqb].
  split; [done |]. split; [done |]. split; [done |].
  intros [= Htsx]. fold files in Htsx.
  apply existsb_exists in Htsx as (file & Hin & Hfile).
  assert (Hjsx : existsb (λ file, endsWith file ".jsx" || endsWith file ".tsx") files = true).
  { apply existsb_exists. exists file. split; [done |]. by rewrite Hfile, orb_true_r. }
  assert (Hts : existsb (λ file, endsWith file ".ts" || endsWith file ".tsx") files = true).
  { apply existsb_exists. exists file. split; [done |]. by rewrite Hfile, orb_true_r. }
  fold files. by rewrite Hjsx, Hts.
Qed.

(** X20.  What the converter made of [tsconfig.json] passes through:
    every top-level setting other than [jsc], [module], [sourceMaps] and
    [exclude], every setting under [jsc] other than [parser], [target],
    [loose] and [externalHelpers], and every setting under [jsc.parser]
    other than [syntax], [tsx], [jsx] and [decorators] is in the
    configuration as the converter gave it.  A [sourceMaps], [loose] or
    [externalHelpers] that the converter set is kept too, [false]
    included. *)
Theorem converter_settings_pass_through (tsconfig : json) (moduleType : ModuleType)
    (srcDir config baseConfig : json) (w w' : World) :
  Js.truthy (Some tsconfig) = true →
  convert tsconfig = Some baseConfig →
  createSWCConfig convert tsconfig moduleType srcDir w = (Ret config, w') →
  let jsc := Js.get (Some baseConfig) "jsc" in
  (∀ k, k ∉ ["jsc"; "module"; "sourceMaps"; "exclude"] →
        Js.get (Some config) k = Js.spread (Some baseConfig) !! k)
  ∧ (∀ k, k ∉ ["parser"; "target"; "loose"; "externalHelpers"] →
          Js.get (Js.get (Some config) "jsc") k = Js.spread jsc !! k)
  ∧ (∀ k, k ∉ ["syntax"; "tsx"; "jsx"; "decorators"] →
          parserField config k = Js.spread (Js.get jsc "parser") !! k)
  ∧ (∀ v, Js.get (Some baseConfig) "sourceMaps" = Some v → v ≠ JNull →
          Js.get (Some config) "sourceMaps" = Some v)
  ∧ (∀ k v, k ∈ ["loose"; "externalHelpers"] → Js.get jsc k = Some v → v ≠ JNull →
            Js.get (Js.get (Some config) "jsc") k = Some v).
Proof.
  intros Htruthy Hconvert Hrun jsc.
  destruct (createSWCConfig_returned _ _ _ _ _ _ Hrun)
    as (files & w1 & baseConfig' & _ & Hbase & ->).
  rewrite Htruthy, Hconvert in Hbase. cbn [default from_option id] in Hbase. subst baseConfig'.
  fold jsc.
  split; [| split; [| split; [| split]]].
  - intros k Hk. by apply assembleConfig_lookup.
  - intros k Hk. rewrite !not_elem_of_cons in Hk. destruct Hk as (? & ? & ? & ? & _).
    change (Js.get (Some (JObj ?m)) "jsc") with (m !! "jsc").
    rewrite assembleConfig_jsc by done.
    by repeat match goal with
              | |- context [String.eqb k ?s] => destruct (String.eqb_spec k s)
              end.
  - intros k Hk. rewrite !not_elem_of_cons in Hk. destruct Hk as (? & ? & ? & ? & _).
    rewrite assembleConfig_parser.
    by repeat match goal with
              | |- context [String.eqb k ?s] => destruct (String.eqb_spec k s)
              end.
  - intros v Hv Hnull.
    change (Js.get (Some (JObj ?m)) "sourceMaps") with (m !! "sourceMaps").
    rewrite assembleConfig_sourceMaps. unfold coalesce. rewrite Hv. by destruct v.
  - intros k v Hk Hv Hnull.
    change (Js.get (Some (JObj ?m)) "jsc") with (m !! "jsc").
    rewrite !elem_of_cons in Hk. destruct Hk as [-> | [-> | Hk]];
      [| | by apply elem_of_nil in Hk];
      rewrite assembleConfig_jsc by done;
      cbn [String.eqb Ascii.eqb Bool.eqb]; unfold coalesce; rewrite Hv; by destruct v.
Qed.

Lemma listSourceFiles_returns (srcDir : json) (w : World) :
  (∀ path text, srcDir = JStr path → fs w !! path ≠ Some (File text)) →
  ∃ files, listSourceFiles srcDir w = (Ret files, w).
Proof.
  intros Hdir. unfold listSourceFiles.
  destruct srcDir as [| | | path | |];
    try (exists []; by rewrite (run_bind _ _ w w false)
                         by (by apply fileExists_not_a_path)).
  destruct (fs w !! path) as [[entries | text] |] eqn:Hnode.
  - exists (regularFiles entries). by apply listSourceFiles_directory.
  - by destruct (Hdir path text).
  - exists []. by rewrite (run_bind _ _ _ _ _ (fileExists_absent _ _ Hnode)).
Qed.

(** X21.  A converter that throws is not fatal: for a source directory
    that is not a regular file, [createSWCConfig] prints one warning and
    returns a configuration with the defaults, target [es2020], [loose]
    and [externalHelpers] off and source maps on, and with no setting at
    the top level besides [jsc], [module], [sourceMaps] and [exclude]. *)
Theorem converter_failure_falls_back (tsconfig : json) (moduleType : ModuleType)
    (srcDir : json) (w : World) :
  Js.truthy (Some tsconfig) = true →
  convert tsconfig = None →
  (∀ path text, srcDir = JStr path → fs w !! path ≠ Some (File text)) →
  ∃ config,
    createSWCConfig convert tsconfig moduleType srcDir w
    = (Ret config,
       {| fs := fs w;
          events := (events w ++ [ConsoleWarn "Warning: Could not convert tsconfig with tsconfig-swc, using fallback"])%list |})
    ∧ Js.get (Js.get (Some config) "jsc") "target" = Some (JStr "es2020")
    ∧ Js.get (Js.get (Some config) "jsc") "loose" = Some (JBool false)
    ∧ Js.get (Js.get (Some config) "jsc") "externalHelpers" = Some (JBool false)
    ∧ Js.get (Some config) "sourceMaps" = Some (JBool true)
    ∧ Js.get (Js.get (Some config) "module") "type" = Some (JStr (moduleTypeName moduleType))
    ∧ ∀ k, k ∉ ["jsc"; "module"; "sourceMaps"; "exclude"] → Js.get (Some config) k = None.
Proof.
  intros Htruthy Hconvert Hdir.
  destruct (listSourceFiles_returns srcDir w Hdir) as [files Hfiles].
  assert (Hjsc : Js.get (Some (JObj ∅)) "jsc" = None) by apply lookup_empty.
  exists (JObj (assembleConfig tsconfig moduleType files (JObj ∅)
                  (Js.get (Some (JObj ∅)) "jsc"))).
  split.
  { unfold createSWCConfig. rewrite (run_bind _ _ _ _ _ Hfiles).
    unfold convertTSConfig. rewrite Htruthy, Hconvert.
    unfold tryCatch at 1, throw at 1, mbind at 1, M_bind, bind at 1, consoleWarn, emit.
    unfold mbind at 1, M_bind, bind at 1. reflexivity. }
  change (Js.get (Some (JObj ?m)) "jsc") with (m !! "jsc").
  change (Js.get (Some (JObj ?m)) "sourceMaps") with (m !! "sourceMaps").
  change (Js.get (Some (JObj ?m)) "module") with (m !! "module").
  rewrite !assembleConfig_jsc by done.
  rewrite assembleConfig_sourceMaps, assembleConfig_module.
  cbn [String.eqb Ascii.eqb Bool.eqb]. rewrite Hjsc.
  split; [done |]. split; [done |]. split; [done |].
  split; [unfold coalesce; cbn [Js.get]; by rewrite lookup_empty |].
  split; [cbn [Js.get]; apply lookup_singleton_eq |].
  intros k Hk. change (Js.get (Some (JObj ?m)) k) with (m !! k).
  rewrite assembleConfig_lookup by done. apply lookup_empty.
Qed.

End Converter.

Lemma get_in_range (i : nat) (s : string) (c : ascii) :
  String.get i s = Some c → (i < String.length s)%nat.
Proof.
  revert i. induction s as [|d s IH]; intros i Hget; [done |].
  destruct i as [|i]; simpl in *; [lia |]. apply IH in Hget. lia.
Qed.

Lemma without_front (c : ascii) (front back : string) :
  without c (front +:+ back) → without c front.
Proof.
  intros Hfile i Hget. apply (Hfile i).
  rewrite <- append_correct1; [done |]. by eapply get_in_range.
Qed.

Lemma extension_plain (ext : string) :
  ext ∈ ["ts"; "tsx"; "js"; "jsx"] → ext ≠ "" ∧ without "/" ext ∧ without "." ext.
Proof.
  rewrite !elem_of_cons.
  intros [-> | [-> | [-> | [-> | Hin]]]]; [| | | | by apply elem_of_nil in Hin];
    (split; [done |]; split; intros i; by destruct i as [|[|[|[|]]]]).
Qed.

(** X22.  The base name of an entry point is its name without the
    extension the filter asked for: a name that [detectEntryPoints]
    lets through is [<stem>.ts], [.tsx], [.js] or [.jsx], and
    [path.parse] gives back the stem, dots in it included, unless the
    stem is empty. *)
Theorem entry_point_base_name (file : string) :
  isEntryPoint file = true →
  without "/" file →
  ∃ stem ext,
    ext ∈ ["ts"; "tsx"; "js"; "jsx"]
    ∧ file = stem +:+ "." +:+ ext
    ∧ (stem ≠ "" → Path.name file = stem).
Proof.
  unfold isEntryPoint. rewrite !andb_true_iff, !orb_true_iff, !endsWith_spec.
  intros [[Hext _] _] Hslash.
  assert (Hform : ∃ stem ext, ext ∈ ["ts"; "tsx"; "js"; "jsx"]
                              ∧ file = stem +:+ "." +:+ ext).
  { destruct Hext as [[[[stem ->] | [stem ->]] | [stem ->]] | [stem ->]];
      [exists stem, "ts" | exists stem, "tsx" | exists stem, "js" | exists stem, "jsx"];
      (split; [set_solver | done]). }
  destruct Hform as (stem & ext & Hin & ->).
  exists stem, ext. split; [done |]. split; [done |]. intros Hstem.
  destruct (extension_plain ext Hin) as (Hne & Hextslash & Hextdot).
  apply name_of_file; try done. by eapply without_front.
Qed.

(** ** [createProject] *)

Lemma addsTo_refl created rewritten (w : World) : addsTo created rewritten w w.
Proof. intros path. by left. Qed.

Lemma addsTo_trans created rewritten (w1 w2 w3 : World) :
  addsTo created rewritten w1 w2 → addsTo created rewritten w2 w3 →
  addsTo created rewritten w1 w3.
Proof.
  intros H12 H23 path.
  destruct (H23 path) as [Hsame | [-> | [Hnone Hin]]]; [| by right; left |].
  - rewrite Hsame. apply H12.
  - destruct (H12 path) as [Hsame | [-> | [Hnone' Hin']]];
      [right; right; by rewrite <- Hsame | by right; left | by right; right].
Qed.

Lemma addsTo_same_files created rewritten (w w' : World) :
  fs w' = fs w → addsTo created rewritten w w'.
Proof. intros Hfs path. left. by rewrite Hfs. Qed.

Lemma addsTo_emit created rewritten (ev : event) :
  relates (addsTo created rewritten) (emit ev).
Proof. intros w. by apply addsTo_same_files. Qed.

Lemma addsTo_rewrite created rewritten (text : option json) :
  relates (addsTo created rewritten) (Fs.writeFile rewritten text).
Proof.
  intros w path. unfold Fs.writeFile.
  destruct (fs w !! rewritten) as [[] |]; cbn [snd fs]; [by left | |];
    (destruct (decide (path = rewritten)) as [-> | Hne];
     [by right; left | left; by rewrite lookup_insert_ne]).
Qed.

(** [if (!(await fileExists(path))) ...], when what follows is a step
    for a [path] that names nothing. *)
Lemma relates_when_missing (R : World → World → Prop) {A} (path : string) (k : bool → M A) :
  (∀ w, fs w !! path = None → R w (k false w).2) →
  relates R (k true) →
  relates R (fileExists (Some (JStr path)) ≫= k).
Proof.
  intros Hmissing Hfound w. rewrite (run_bind _ _ _ _ _ (fileExists_path path w)).
  destruct (fs w !! path) as [n |] eqn:Hnode.
  - rewrite bool_decide_eq_true_2 by done. apply Hfound.
  - rewrite bool_decide_eq_false_2 by (by intros []). by apply Hmissing.
Qed.

Lemma addsTo_mkdir created rewritten (path message : string) (w : World) :
  path ∈ created →
  fs w !! path = None →
  addsTo created rewritten w ((Fs.mkdir path ;; consoleLog message) w).2.
Proof.
  intros Hin Hnone q. unfold mbind, M_bind, bind, Fs.mkdir, consoleLog, emit.
  rewrite Hnone. cbn [snd fs].
  destruct (decide (q = path)) as [-> | Hne]; [by right; right |].
  left. by rewrite lookup_insert_ne.
Qed.

Lemma addsTo_create created rewritten (path : string) (text : option json)
    (message : string) (w : World) :
  path ∈ created →
  fs w !! path = None →
  addsTo created rewritten w ((Fs.writeFile path text ;; consoleLog message) w).2.
Proof.
  intros Hin Hnone q. unfold mbind, M_bind, bind, Fs.writeFile, consoleLog, emit.
  rewrite Hnone. cbn [snd fs].
  destruct (decide (q = path)) as [-> | Hne]; [by right; right |].
  left. by rewrite lookup_insert_ne.
Qed.

Lemma addsTo_createIfMissing created rewritten path text made skipped :
  path ∈ created →
  relates (addsTo created rewritten) (createIfMissing path text made skipped).
Proof.
  intros Hin. apply relates_when_missing; [intros w; by apply addsTo_create |].
  apply addsTo_emit.
Qed.

Lemma relates_whenTruthy (R : World → World → Prop) {A} (v : value)
    (yes : json → M A) (no : M A) :
  (∀ j, relates R (yes j)) → relates R no → relates R (whenTruthy v yes no).
Proof. intros Hyes Hno. unfold whenTruthy. destruct v; [by destruct (Js.truthy _) | done]. Qed.

Lemma relates_addScripts (R : World → World → Prop) (packageJson : json) :
  (∀ w, R w w) → (∀ w1 w2 w3, R w1 w2 → R w2 w3 → R w1 w3) →
  relates R (addScripts packageJson).
Proof.
  intros refl trans. unfold addScripts.
  apply (relates_bind _ trans); [apply (relates_getProp _ refl) | intros scripts].
  apply (relates_bind _ trans);
    [apply relates_whenTruthy; relates_with refl trans | intros scripts'].
  relates_with refl trans.
Qed.

Lemma createdPaths_named (projectName : option string) :
  Js.truthy (Js.ofArg projectName) = true →
  default "" projectName ∈ createdPaths projectName.
Proof. intros Hnamed. unfold createdPaths. rewrite Hnamed. set_solver. Qed.

Lemma createdPaths_inProject (projectName : option string) (p : string) :
  p ∈ ["lib"; "tsconfig.json"; "lib/index.ts"; "lib/index.test.ts"] →
  inProject projectName p ∈ createdPaths projectName.
Proof. unfold createdPaths. set_solver. Qed.

Lemma addsTo_createFiles (cwdName : string) (projectName : option string) :
  relates (addsTo (createdPaths projectName) (inProject projectName "package.json"))
    (createFiles cwdName projectName).
Proof.
  pose proof (addsTo_refl (createdPaths projectName)
                (inProject projectName "package.json")) as refl.
  pose proof (addsTo_trans (createdPaths projectName)
                (inProject projectName "package.json")) as trans.
  unfold createFiles.
  apply (relates_bind _ trans); [| intros ?].
  { destruct (Js.truthy (Js.ofArg projectName)) eqn:Hnamed; [| by apply relates_ret].
    apply relates_when_missing; [| by apply relates_ret].
    intros w. by apply addsTo_mkdir, createdPaths_named. }
  apply (relates_bind _ trans); [| intros ?].
  { apply relates_when_missing; [| by apply relates_ret].
    intros w. apply addsTo_mkdir, createdPaths_inProject. set_solver. }
  apply (relates_bind _ trans); [| intros ?].
  { apply (relates_bind _ trans); [by apply relates_fileExists | intros found].
    apply relates_if.
    - apply (relates_bind _ trans); [by apply relates_readFile | intros content].
      apply (relates_bind _ trans); [by apply relates_JSON_parse | intros packageJson].
      apply (relates_bind _ trans); [by apply relates_addScripts | intros packageJson'].
      apply (relates_bind _ trans); [apply addsTo_rewrite | intros ?; apply addsTo_emit].
    - apply (relates_bind _ trans); [apply addsTo_rewrite | intros ?; apply addsTo_emit]. }
  apply (relates_bind _ trans); [| intros ?].
  { apply addsTo_createIfMissing, createdPaths_inProject. set_solver. }
  apply (relates_bind _ trans); [| intros ?].
  { apply addsTo_createIfMissing, createdPaths_inProject. set_solver. }
  apply addsTo_createIfMissing, createdPaths_inProject. set_solver.
Qed.

Lemma shows_createFiles (cwdName : string) (projectName : option string) :
  relates (shows isConsole) (createFiles cwdName projectName).
Proof.
  unfold createFiles, createIfMissing, addScripts, consoleLog.
  repeat first
    [ progress relates_with (shows_refl isConsole) (shows_trans isConsole)
    | apply relates_whenTruthy
    | apply shows_writeFile
    | apply shows_mkdir
    | apply shows_emit; exact I
    | intros ? ].
Qed.

(** X23.  Creating a project overwrites no file but the manifest.  In a
    state with room for the project, whatever [createFiles] does, and
    whether it returns or throws: every regular file other than the
    [package.json] of the project is left with its content; a path that
    named nothing and names something afterwards is the project
    directory, [lib], [package.json], [tsconfig.json], [lib/index.ts]
    or [lib/index.test.ts]; and the only other effect is output on the
    console. *)
Theorem createFiles_only_adds (cwdName : string) (projectName : option string)
    (w : World) :
  projectFits projectName (fs w) →
  let w' := (createFiles cwdName projectName w).2 in
  (∀ path text, fs w !! path = Some (File text) →
                path ≠ inProject projectName "package.json" →
                fs w' !! path = Some (File text))
  ∧ (∀ path, fs w !! path = None → is_Some (fs w' !! path) →
             path = inProject projectName "package.json"
             ∨ path ∈ createdPaths projectName)
  ∧ ∃ shown, events w' = (events w ++ shown)%list ∧ ∀ ev, ev ∈ shown → isConsole ev.
Proof.
  intros _ w'. pose proof (addsTo_createFiles cwdName projectName w) as Hadds.
  fold w' in Hadds. split; [| split].
  - intros path text Hfile Hpath.
    destruct (Hadds path) as [Hsame | [-> | [Hnone _]]]; [by rewrite Hsame | done |].
    by rewrite Hfile in Hnone.
  - intros path Hnone [n Hnode].
    destruct (Hadds path) as [Hsame | [-> | [_ Hin]]]; [| by left | by right].
    by rewrite Hsame, Hnone in Hnode.
  - destruct (shows_createFiles cwdName projectName w) as (shown & Hevents & Hshown).
    exists shown. split; [done | by apply Forall_forall].
Qed.

Lemma inProject_inj (projectName : option string) (p q : string) :
  inProject projectName p = inProject projectName q → p = q.
Proof.
  unfold inProject. destruct projectName as [name |]; [| done].
  destruct (Js.truthy _); [| done].
  intros Heq. by apply (inj (String.app "/")), (inj (String.app name)).
Qed.

Lemma inProject_not_projectDir (projectName : option string) (p : string) :
  Js.truthy (Js.ofArg projectName) = true →
  inProject projectName p ≠ default "" projectName.
Proof.
  unfold inProject. destruct projectName as [name |]; [| done].
  intros ->. cbn [default from_option id]. by apply append_longer.
Qed.

(** [if (!(await fileExists(path))) { await fs.mkdir(path); ... }] *)
Lemma ensureDir_run (path message : string) (w : World) :
  ∃ w',
    (found ← fileExists (Some (JStr path));
     if negb found then Fs.mkdir path ;; consoleLog message else ret tt) w = (Ret tt, w')
    ∧ (∀ q, q ≠ path → fs w' !! q = fs w !! q)
    ∧ is_Some (fs w' !! path).
Proof.
  rewrite (run_bind _ _ _ _ _ (fileExists_path path w)).
  destruct (fs w !! path) as [n |] eqn:Hnode.
  - rewrite bool_decide_eq_true_2 by done. exists w. by rewrite Hnode.
  - rewrite bool_decide_eq_false_2 by (by intros []).
    unfold negb, mbind, M_bind, bind, Fs.mkdir, consoleLog, emit. rewrite Hnode.
    eexists. split; [reflexivity |]. cbn [fs]. split.
    + intros q Hq. by rewrite lookup_insert_ne.
    + by rewrite lookup_insert_eq.
Qed.

Lemma createIfMissing_run (path : string) (text : option json) (made skipped : string)
    (w : World) :
  ∃ w',
    createIfMissing path text made skipped w = (Ret tt, w')
    ∧ (∀ q, q ≠ path → fs w' !! q = fs w !! q)
    ∧ fs w' !! path = Some (default (File text) (fs w !! path)).
Proof.
  unfold createIfMissing.
  rewrite (run_bind _ _ _ _ _ (fileExists_path path w)).
  destruct (fs w !! path) as [n |] eqn:Hnode.
  - rewrite bool_decide_eq_true_2 by done. eexists. split; [reflexivity |].
    cbn [fs]. by rewrite Hnode.
  - rewrite bool_decide_eq_false_2 by (by intros []).
    unfold negb, mbind, M_bind, bind, Fs.writeFile, consoleLog, emit. rewrite Hnode.
    eexists. split; [reflexivity |]. cbn [fs]. split.
    + intros q Hq. by rewrite lookup_insert_ne.
    + by rewrite lookup_insert_eq.
Qed.

(** The first two statements of [createFiles]: they return, in a world
    [w2] that has the files of [w] at every file of the project. *)
Lemma projectDirs_run (projectName : option string) (w : World) :
  ∃ w2,
    (∀ p, p ∈ ["package.json"; "tsconfig.json"; "lib/index.ts"; "lib/index.test.ts"] →
          fs w2 !! inProject projectName p = fs w !! inProject projectName p)
    ∧ is_Some (fs w2 !! inProject projectName "lib")
    ∧ ∀ k : M unit,
        ((if Js.truthy (Js.ofArg projectName) then
            found ← fileExists (Some (JStr (default "" projectName)));
            if negb found then
              Fs.mkdir (default "" projectName) ;;
              consoleLog ("Created project directory: " +:+ default "" projectName)
            else ret tt
          else ret tt) ;;
         (found ← fileExists (Some (JStr (inProject projectName "lib")));
          if negb found then
            Fs.mkdir (inProject projectName "lib") ;;
            consoleLog "Created lib directory"
          else ret tt) ;;
         k) w
        = k w2.
Proof.
  assert (Hfirst : ∃ w1,
    (if Js.truthy (Js.ofArg projectName) then
       found ← fileExists (Some (JStr (default "" projectName)));
       if negb found then
         Fs.mkdir (default "" projectName) ;;
         consoleLog ("Created project directory: " +:+ default "" projectName)
       else ret tt
     else ret tt) w = (Ret tt, w1)
    ∧ ∀ p, fs w1 !! inProject projectName p = fs w !! inProject projectName p).
  { destruct (Js.truthy (Js.ofArg projectName)) eqn:Hnamed; [| by exists w].
    destruct (ensureDir_run (default "" projectName)
                ("Created project directory: " +:+ default "" projectName) w)
      as (w1 & Hrun & Hframe & _).
    exists w1. split; [done |]. intros p. by apply Hframe, inProject_not_projectDir. }
  destruct Hfirst as (w1 & Hrun1 & Hframe1).
  destruct (ensureDir_run (inProject projectName "lib") "Created lib directory" w1)
    as (w2 & Hrun2 & Hframe2 & Hlib).
  exists w2. split; [| split; [done |]].
  - intros p Hp. rewrite Hframe2, Hframe1; [done |].
    intros Heq%inProject_inj. set_solver.
  - intros k. by rewrite (run_bind _ _ _ _ _ Hrun1), (run_bind _ _ _ _ _ Hrun2).
Qed.

(** The last three statements of [createFiles]: they return, and leave
    [package.json] and [lib] as they are. *)
Lemma projectFiles_run (projectName : option string) (w3 : World) :
  ∃ w',
    (createIfMissing (inProject projectName "tsconfig.json")
       (JSON_stringify tsconfigJson)
       "Created tsconfig.json" "tsconfig.json already exists, skipping" ;;
     createIfMissing (inProject projectName "lib/index.ts") None
       "Created lib/index.ts" "lib/index.ts already exists, skipping" ;;
     createIfMissing (inProject projectName "lib/index.test.ts") None
       "Created lib/index.test.ts" "lib/index.test.ts already exists, skipping") w3
    = (Ret tt, w')
    ∧ (∀ p, p ∈ ["package.json"; "lib"] →
            fs w' !! inProject projectName p = fs w3 !! inProject projectName p)
    ∧ fs w' !! inProject projectName "tsconfig.json"
      = Some (default (File (JSON_stringify tsconfigJson))
                (fs w3 !! inProject projectName "tsconfig.json")).
Proof.
  destruct (createIfMissing_run (inProject projectName "tsconfig.json")
              (JSON_stringify tsconfigJson)
              "Created tsconfig.json" "tsconfig.json already exists, skipping" w3)
    as (w4 & Hrun4 & Hframe4 & Hts).
  destruct (createIfMissing_run (inProject projectName "lib/index.ts") None
              "Created lib/index.ts" "lib/index.ts already exists, skipping" w4)
    as (w5 & Hrun5 & Hframe5 & _).
  destruct (createIfMissing_run (inProject projectName "lib/index.test.ts") None
              "Created lib/index.test.ts" "lib/index.test.ts already exists, skipping" w5)
    as (w6 & Hrun6 & Hframe6 & _).
  exists w6. split; [| split].
  - by rewrite (run_bind _ _ _ _ _ Hrun4), (run_bind _ _ _ _ _ Hrun5).
  - intros p Hp. rewrite Hframe6, Hframe5, Hframe4; [done | ..];
      intros Heq%inProject_inj; set_solver.
  - rewrite Hframe6, Hframe5, Hts; [done | ..]; intros Heq%inProject_inj; done.
Qed.

Lemma addScripts_object (manifest scripts : gmap string json) (w : World) :
  manifest !! "scripts" = Some (JObj scripts)
  ∨ (Js.truthy (manifest !! "scripts") = false ∧ scripts = ∅) →
  addScripts (JObj manifest) w
  = (Ret (JObj (<["scripts" := JObj (<["test" := testScript]>
                                      (<["build" := buildScript]> scripts))]> manifest)), w).
Proof.
  intros Hscripts. unfold addScripts.
  rewrite (run_bind _ _ w w (manifest !! "scripts")) by done.
  assert (Hfound : whenTruthy (manifest !! "scripts") ret
                     (setProp (JObj manifest) "scripts" (JObj ∅) ;; ret (JObj ∅)) w
                   = (Ret (JObj scripts), w)).
  { unfold whenTruthy. destruct Hscripts as [-> | [Hfalsy ->]]; [done |].
    rewrite Hfalsy. by destruct (manifest !! "scripts"). }
  by rewrite (run_bind _ _ _ _ _ Hfound).
Qed.

Section CreateFiles.

Variable cwdName : string.
Variable projectName : option string.

Local Abbreviation manifestPath := (inProject projectName "package.json").

(** The statement that creates or updates the manifest. *)
Local Abbreviation manifestStep :=
  (found ← fileExists (Some (JStr manifestPath));
   if found : bool then
     content ← Fs.readFile manifestPath;
     packageJson ← JSON_parse content;
     packageJson ← addScripts packageJson;
     Fs.writeFile manifestPath (JSON_stringify packageJson) ;;
     consoleLog "Updated package.json scripts"
   else
     Fs.writeFile manifestPath
       (JSON_stringify
          (newPackageJson (if Js.truthy (Js.ofArg projectName)
                           then default "" projectName else cwdName))) ;;
     consoleLog "Created package.json").

Lemma manifestStep_frame (w2 : World) (q : string) :
  q ≠ manifestPath → fs (manifestStep w2).2 !! q = fs w2 !! q.
Proof.
  intros Hq.
  pose proof (addsTo_refl [] manifestPath) as refl.
  pose proof (addsTo_trans [] manifestPath) as trans.
  assert (Hsteps : relates (addsTo [] manifestPath) manifestStep).
  { apply (relates_bind _ trans); [by apply relates_fileExists | intros found].
    apply relates_if.
    - apply (relates_bind _ trans); [by apply relates_readFile | intros content].
      apply (relates_bind _ trans); [by apply relates_JSON_parse | intros packageJson].
      apply (relates_bind _ trans); [by apply relates_addScripts | intros packageJson'].
      apply (relates_bind _ trans); [apply addsTo_rewrite | intros ?; apply addsTo_emit].
    - apply (relates_bind _ trans); [apply addsTo_rewrite | intros ?; apply addsTo_emit]. }
  destruct (Hsteps w2 q) as [Hsame | [-> | [_ Hin]]]; [done | done | set_solver].
Qed.

(** X24.  An existing manifest keeps what it has.  In a state with room
    for the project, when [package.json] holds an object whose [scripts]
    is an object, or a falsy value, which is replaced by a new object,
    [createFiles] returns and the manifest it leaves has the scripts
    [build] and [test] set, every other script as it was, and every
    other field as it was. *)
Theorem create_merges_scripts (manifest scripts : gmap string json) (w : World) :
  projectFits projectName (fs w) →
  fs w !! inProject projectName "package.json" = Some (File (Some (JObj manifest))) →
  manifest !! "scripts" = Some (JObj scripts)
  ∨ (Js.truthy (manifest !! "scripts") = false ∧ scripts = ∅) →
  ∃ w' manifest' scripts',
    createFiles cwdName projectName w = (Ret tt, w')
    ∧ fs w' !! inProject projectName "package.json" = Some (File (Some (JObj manifest')))
    ∧ manifest' !! "scripts" = Some (JObj scripts')
    ∧ (∀ k, k ≠ "scripts" → manifest' !! k = manifest !! k)
    ∧ scripts' !! "build" = Some buildScript
    ∧ scripts' !! "test" = Some testScript
    ∧ (∀ k, k ∉ ["build"; "test"] → scripts' !! k = scripts !! k).
Proof.
  intros _ Hfile Hscripts.
  destruct (projectDirs_run projectName w) as (w2 & Hsame & _ & Hstart).
  assert (Hfile2 : fs w2 !! manifestPath = Some (File (Some (JObj manifest)))).
  { rewrite Hsame; [done | set_solver]. }
  set (manifest' := <["scripts" := JObj (<["test" := testScript]>
                                          (<["build" := buildScript]> scripts))]> manifest).
  assert (Hstep : manifestStep w2
                  = (Ret tt, {| fs := <[manifestPath := File (Some (JObj manifest'))]> (fs w2);
                                events := (events w2
                                           ++ [ConsoleLog "Updated package.json scripts"])%list |})).
  { rewrite (run_bind _ _ _ _ _ (fileExists_present _ _ _ Hfile2)).
    rewrite (run_bind _ _ _ _ _ (readFile_file _ _ _ Hfile2)).
    unfold JSON_parse. rewrite (run_bind _ _ w2 w2 (JObj manifest)) by done.
    rewrite (run_bind _ _ _ _ _ (addScripts_object _ _ _ Hscripts)).
    by rewrite (run_bind _ _ _ _ _ (writeFile_file _ _ _ _ Hfile2)). }
  match type of Hstep with
  | _ = (_, ?w3) => destruct (projectFiles_run projectName w3) as (w' & Hrun & Hkept & _)
  end.
  exists w', manifest', (<["test" := testScript]> (<["build" := buildScript]> scripts)).
  split.
  { unfold createFiles. by rewrite Hstart, (run_bind _ _ _ _ _ Hstep). }
  split.
  { rewrite Hkept by set_solver. cbn [fs]. by rewrite lookup_insert_eq. }
  split; [apply lookup_insert_eq |].
  split; [intros k Hk; by apply lookup_insert_ne |].
  split; [by rewrite lookup_insert_ne, lookup_insert_eq |].
  split; [apply lookup_insert_eq |].
  intros k Hk. rewrite !not_elem_of_cons in Hk. destruct Hk as (? & ? & _).
  by rewrite !lookup_insert_ne.
Qed.

(** X25.  In a state with room for the project and without a manifest,
    [createFiles] returns and writes a new one, named after the project,
    or after the working directory when no project name, or an empty
    one, is given. *)
Theorem create_writes_new_manifest (w : World) :
  projectFits projectName (fs w) →
  fs w !! inProject projectName "package.json" = None →
  ∃ w',
    createFiles cwdName projectName w = (Ret tt, w')
    ∧ fs w' !! inProject projectName "package.json"
      = Some (File (Some (newPackageJson
                            (match projectName with
                             | Some name => if String.eqb name "" then cwdName else name
                             | None => cwdName
                             end)))).
Proof.
  intros _ Hfile.
  destruct (projectDirs_run projectName w) as (w2 & Hsame & _ & Hstart).
  assert (Hfile2 : fs w2 !! manifestPath = None).
  { rewrite Hsame; [done | set_solver]. }
  assert (Hstep : ∃ w3, manifestStep w2 = (Ret tt, w3)
                        ∧ fs w3 = <[manifestPath :=
                                      File (JSON_stringify
                                              (newPackageJson
                                                 (if Js.truthy (Js.ofArg projectName)
                                                  then default "" projectName
                                                  else cwdName)))]> (fs w2)).
  { rewrite (run_bind _ _ _ _ _ (fileExists_absent _ _ Hfile2)).
    unfold mbind, M_bind, bind, Fs.writeFile, consoleLog, emit. rewrite Hfile2.
    by eexists. }
  destruct Hstep as (w3 & Hstep & Hfs3).
  destruct (projectFiles_run projectName w3) as (w' & Hrun & Hkept & _).
  exists w'. split.
  { unfold createFiles. by rewrite Hstart, (run_bind _ _ _ _ _ Hstep). }
  rewrite Hkept by set_solver. rewrite Hfs3, lookup_insert_eq. unfold JSON_stringify.
  destruct projectName as [name |]; [| done].
  cbn [Js.ofArg fmap option_fmap option_map Js.truthy default from_option id].
  by destruct (String.eqb name "").
Qed.

(** X26.  A project created in place compiles from [lib]: when there was
    no [tsconfig.json], after [createFiles] the configuration that
    [readTSConfig] reads is the one just written, [detectSourceDir]
    answers [lib] without a flag, and [lib] exists. *)
Theorem created_project_compiles_from_lib (w w' : World) :
  Js.truthy (Js.ofArg projectName) = false →
  fs w !! "tsconfig.json" = None →
  createFiles cwdName projectName w = (Ret tt, w') →
  readTSConfig w' = (Ret tsconfigJson, w')
  ∧ detectSourceDir tsconfigJson None w' = (Ret (JStr "lib"), w')
  ∧ is_Some (fs w' !! "lib").
Proof.
  intros Hunnamed Hnone Hrun.
  assert (Hpath : ∀ p, inProject projectName p = p).
  { intros p. unfold inProject. destruct projectName; [by rewrite Hunnamed | done]. }
  destruct (projectDirs_run projectName w) as (w2 & Hsame & Hlib & Hstart).
  unfold createFiles in Hrun. rewrite Hstart in Hrun.
  destruct (manifestStep w2) as [[[] | e | s] w3] eqn:Hstep;
    [| by rewrite (run_bind_throw _ _ _ _ _ Hstep) in Hrun
     | by rewrite (run_bind_exit _ _ _ _ _ Hstep) in Hrun].
  rewrite (run_bind _ _ _ _ _ Hstep) in Hrun.
  destruct (projectFiles_run projectName w3) as (w'' & Hrun' & Hkept & Htsconfig).
  rewrite Hrun' in Hrun. injection Hrun as <-.
  assert (Hframe : ∀ q, q ≠ manifestPath → fs w3 !! q = fs w2 !! q).
  { intros q Hq. by rewrite <- (manifestStep_frame w2 q Hq), Hstep. }
  rewrite Hframe in Htsconfig by (intros Heq%inProject_inj; done).
  rewrite Hsame in Htsconfig by set_solver.
  rewrite Hpath, Hnone in Htsconfig. cbn [default from_option id] in Htsconfig.
  split; [| split].
  - unfold readTSConfig.
    rewrite (run_bind _ _ _ _ _ (fileExists_present _ _ _ Htsconfig)).
    cbn [negb]. unfold tryCatch, tsconfigPath.
    by rewrite (run_bind _ _ _ _ _ (readFile_file _ _ _ Htsconfig)).
  - assert (HrootDir : Js.get (Js.get (Some tsconfigJson) "compilerOptions") "rootDir"
                       = Some (JStr "lib")) by (vm_compute; reflexivity).
    unfold detectSourceDir, whenTruthy. cbn [Js.ofArg fmap option_fmap option_map].
    by rewrite HrootDir.
  - rewrite <- (Hpath "lib"). rewrite Hkept by set_solver.
    rewrite Hframe by (intros Heq%inProject_inj; done). done.
Qed.

End CreateFiles.

Lemma neverExits_whenTruthy {A} (v : value) (yes : json → M A) (no : M A) :
  (∀ j, neverExits (yes j)) → neverExits no → neverExits (whenTruthy v yes no).
Proof. intros Hyes Hno. unfold whenTruthy. destruct v; [by destruct (Js.truthy _) | done]. Qed.

Lemma neverExits_createFiles (cwdName : string) (projectName : option string) :
  neverExits (createFiles cwdName projectName).
Proof.
  unfold createFiles, createIfMissing, addScripts, consoleLog.
  repeat first [ progress neverExits_steps | apply neverExits_whenTruthy | intros ? ].
Qed.

Section Installation.

Variable packageInstallIn : string → string → bool → FileSystem → option error * FileSystem.
Variable cwdName : string.

Lemma installDependencies_returns (projectName : option string) (w : World) :
  ∃ w', installDependencies packageInstallIn projectName w = (Ret tt, w').
Proof.
  unfold installDependencies, tryCatch.
  match goal with
  | |- context [match ?body w with _ => _ end] =>
      assert (Hbody : neverExits body);
      [| specialize (Hbody w); destruct (body w) as [[[] | e | s] w1]]
  end.
  - apply neverExits_bind; [| intros ?].
    { apply neverExits_if; [| apply neverExits_ret].
      intros w0. unfold chdir. by destruct (fs w0 !! _) as [[] |]. }
    apply neverExits_bind; [| intros ?].
    { intros w0. unfold installIn. by destruct (packageInstallIn _ _ _ _) as [[] files]. }
    apply neverExits_bind; [| intros ?; apply neverExits_emit].
    intros w0. unfold installIn. by destruct (packageInstallIn _ _ _ _) as [[] files].
  - by eexists.
  - by eexists.
  - done.
Qed.

(** X27.  Only the files can make [createProject] fail.  It never ends
    the process; it throws exactly when [createFiles] throws, with the
    world as [createFiles] left it, so nothing is installed then; a
    directory that cannot be entered or an installation that fails is
    reported on the console and the function still returns. *)
Theorem createProject_fails_only_in_createFiles (projectName : option string) (w : World) :
  match createProject packageInstallIn cwdName projectName w with
  | (Ret _, _) => ∃ w1, createFiles cwdName projectName w = (Ret tt, w1)
  | (Throw e, w') => createFiles cwdName projectName w = (Throw e, w')
  | (Exit _, _) => False
  end.
Proof.
  unfold createProject.
  pose proof (neverExits_createFiles cwdName projectName w) as Hfiles.
  destruct (createFiles cwdName projectName w) as [[[] | e | s] w1] eqn:Hrun;
    cbn [fst] in Hfiles; [| by rewrite (run_bind_throw _ _ _ _ _ Hrun) | done].
  rewrite (run_bind _ _ _ _ _ Hrun).
  set (w2 := {| fs := fs w1;
                events := (events w1
                           ++ [ConsoleLog (nl +:+ "Installing dependencies...")])%list |}).
  rewrite (run_bind _ _ w1 w2 tt) by done.
  destruct (installDependencies_returns projectName w2) as [w3 Hinstall].
  rewrite (run_bind _ _ _ _ _ Hinstall).
  unfold consoleLog, emit, mbind, M_bind, bind.
  destruct (Js.truthy (Js.ofArg projectName)); by exists w1.
Qed.

End Installation.

(** ** The theorems at concrete inputs *)

Lemma update_idempotent_witness :
  ["index.ts"; "utils.ts"] ≠ []
  ∧ fs (manifestOnly exampleManifest) !! packageJsonPath
    = Some (File (Some (JObj exampleManifest)))
  ∧ ∃ w1,
      updatePackageJsonExports ["index.ts"; "utils.ts"] (Some "dist") false
        (manifestOnly exampleManifest) = (Ret tt, w1)
      ∧ updatePackageJsonExports ["index.ts"; "utils.ts"] (Some "dist") false w1
        = (Ret tt, w1).
Proof.
  split; [discriminate |]. split; [reflexivity |].
  apply (update_idempotent ["index.ts"; "utils.ts"] "dist" false exampleManifest
           (manifestOnly exampleManifest)); [discriminate | reflexivity].
Defined.

Lemma top_level_fields_follow_primary_entry_witness :
  fs (manifestOnly exampleManifest) !! packageJsonPath
  = Some (File (Some (JObj exampleManifest)))
  ∧ primaryEntry ["utils.ts"; "cli.ts"; "index.tsx"] = Some "index.tsx"
  ∧ ∃ manifest',
      updatePackageJsonExports ["utils.ts"; "cli.ts"; "index.tsx"] (Some "dist") false
        (manifestOnly exampleManifest)
      = (Ret tt, writeManifest manifest' (manifestOnly exampleManifest))
      ∧ manifest' !! "main" = Some (JStr "./dist/cjs/index.js")
      ∧ manifest' !! "module" = Some (JStr "./dist/esm/index.js")
      ∧ manifest' !! "types" = Some (JStr "./dist/types/index.d.ts").
Proof.
  split; [reflexivity |]. split; [reflexivity |].
  apply (top_level_fields_follow_primary_entry ["utils.ts"; "cli.ts"; "index.tsx"]
           (Some "dist") false exampleManifest (manifestOnly exampleManifest) "index.tsx");
    reflexivity.
Defined.

Lemma dry_run_only_prints_witness :
  parseArgs ["node"; "cmplr"; "--dry-run"] exampleProject
  = (Ret (CLIArgs.setDryRun true CLIArgs.defaults), exampleProject)
  ∧ fs (exampleRun ["node"; "cmplr"; "--dry-run"] exampleProject).2 = fs exampleProject
  ∧ ∃ shown,
      events (exampleRun ["node"; "cmplr"; "--dry-run"] exampleProject).2
      = (events exampleProject ++ shown)%list
      ∧ ∀ ev, ev ∈ shown → isConsole ev.
Proof.
  split; [by vm_compute |].
  apply (dry_run_only_prints exampleConvert (λ _ files, (true, files))
           (λ _ _ files, (None, files)) (λ _, true) exampleTempDir (λ _, ret tt) (ret tt)
           (λ _, ret tt)
           ["node"; "cmplr"; "--dry-run"] (CLIArgs.setDryRun true CLIArgs.defaults)
           exampleProject exampleProject);
    by vm_compute.
Defined.

Lemma declarations_need_tsconfig_witness :
  (CLIArgs.noTypes CLIArgs.defaults = true ∨ Js.truthy (Some JNull) = false)
  ∧ ∃ shown,
      events (exampleSteps CLIArgs.defaults JNull (JStr "src") exampleProject).2
      = (events exampleProject ++ shown)%list
      ∧ ∀ command, Exec command ∈ shown →
                   startsWith command "npx tsc --declaration" = false.
Proof.
  split; [right; reflexivity |].
  apply (declarations_need_tsconfig exampleConvert (λ _ files, (true, files))
           (λ _ _ files, (None, files)) (λ _, true) exampleTempDir
           CLIArgs.defaults JNull (JStr "src") exampleProject).
  right. reflexivity.
Defined.


Lemma compile_installs_only_for_type_check_witness :
  CLIArgs.typeCheck CLIArgs.defaults = false
  ∧ ∃ shown,
      events (exampleSteps CLIArgs.defaults JNull (JStr "src") exampleProject).2
      = (events exampleProject ++ shown)%list
      ∧ ∀ package dev, Install package dev ∉ shown.
Proof.
  split; [reflexivity |].
  apply (compile_installs_only_for_type_check exampleConvert (λ _ files, (true, files))
           (λ _ _ files, (None, files)) (λ _, true) exampleTempDir
           CLIArgs.defaults JNull (JStr "src") exampleProject).
  reflexivity.
Defined.

Lemma parser_follows_source_files_witness :
  fs exampleProject !! "src" = Some (Dir exampleSources)
  ∧ createSWCConfig exampleConvert exampleConfig commonjs (JStr "src") exampleProject
    = (Ret (JObj exampleCjsConfig), exampleProject)
  ∧ parserField (JObj exampleCjsConfig) "syntax" = Some (JStr "typescript")
  ∧ parserField (JObj exampleCjsConfig) "tsx" = Some (JBool true)
  ∧ parserField (JObj exampleCjsConfig) "jsx" = Some (JBool true)
  ∧ (parserField (JObj exampleCjsConfig) "tsx" = Some (JBool true) →
     parserField (JObj exampleCjsConfig) "jsx" = Some (JBool true)
     ∧ parserField (JObj exampleCjsConfig) "syntax" = Some (JStr "typescript")).
Proof.
  split; [reflexivity |]. split; [by vm_compute |].
  apply (parser_follows_source_files exampleConvert exampleConfig commonjs "src"
           exampleSources (JObj exampleCjsConfig) exampleProject exampleProject);
    [reflexivity | by vm_compute].
Defined.

Lemma converter_settings_pass_through_witness :
  Js.truthy (Some exampleConfig) = true
  ∧ createSWCConfig exampleConvert exampleConfig commonjs (JStr "src") exampleProject
    = (Ret (JObj exampleCjsConfig), exampleProject)
  ∧ Js.get (Some (JObj exampleCjsConfig)) "minify" = Some (JBool false).
Proof.
  split; [reflexivity |]. split; [by vm_compute |].
  destruct (converter_settings_pass_through exampleConvert exampleConfig commonjs
              (JStr "src") (JObj exampleCjsConfig)
              (JObj {["jsc" := JObj {["target" := JStr "es2022"]}; "minify" := JBool false]})
              exampleProject exampleProject) as [Htop _];
    [reflexivity | reflexivity | by vm_compute |].
  rewrite (Htop "minify"); [by vm_compute |].
  rewrite !not_elem_of_cons. repeat split; (discriminate || apply not_elem_of_nil).
Defined.

Lemma converter_failure_falls_back_witness :
  Js.truthy (Some exampleConfig) = true
  ∧ (∀ path text, JStr "src" = JStr path → fs exampleProject !! path ≠ Some (File text))
  ∧ ∃ config,
      createSWCConfig (λ _, None) exampleConfig es6 (JStr "src") exampleProject
      = (Ret config,
         {| fs := fs exampleProject;
            events := (events exampleProject ++ [ConsoleWarn "Warning: Could not convert tsconfig with tsconfig-swc, using fallback"])%list |})
      ∧ Js.get (Js.get (Some config) "jsc") "target" = Some (JStr "es2020")
      ∧ Js.get (Js.get (Some config) "jsc") "loose" = Some (JBool false)
      ∧ Js.get (Js.get (Some config) "jsc") "externalHelpers" = Some (JBool false)
      ∧ Js.get (Some config) "sourceMaps" = Some (JBool true)
      ∧ Js.get (Js.get (Some config) "module") "type" = Some (JStr "es6")
      ∧ ∀ k, k ∉ ["jsc"; "module"; "sourceMaps"; "exclude"] → Js.get (Some config) k = None.
Proof.
  assert (H : ∀ path text, JStr "src" = JStr path →
                           fs exampleProject !! path ≠ Some (File text))
    by (intros path text [= <-]; by vm_compute).
  split; [reflexivity |]. split; [exact H |].
  exact (converter_failure_falls_back (λ _, None) exampleConfig es6 (JStr "src")
           exampleProject eq_refl eq_refl H).
Defined.

Lemma entry_point_base_name_witness :
  isEntryPoint "api.v2.tsx" = true
  ∧ without "/" "api.v2.tsx"
  ∧ ∃ stem ext,
      ext ∈ ["ts"; "tsx"; "js"; "jsx"]
      ∧ "api.v2.tsx" = stem +:+ "." +:+ ext
      ∧ (stem ≠ "" → Path.name "api.v2.tsx" = stem).
Proof.
  assert (H : without "/" "api.v2.tsx").
  { intros i. by do 11 (destruct i as [|i]; [by vm_compute |]). }
  split; [reflexivity |]. split; [exact H |].
  exact (entry_point_base_name "api.v2.tsx" eq_refl H).
Defined.

Lemma projectFits_unnamed (w : World) :
  (∀ text, fs w !! "lib" ≠ Some (File text)) → projectFits None (fs w).
Proof. intros Hlib. split; [done | exact Hlib]. Qed.

Lemma plainName_my_project : plainName "my-project".
Proof.
  split; [discriminate |]. split; [discriminate |].
  intros i. by do 11 (destruct i as [|i]; [by vm_compute |]).
Qed.

Lemma projectFits_my_project : projectFits (Some "my-project") (fs exampleNothing).
Proof.
  split; [intros _; split; [apply plainName_my_project |] |]; intros text; by vm_compute.
Qed.

Lemma createFiles_only_adds_witness :
  projectFits (Some "my-project") (fs exampleNothing)
  ∧ (∀ path text, fs exampleNothing !! path = Some (File text) →
                  path ≠ inProject (Some "my-project") "package.json" →
                  fs (createFiles "demo" (Some "my-project") exampleNothing).2 !! path
                  = Some (File text))
  ∧ (∀ path, fs exampleNothing !! path = None →
             is_Some (fs (createFiles "demo" (Some "my-project") exampleNothing).2 !! path) →
             path = inProject (Some "my-project") "package.json"
             ∨ path ∈ createdPaths (Some "my-project"))
  ∧ ∃ shown,
      events (createFiles "demo" (Some "my-project") exampleNothing).2
      = (events exampleNothing ++ shown)%list
      ∧ ∀ ev, ev ∈ shown → isConsole ev.
Proof.
  split; [apply projectFits_my_project |].
  apply (createFiles_only_adds "demo" (Some "my-project") exampleNothing).
  apply projectFits_my_project.
Defined.

Lemma create_merges_scripts_witness :
  projectFits None (fs exampleOwnScripts)
  ∧ fs exampleOwnScripts !! inProject None "package.json"
    = Some (File (Some (JObj (<["name" := JStr "demo"]>
                              {["scripts" := JObj {["lint" := JStr "eslint ."]}]}))))
  ∧ ∃ w' manifest' scripts',
      createFiles "demo" None exampleOwnScripts = (Ret tt, w')
      ∧ fs w' !! inProject None "package.json" = Some (File (Some (JObj manifest')))
      ∧ manifest' !! "scripts" = Some (JObj scripts')
      ∧ (∀ k, k ≠ "scripts" →
              manifest' !! k
              = (<["name" := JStr "demo"]>
                 {["scripts" := JObj {["lint" := JStr "eslint ."]}]} : gmap string json) !! k)
      ∧ scripts' !! "build" = Some buildScript
      ∧ scripts' !! "test" = Some testScript
      ∧ (∀ k, k ∉ ["build"; "test"] →
              scripts' !! k = ({["lint" := JStr "eslint ."]} : gmap string json) !! k).
Proof.
  assert (Hfits : projectFits None (fs exampleOwnScripts)).
  { apply projectFits_unnamed. intros text. by vm_compute. }
  split; [exact Hfits |]. split; [by vm_compute |].
  apply (create_merges_scripts "demo" None
           (<["name" := JStr "demo"]> {["scripts" := JObj {["lint" := JStr "eslint ."]}]})
           {["lint" := JStr "eslint ."]} exampleOwnScripts);
    [exact Hfits | by vm_compute | left; by vm_compute].
Defined.

Lemma create_writes_new_manifest_witness :
  projectFits (Some "my-project") (fs exampleNothing)
  ∧ fs exampleNothing !! inProject (Some "my-project") "package.json" = None
  ∧ ∃ w',
      createFiles "demo" (Some "my-project") exampleNothing = (Ret tt, w')
      ∧ fs w' !! inProject (Some "my-project") "package.json"
        = Some (File (Some (newPackageJson "my-project"))).
Proof.
  split; [apply projectFits_my_project |]. split; [by vm_compute |].
  apply (create_writes_new_manifest "demo" (Some "my-project") exampleNothing);
    [apply projectFits_my_project | by vm_compute].
Defined.

Lemma created_project_compiles_from_lib_witness :
  Js.truthy (Js.ofArg None) = false
  ∧ fs exampleNothing !! "tsconfig.json" = None
  ∧ createFiles "demo" None exampleNothing = (Ret tt, exampleCreated)
  ∧ readTSConfig exampleCreated = (Ret tsconfigJson, exampleCreated)
  ∧ detectSourceDir tsconfigJson None exampleCreated = (Ret (JStr "lib"), exampleCreated)
  ∧ is_Some (fs exampleCreated !! "lib").
Proof.
  split; [reflexivity |]. split; [by vm_compute |]. split; [by vm_compute |].
  apply (created_project_compiles_from_lib "demo" None exampleNothing exampleCreated);
    by vm_compute.
Defined.
